(** * Marathon-QuickFilter: the scraper's core, embedded and verified

    A shallow embedding of [scraper.py]: the postback navigation
    ([get_filtered_soup]), the table extraction ([parse_table_to_df] with its
    local helpers [parse_event_date], [make_maps_link], [make_maps_embed]),
    the keyword filter of the query button, the address table of the map
    preview and the construction of the download file name.

    Python values are modelled as follows.
    - a [str] is the list of its Unicode code points ([pystr]);
    - an exception is a value of [exn], and a computation that may raise
      has type [result A];
    - a BeautifulSoup tree is a [node];
    - a pandas frame is a list of labelled columns ([DataFrame]). *)

From Stdlib Require Import ZArith NArith Lia Ascii String Sorted.
From stdpp Require Import base decidable option list numbers.

Set Default Proof Using "Type".
Set Warnings "-register-all".

(** ** Python strings *)

Abbreviation codepoint := N (only parsing).
Abbreviation pystr := (list N) (only parsing).

(** String literals are written in UTF-8 in this file and decoded to code
    points, so that [u "日期"] is the two-character Python string. *)

Fixpoint bytes_of_string (s : string) : list N :=
  match s with
  | EmptyString => []
  | String a s' => N_of_ascii a :: bytes_of_string s'
  end.

Fixpoint utf8_decode (bs : list N) : pystr :=
  match bs with
  | [] => []
  | b0 :: r0 =>
    if (b0 <? 128)%N then b0 :: utf8_decode r0 else
    match r0 with
    | [] => []
    | b1 :: r1 =>
      if (b0 <? 224)%N then ((b0 mod 32) * 64 + b1 mod 64)%N :: utf8_decode r1 else
      match r1 with
      | [] => []
      | b2 :: r2 =>
        if (b0 <? 240)%N
        then ((b0 mod 16) * 4096 + (b1 mod 64) * 64 + b2 mod 64)%N :: utf8_decode r2
        else
          match r2 with
          | [] => []
          | b3 :: r3 =>
            ((b0 mod 8) * 262144 + (b1 mod 64) * 4096 + (b2 mod 64) * 64 + b3 mod 64)%N
              :: utf8_decode r3
          end
      end
    end
  end.

Definition u (s : string) : pystr := utf8_decode (bytes_of_string s).

Definition str_eqb (s t : pystr) : bool := bool_decide (s = t).

(** [str.isspace] on one character, which is also the class [\s] of a
    [str] pattern: the code points Python's Unicode database marks as
    whitespace. *)
Definition py_isspace (c : codepoint) : bool :=
  ((9 <=? c) && (c <=? 13) || (28 <=? c) && (c <=? 32)
   || (c =? 133) || (c =? 160) || (c =? 5760)
   || (8192 <=? c) && (c <=? 8202)
   || (c =? 8232) || (c =? 8233) || (c =? 8239) || (c =? 8287)
   || (c =? 12288))%N.

Fixpoint lstrip (s : pystr) : pystr :=
  match s with
  | c :: s' => if py_isspace c then lstrip s' else s
  | [] => []
  end.

Definition rstrip (s : pystr) : pystr := reverse (lstrip (reverse s)).

(** [s.strip()] *)
Definition strip (s : pystr) : pystr := rstrip (lstrip s).

(** [s.startswith(p)] *)
Fixpoint startswith (p s : pystr) : bool :=
  match p, s with
  | [], _ => true
  | a :: p', b :: s' => (a =? b)%N && startswith p' s'
  | _ :: _, [] => false
  end.

(** [p in s] for two strings: [p] occurs in [s] as a contiguous run. *)
Fixpoint contains (p s : pystr) : bool :=
  startswith p s ||
  match s with
  | [] => false
  | _ :: s' => contains p s'
  end.

(** [s.replace(" ", "_")] *)
Definition replace_space (s : pystr) : pystr :=
  map (fun c => if (c =? 32)%N then 95%N else c) s.

(** [sep.join(parts)] *)
Fixpoint join (sep : pystr) (parts : list pystr) : pystr :=
  match parts with
  | [] => []
  | [p] => p
  | p :: ps => p ++ sep ++ join sep ps
  end.

(** ** Exceptions *)

Inductive control := YearSelect | RegionSelect | TypeSelect.

(** The [Exception(...)] raised by [get_filtered_soup], one constructor per
    [raise] statement. *)
Inductive failure :=
| Unreachable
| GetStatus (code : Z)
| SelectMissing (c : control)
| NameMissing
| SelectedMissing
| FormMissing
| PostUnreachable
| PostStatus (target : pystr) (code : Z).

Inductive exn :=
| AttributeError
| IndexError
| TypeError
| ValueError
| UnicodeEncodeError
| ReError
| Exception (why : failure).

(** The outcome of a Python computation.  [Unmodelled] marks the inputs on
    which pandas takes a path (repeated column labels) that this
    development does not describe; nothing is claimed there. *)
Inductive result (A : Type) :=
| Returns (a : A)
| Raises (e : exn)
| Unmodelled.
Arguments Returns {A} a.
Arguments Raises {A} e.
Arguments Unmodelled {A}.

#[global] Instance result_ret : MRet result := fun A a => Returns a.

#[global] Instance result_bind : MBind result := fun A B k r =>
  match r with
  | Returns a => k a
  | Raises e => Raises e
  | Unmodelled => Unmodelled
  end.

#[global] Instance result_fmap : FMap result := fun A B f r =>
  match r with
  | Returns a => Returns (f a)
  | Raises e => Raises e
  | Unmodelled => Unmodelled
  end.

(** A list comprehension whose body may raise: the first exception ends
    it. *)
Fixpoint for_each {A B} (f : A -> result B) (l : list A) : result (list B) :=
  match l with
  | [] => Returns []
  | a :: l' => b ← f a; bs ← for_each f l'; Returns (b :: bs)
  end.

(** [l[i]] for a non-negative index. *)
Definition getitem {A} (l : list A) (i : nat) : result A :=
  match l !! i with
  | Some a => Returns a
  | None => Raises IndexError
  end.

(** ** Calendar dates: [datetime(year=, month=, day=)] *)

Record datetime := mk_datetime { dt_year : Z; dt_month : Z; dt_day : Z }.

Definition is_leap (y : Z) : bool :=
  ((y mod 4 =? 0) && (negb (y mod 100 =? 0) || (y mod 400 =? 0)))%Z.

Definition DAYS_IN_MONTH : list Z :=
  [-1; 31; 28; 31; 30; 31; 30; 31; 31; 30; 31; 30; 31]%Z.

Definition days_in_month (y m : Z) : Z :=
  if ((m =? 2)%Z && is_leap y) then 29%Z
  else nth (Z.to_nat m) DAYS_IN_MONTH 0%Z.

(** The constructor checks the fields and raises [ValueError] on a year
    outside 1..9999, a month outside 1..12 or a day the month does not
    have. *)
Definition datetime_new (y m d : Z) : result datetime :=
  if negb ((1 <=? y) && (y <=? 9999))%Z then Raises ValueError
  else if negb ((1 <=? m) && (m <=? 12))%Z then Raises ValueError
  else if negb ((1 <=? d) && (d <=? days_in_month y m))%Z then Raises ValueError
  else Returns (mk_datetime y m d).

(** ** [parse_event_date] *)

Section EventDate.

(** The decimal value Python's Unicode database gives a character:
    [Some v] for the decimal digits (the class [\d] of a [str] pattern,
    which [int] accepts), [None] for every other character.  The table
    belongs to the interpreter and is taken as given. *)
Variable todecimal : codepoint -> option Z.

Definition is_decimal (c : codepoint) : bool :=
  match todecimal c with Some _ => true | None => false end.

(** [\d{4}] at the head of [s]. *)
Definition four_digits (s : pystr) : option pystr :=
  match s with
  | a :: b :: c :: d :: _ =>
    if is_decimal a && is_decimal b && is_decimal c && is_decimal d
    then Some [a; b; c; d] else None
  | _ => None
  end.

(** [re.match(r"^\s*(\d{4})", s)]: group 1 of the match, if any.  The
    star is greedy and gives characters back one at a time. *)
Fixpoint match_year (s : pystr) : option pystr :=
  match s with
  | c :: s' =>
    if py_isspace c then
      match match_year s' with
      | Some g => Some g
      | None => four_digits s
      end
    else four_digits s
  | [] => four_digits s
  end.

(** The ways [\d{1,2}] matches at the head of [s], longest first, each
    with the text left over. *)
Definition one_or_two_digits (s : pystr) : list (pystr * pystr) :=
  match s with
  | a :: r =>
    if is_decimal a then
      match r with
      | b :: r' => if is_decimal b then [([a; b], r'); ([a], r)] else [([a], r)]
      | [] => [([a], r)]
      end
    else []
  | [] => []
  end.

(** [re.match(r"(\d{1,2})/(\d{1,2})", s)]: groups 1 and 2 of the first
    match in the matcher's order of preference. *)
Definition match_month_day (s : pystr) : option (pystr * pystr) :=
  head (flat_map (fun '(g1, r1) =>
          match r1 with
          | c :: r2 =>
            if (c =? 47)%N
            then map (fun '(g2, _) => (g1, g2)) (one_or_two_digits r2)
            else []
          | [] => []
          end) (one_or_two_digits s)).

(** [int(g)] for a run [g] of characters: base ten, [ValueError] on a
    character that is not a decimal digit. *)
Definition py_int (g : pystr) : result Z :=
  fold_left (fun acc c =>
               n ← acc;
               match todecimal c with
               | Some v => Returns (10 * n + v)%Z
               | None => Raises ValueError
               end) g (Returns 0%Z).

(** The local [year_val]: [now_year], which is [datetime.now().year],
    unless the event name starts with a year. *)
Definition event_year (now_year : Z) (event_name : pystr) : result Z :=
  match match_year event_name with
  | Some g => py_int g
  | None => Returns now_year
  end.

Definition parse_event_date (now_year : Z) (event_name date_str : pystr)
  : result (option datetime) :=
  year_val ← event_year now_year event_name;
  match match_month_day date_str with
  | None => Returns None
  | Some (g1, g2) =>
    month ← py_int g1;
    day ← py_int g2;
    match datetime_new year_val month day with
    | Returns d => Returns (Some d)
    | Raises ValueError => Returns None
    | Raises e => Raises e
    | Unmodelled => Unmodelled
    end
  end.

End EventDate.

(** The ASCII digits, the part of the decimal table the examples use. *)
Definition ascii_decimal (c : codepoint) : option Z :=
  if ((48 <=? c) && (c <=? 57))%N then Some (Z.of_N c - 48)%Z else None.

(** A decimal table agrees with Unicode on the ASCII range when it gives
    the digits 0..9 their values and no other ASCII character a value. *)
Definition ascii_faithful (todecimal : codepoint -> option Z) : Prop :=
  forall c, (c < 128)%N -> todecimal c = ascii_decimal c.

(** ** [urllib.parse.quote] *)

(** [str.encode("utf-8", "strict")] of one character.  A surrogate has no
    UTF-8 form and raises. *)
Definition utf8_encode_char (c : codepoint) : result (list N) :=
  (if c <? 128 then Returns [c]
   else if c <? 2048 then Returns [192 + c / 64; 128 + c mod 64]
   else if c <? 65536 then
     if (55296 <=? c) && (c <=? 57343) then Raises UnicodeEncodeError
     else Returns [224 + c / 4096; 128 + (c / 64) mod 64; 128 + c mod 64]
   else if c <? 1114112 then
     Returns [240 + c / 262144; 128 + (c / 4096) mod 64;
              128 + (c / 64) mod 64; 128 + c mod 64]
   else Raises UnicodeEncodeError)%N.

Definition utf8_encode (s : pystr) : result (list N) :=
  bs ← for_each utf8_encode_char s; Returns (concat bs).

(** The bytes [quote] leaves as they are: letters, digits, [_.-~] and the
    default safe character [/]. *)
Definition quote_safe (b : N) : bool :=
  ((65 <=? b) && (b <=? 90) || (97 <=? b) && (b <=? 122)
   || (48 <=? b) && (b <=? 57)
   || (b =? 95) || (b =? 46) || (b =? 45) || (b =? 126) || (b =? 47))%N.

Definition hex_digit (n : N) : codepoint :=
  (if n <? 10 then 48 + n else 55 + n)%N.

(** ['%{:02X}'.format(b)] *)
Definition percent (b : N) : pystr :=
  [37%N; hex_digit (b / 16); hex_digit (b mod 16)].

Definition quote_byte (b : N) : pystr :=
  if quote_safe b then [b] else percent b.

(** [urllib.parse.quote(s)] *)
Definition quote (s : pystr) : result pystr :=
  bs ← utf8_encode s; Returns (flat_map quote_byte bs).

Definition MAPS_SEARCH : pystr := u "https://www.google.com/maps/search/?api=1&query=".
Definition MAPS_EMBED : pystr := u "https://maps.google.com/maps?q=".
Definition OUTPUT_EMBED : pystr := u "&output=embed".

Definition make_maps_link (addr : pystr) : result pystr :=
  q ← quote addr; Returns (MAPS_SEARCH ++ q).

Definition make_maps_embed (addr : pystr) : result pystr :=
  q ← quote addr; Returns (MAPS_EMBED ++ q ++ OUTPUT_EMBED).

(** ** The download file name *)

(** [x in l] for a list of strings. *)
Definition in_list (x : pystr) (l : list pystr) : bool := existsb (str_eqb x) l.

(** [not s] for a string. *)
Definition is_empty {A} (l : list A) : bool :=
  match l with [] => true | _ => false end.

Definition pdf_filename (year_sel region_sel type_sel keyword : pystr) : pystr :=
  let fn_year :=
    if negb (in_list year_sel [u "now"; u "all"]) then year_sel else u "allYears" in
  let fn_region := region_sel in
  let fn_type := type_sel in
  let fn_keyword :=
    if negb (str_eqb (strip keyword) []) then replace_space (strip keyword) else [] in
  let filename_parts := [fn_year; fn_region; fn_type] in
  let filename_parts :=
    if negb (is_empty fn_keyword) then filename_parts ++ [fn_keyword]
    else filename_parts in
  join (u "_") filename_parts ++ u ".pdf".

(** ** BeautifulSoup trees *)

(** A parsed page.  [Text] is a string of the page's text; [OtherString]
    is a string [get_text] passes over (a comment, the body of a script or
    a style sheet, a declaration). *)
Inductive node :=
| Tag (name : pystr) (attrs : list (pystr * pystr)) (children : list node)
| Text (s : pystr)
| OtherString (s : pystr).

(** [tag.descendants]: every node below [n], in document order. *)
Fixpoint descendants (n : node) : list node :=
  match n with
  | Tag _ _ cs => flat_map (fun c => c :: descendants c) cs
  | _ => []
  end.

Fixpoint assoc {V} (k : pystr) (l : list (pystr * V)) : option V :=
  match l with
  | [] => None
  | (k', v) :: l' => if str_eqb k k' then Some v else assoc k l'
  end.

(** [tag.get(k)] *)
Definition attr (k : pystr) (n : node) : option pystr :=
  match n with
  | Tag _ a _ => assoc k a
  | _ => None
  end.

(** [tag.get(k, "")] *)
Definition attr_or_empty (k : pystr) (n : node) : pystr := default [] (attr k n).

(** [tag.has_attr(k)], which is also the filter [k=True]. *)
Definition has_attr (k : pystr) (n : node) : bool :=
  match attr k n with Some _ => true | None => false end.

(** The filter [k=v] on an attribute with one value. *)
Definition attr_is (k v : pystr) (n : node) : bool :=
  match attr k n with Some w => str_eqb w v | None => false end.

Definition is_tag (name : pystr) (n : node) : bool :=
  match n with
  | Tag t _ _ => str_eqb t name
  | _ => false
  end.

Definition is_tag_among (names : list pystr) (n : node) : bool :=
  match n with
  | Tag t _ _ => in_list t names
  | _ => false
  end.

(** [tag.find_all(...)] and [tag.find(...)], the filter given as a test. *)
Definition find_all (p : node -> bool) (n : node) : list node :=
  List.filter p (descendants n).

Definition find (p : node -> bool) (n : node) : option node :=
  head (find_all p n).

(** The strings [get_text(strip=True)] joins: each text string below the
    tag, stripped, the empty ones dropped. *)
Definition stripped_strings (n : node) : list pystr :=
  List.filter (fun s => negb (is_empty s))
    (omap (fun d => match d with Text s => Some (strip s) | _ => None end)
          (descendants n)).

(** [tag.get_text(separator=sep, strip=True)] *)
Definition get_text (sep : pystr) (n : node) : pystr :=
  join sep (stripped_strings n).

(** ** pandas frames *)

(** A cell: a string, a date, or the null a failed date parse leaves. *)
Inductive value :=
| VStr (s : pystr)
| VDate (d : datetime)
| VNull.

(** A frame is its row count and its columns in order, each with its
    label. *)
Record DataFrame := mk_frame { nrows : nat; cols : list (pystr * list value) }.

(** [pd.DataFrame()] *)
Definition empty_frame : DataFrame := mk_frame 0 [].

(** [df.columns] *)
Definition columns (df : DataFrame) : list pystr := map fst (cols df).

(** [df[label]] for a label the frame has. *)
Definition column (label : pystr) (df : DataFrame) : list value :=
  default [] (assoc label (cols df)).

(** [df.empty] *)
Definition df_empty (df : DataFrame) : bool :=
  (nrows df =? 0)%nat || is_empty (cols df).

(** Column [k] of a list of rows of strings. *)
Definition text_column (k : nat) (data : list (list pystr)) : list value :=
  omap (fun row => VStr <$> row !! k) data.

(** [pd.DataFrame(data, columns=headers)] for rows of strings. *)
Definition from_rows (headers : list pystr) (data : list (list pystr)) : DataFrame :=
  mk_frame (length data) (imap (fun k h => (h, text_column k data)) headers).

(** [df[label] = vals]: the column of that label is replaced, a new label
    is added at the end. *)
Definition set_column (label : pystr) (vals : list value) (df : DataFrame) : DataFrame :=
  if in_list label (columns df)
  then mk_frame (nrows df)
         (map (fun '(l, c) => if str_eqb l label then (l, vals) else (l, c)) (cols df))
  else mk_frame (nrows df) (cols df ++ [(label, vals)]).

(** [df[label] = v] for a scalar [v]. *)
Definition set_column_scalar (label : pystr) (v : value) (df : DataFrame) : DataFrame :=
  set_column label (replicate (nrows df) v) df.

(** The rows [df.iterrows()] yields, each as its labelled cells. *)
Definition iterrows (df : DataFrame) : list (list (pystr * value)) :=
  map (fun i => omap (fun '(l, c) => (fun v => (l, v)) <$> c !! i) (cols df))
      (seq 0 (nrows df)).

(** [r.get(label, dflt)] *)
Definition row_get (label : pystr) (dflt : value) (r : list (pystr * value)) : value :=
  default dflt (assoc label r).

(** A cell used where a [str] is required. *)
Definition as_str (v : value) : result pystr :=
  match v with
  | VStr s => Returns s
  | _ => Raises TypeError
  end.

(** ** [parse_table_to_df] *)

Definition TABLE_ID : pystr := u "ctl00_ContentPlaceHolder1_GridView1".
Definition BASE_URL : pystr := u "http://www.taipeimarathon.org.tw/contest.aspx".
Definition EVENT_NAME : pystr := u "賽事名稱".
Definition DATE : pystr := u "日期".
Definition LOCATION : pystr := u "地點".
Definition EVENT_LINK : pystr := u "賽事連結".
Definition PARSED_DATE : pystr := u "parsed_date".
Definition LOCATION_LINK : pystr := u "地點連結".
Definition LOCATION_EMBED : pystr := u "地點嵌入URL".

(** [l.index(x)] *)
Fixpoint list_index (x : pystr) (l : list pystr) : result nat :=
  match l with
  | [] => Raises ValueError
  | y :: l' => if str_eqb y x then Returns 0%nat else S <$> list_index x l'
  end.

(** The locals of [parse_table_to_df] once the table has been read. *)
Record extraction := mk_extraction {
  raw_headers : list pystr;
  valid_indices : list nat;
  headers : list pystr;
  data : list (list pystr);
  event_links : list pystr
}.

(** [enumerate(l)] *)
Definition enumerate {A} (l : list A) : list (nat * A) := imap pair l.

(** [h.strip() != ""] *)
Definition not_blank (h : pystr) : bool := negb (str_eqb (strip h) []).

(** [[i for i, h in enumerate(raw) if h.strip() != ""]] *)
Definition kept_indices (raw : list pystr) : list nat :=
  map fst (List.filter (fun '(_, h) => not_blank h) (enumerate raw)).

(** The test of [soup.find("table", id=...)]. *)
Definition results_table (n : node) : bool :=
  is_tag (u "table") n && attr_is (u "id") TABLE_ID n.

(** [[th.get_text(strip=True) for th in tbl.find_all("th")]] *)
Definition th_texts (tbl : node) : list pystr :=
  map (get_text []) (find_all (is_tag (u "th")) tbl).

(** The test of the fallback scan on one table. *)
Definition fallback_table (tbl : node) : bool :=
  let header_cells := th_texts tbl in
  in_list EVENT_NAME header_cells && in_list DATE header_cells.

(** The first table carrying the well-known id, else the first table
    among whose [th] texts are both the event-name and the date label. *)
Definition locate_table (soup : node) : option node :=
  match find results_table soup with
  | Some table => Some table
  | None => List.find fallback_table (find_all (is_tag (u "table")) soup)
  end.

(** [[cell.get_text(strip=True) for cell in header_row.find_all(["th", "td"])]] *)
Definition header_texts (header_row : node) : list pystr :=
  map (get_text []) (find_all (is_tag_among [u "th"; u "td"]) header_row).

(** [[cell.get_text(separator=" ", strip=True) for cell in row.find_all("td")]] *)
Definition row_texts (row : node) : list pystr :=
  map (get_text (u " ")) (find_all (is_tag (u "td")) row).

Section Extract.

Variable todecimal : codepoint -> option Z.

(** [urllib.parse.urljoin(base, href)], a library function the claims do
    not depend on; it may raise [ValueError] on a malformed authority. *)
Variable urljoin : pystr -> pystr -> result pystr.

(** [datetime.now().year], taken as constant during one extraction. *)
Variable now_year : Z.

(** The link of the event-name cell. *)
Definition event_link (td_event : node) : result pystr :=
  match find (fun n => is_tag (u "a") n && has_attr (u "href") n) td_event with
  | Some a_tag =>
    let href := attr_or_empty (u "href") a_tag in
    if startswith (u "http") href then Returns href
    else urljoin BASE_URL href
  | None => Returns []
  end.

(** One turn of the loop over the data rows: [None] for a row that is
    skipped, else the row's kept texts and its link. *)
Definition scan_row (valid : list nat) (event_idx : nat) (row : node)
  : result (option (list pystr * pystr)) :=
  let cells := find_all (is_tag (u "td")) row in
  if is_empty cells then Returns None else
  let texts := row_texts row in
  if forallb is_empty texts then Returns None else
  filtered_texts ← for_each (getitem texts) valid;
  i ← getitem valid event_idx;
  td_event ← getitem (find_all (is_tag (u "td")) row) i;
  full_url ← event_link td_event;
  Returns (Some (filtered_texts, full_url)).

(** The table read into the locals; [None] is the early
    [return pd.DataFrame()] of a header without the event-name label. *)
Definition extract_table (table : node) : result (option extraction) :=
  match find (is_tag (u "tr")) table with
  | None => Raises AttributeError
  | Some header_row =>
    let raw := header_texts header_row in
    let valid := kept_indices raw in
    hs ← for_each (getitem raw) valid;
    if negb (in_list EVENT_NAME hs) then Returns None else
    event_idx ← list_index EVENT_NAME hs;
    scanned ← for_each (scan_row valid event_idx)
                       (drop 1 (find_all (is_tag (u "tr")) table));
    Returns (Some (mk_extraction raw valid hs
                     (map fst (omap id scanned)) (map snd (omap id scanned))))
  end.

(** The date of one row of the frame. *)
Definition row_date (r : list (pystr * value)) : result value :=
  evn ← as_str (row_get EVENT_NAME (VStr []) r);
  dt_txt ← as_str (row_get DATE (VStr []) r);
  d ← parse_event_date todecimal now_year evn dt_txt;
  Returns (match d with Some x => VDate x | None => VNull end).

(** [series.apply(f)] for a function on strings that yields a string. *)
Definition apply_str (f : pystr -> result pystr) (series : list value)
  : result (list value) :=
  for_each (fun v => s ← as_str v; t ← f s; Returns (VStr t)) series.

(** The frame built from the locals, with its derived columns. *)
Definition build_frame (e : extraction) : result DataFrame :=
  if negb (bool_decide (NoDup (headers e))) then Unmodelled else
  let df := from_rows (headers e) (data e) in
  let df := set_column EVENT_LINK (map VStr (event_links e)) df in
  parsed_dates ← for_each row_date (iterrows df);
  let df := set_column PARSED_DATE parsed_dates df in
  if in_list LOCATION (columns df) then
    links ← apply_str make_maps_link (column LOCATION df);
    let df := set_column LOCATION_LINK links df in
    embeds ← apply_str make_maps_embed (column LOCATION df);
    Returns (set_column LOCATION_EMBED embeds df)
  else
    let df := set_column_scalar LOCATION_LINK (VStr []) df in
    Returns (set_column_scalar LOCATION_EMBED (VStr []) df).

Definition parse_table_to_df (soup : node) : result DataFrame :=
  match locate_table soup with
  | None => Returns empty_frame
  | Some table =>
    x ← extract_table table;
    match x with
    | None => Returns empty_frame
    | Some e => build_frame e
    end
  end.

End Extract.

(** ** The keyword filter of the query button *)

(** The characters with a meaning of their own in a pattern of [re]. *)
Definition re_special (c : codepoint) : bool :=
  bool_decide (c ∈ u ".^$*+?{}[]\|()").

Section KeywordFilter.

(** The record set is taken as its list of rows, a row as the list of
    its cells; [astype_str] is the text [r.astype(str)] gives a cell. *)
Variable Cell : Type.
Variable astype_str : Cell -> pystr.

(** [re.compile(pat)], given by what the compiled pattern's [search]
    answers on a text ([pat.search(x) is not None]); [None] when the
    pattern is rejected with [re.error].  [Series.str.contains] treats
    its argument as such a pattern. *)
Variable re_compile : pystr -> option (pystr -> bool).

(** [series.str.contains(keyword)] *)
Definition str_contains (keyword : pystr) (series : list pystr) : result (list bool) :=
  match re_compile keyword with
  | Some search => Returns (map search series)
  | None => Raises ReError
  end.

(** [lambda r: r.astype(str).str.contains(keyword).any()] *)
Definition row_mask (keyword : pystr) (r : list Cell) : result bool :=
  hits ← str_contains keyword (map astype_str r); Returns (existsb id hits).

(** [df[mask]] *)
Definition select_rows {A} (df : list A) (mask : list bool) : list A :=
  map fst (List.filter snd (zip df mask)).

Definition keyword_filter (keyword : pystr) (df : list (list Cell))
  : result (list (list Cell)) :=
  if negb (str_eqb (strip keyword) []) then
    mask ← for_each (row_mask keyword) df;
    Returns (select_rows df mask)
  else Returns df.

(** What the claim asks of a row: some cell's text contains the
    keyword. *)
Definition row_contains (keyword : pystr) (r : list Cell) : bool :=
  existsb (fun c => contains keyword (astype_str c)) r.

(** A pattern without special characters is searched for as it is
    written. *)
Definition literal_patterns : Prop :=
  forall p, forallb (fun c => negb (re_special c)) p = true ->
    exists search, re_compile p = Some search /\ forall s, search s = contains p s.

End KeywordFilter.

(** An instance of [re_compile] for running the filter on examples: it
    compiles the patterns without special characters and rejects the
    others. *)
Definition literal_only_compile (p : pystr) : option (pystr -> bool) :=
  if forallb (fun c => negb (re_special c)) p then Some (contains p) else None.

(** ** [get_filtered_soup] *)

(** A dict with string keys, in insertion order. *)
Abbreviation dict := (list (pystr * pystr)) (only parsing).

(** [d[k] = v] *)
Fixpoint dict_set (k v : pystr) (d : dict) : dict :=
  match d with
  | [] => [(k, v)]
  | (k', v') :: d' =>
    if str_eqb k' k then (k', v) :: d' else (k', v') :: dict_set k v d'
  end.

(** [for k, v in src.items(): d[k] = v] *)
Definition dict_update (d src : dict) : dict :=
  fold_left (fun acc '(k, v) => dict_set k v acc) src d.

(** The dict display [{k1: v1, k2: v2, k3: v3}]. *)
Definition dict_of (items : dict) : dict := dict_update [] items.

(** The three controls of the form, as read from the first page. *)
Record controls := mk_controls {
  year_name : pystr;
  region_name : pystr;
  type_name : pystr;
  default_year_val : pystr;
  default_region_val : pystr;
  default_type_val : pystr
}.

Definition select_with_id (id : pystr) (n : node) : bool :=
  is_tag (u "select") n && attr_is (u "id") id n.

Definition selected_option (n : node) : bool :=
  is_tag (u "option") n && has_attr (u "selected") n.

(** [not name] for the result of [tag.get("name")]. *)
Definition falsy (name : option pystr) : bool :=
  match name with
  | Some s => is_empty s
  | None => true
  end.

(** Steps 2 and 3 of [get_filtered_soup]: the names of the three selects
    and the values of their selected options. *)
Definition read_controls (soup : node) : result controls :=
  match find (select_with_id (u "Year")) soup with
  | None => Raises (Exception (SelectMissing YearSelect))
  | Some sel_year =>
  match find (select_with_id (u "DropDownList1")) soup with
  | None => Raises (Exception (SelectMissing RegionSelect))
  | Some sel_region =>
  match find (select_with_id (u "type")) soup with
  | None => Raises (Exception (SelectMissing TypeSelect))
  | Some sel_type =>
    let yn := attr (u "name") sel_year in
    let rn := attr (u "name") sel_region in
    let tn := attr (u "name") sel_type in
    if falsy yn || falsy rn || falsy tn then Raises (Exception NameMissing) else
    match find selected_option sel_year, find selected_option sel_region,
          find selected_option sel_type with
    | Some oy, Some or, Some ot =>
      Returns (mk_controls (default [] yn) (default [] rn) (default [] tn)
                 (attr_or_empty (u "value") oy) (attr_or_empty (u "value") or)
                 (attr_or_empty (u "value") ot))
    | _, _, _ => Raises (Exception SelectedMissing)
    end
  end end end.

(** [extract_hidden_inputs] *)
Definition extract_hidden_inputs (soup_inner : node) : result dict :=
  let form :=
    match find (fun n => is_tag (u "form") n && attr_is (u "id") (u "aspnetForm") n)
               soup_inner with
    | Some f => Some f
    | None => find (is_tag (u "form")) soup_inner
    end in
  match form with
  | None => Raises (Exception FormMissing)
  | Some f =>
    Returns (fold_left
               (fun data inp =>
                  match attr (u "name") inp with
                  | Some name => dict_set name (attr_or_empty (u "value") inp) data
                  | None => data
                  end)
               (find_all (fun n => is_tag (u "input") n && attr_is (u "type") (u "hidden") n) f)
               [])
  end.

Definition EVENTTARGET : pystr := u "__EVENTTARGET".
Definition EVENTARGUMENT : pystr := u "__EVENTARGUMENT".

(** The payload [postback] builds from the hidden fields. *)
Definition payload_of (hidden : dict) (event_target_name : pystr) (selected_values : dict)
  : dict :=
  dict_set EVENTARGUMENT [] (dict_set EVENTTARGET event_target_name
    (dict_update hidden selected_values)).

(** What the remote site answers to one request: no answer at all (the
    call itself fails or times out), or a status with the page, already
    parsed. *)
Inductive response :=
| NetworkError
| Response (status : Z) (page : node).

(** A request as the site sees it. *)
Inductive request :=
| GET
| POST (payload : dict).

Section Navigate.

(** The remote site together with the session's cookies: an opaque state
    that every request may change. *)
Variable Server : Type.
Variable http_get : Server -> response * Server.
Variable http_post : dict -> Server -> response * Server.

(** The world [get_filtered_soup] runs in: the site, and the requests
    issued so far, oldest first. *)
Record world := mk_world { server : Server; log : list request }.

(** A computation that talks to the site and may raise. *)
Definition nav (A : Type) : Type := world -> result A * world.

Definition ret {A} (a : A) : nav A := fun w => (Returns a, w).

Definition raise {A} (e : exn) : nav A := fun w => (Raises e, w).

Definition lift {A} (r : result A) : nav A := fun w => (r, w).

Definition and_then {A B} (m : nav A) (k : A -> nav B) : nav B :=
  fun w =>
    match m w with
    | (Returns a, w') => k a w'
    | (Raises e, w') => (Raises e, w')
    | (Unmodelled, w') => (Unmodelled, w')
    end.

Notation "x <~ m ;; k" := (and_then m (fun x => k))
  (at level 100, m at next level, right associativity).

(** [session.get(base_url, timeout=10)] *)
Definition session_get : nav response :=
  fun w =>
    let '(r, s) := http_get (server w) in
    (Returns r, mk_world s (log w ++ [GET])).

(** [session.post(base_url, data=payload, timeout=10)] *)
Definition session_post (payload : dict) : nav response :=
  fun w =>
    let '(r, s) := http_post payload (server w) in
    (Returns r, mk_world s (log w ++ [POST payload])).

Definition postback (curr_soup : node) (event_target_name : pystr)
           (selected_values : dict) : nav node :=
  hidden <~ lift (extract_hidden_inputs curr_soup);;
  r <~ session_post (payload_of hidden event_target_name selected_values);;
  match r with
  | NetworkError => raise (Exception PostUnreachable)
  | Response status page =>
    if negb (status =? 200)%Z
    then raise (Exception (PostStatus event_target_name status))
    else ret page
  end.

Definition get_filtered_soup (year region rtype : pystr) : nav node :=
  r0 <~ session_get;;
  match r0 with
  | NetworkError => raise (Exception Unreachable)
  | Response status soup =>
    if negb (status =? 200)%Z then raise (Exception (GetStatus status)) else
    c <~ lift (read_controls soup);;
    let current_soup := soup in
    (* 4) the year *)
    current_soup <~
      (if negb (in_list year [u "now"; u "all"]) then
         let values := dict_of [(year_name c, year);
                                (region_name c, default_region_val c);
                                (type_name c, default_type_val c)] in
         postback current_soup (year_name c) values
       else ret current_soup);;
    (* 5) the region *)
    let selected_region_val :=
      if negb (str_eqb region (u "all")) then region else default_region_val c in
    current_soup <~
      (if negb (in_list selected_region_val [u "all"; default_region_val c]) then
         let values :=
           dict_of [(year_name c,
                     if negb (in_list year [u "now"; u "all"]) then year
                     else default_year_val c);
                    (region_name c, selected_region_val);
                    (type_name c, default_type_val c)] in
         postback current_soup (region_name c) values
       else ret current_soup);;
    (* 6) the event type *)
    let selected_type_val :=
      if negb (str_eqb rtype (u "all")) then rtype else default_type_val c in
    current_soup <~
      (if negb (in_list selected_type_val [u "all"; default_type_val c]) then
         let values :=
           dict_of [(year_name c,
                     if negb (in_list year [u "now"; u "all"]) then year
                     else default_year_val c);
                    (region_name c, selected_region_val);
                    (type_name c, selected_type_val)] in
         postback current_soup (type_name c) values
       else ret current_soup);;
    ret current_soup
  end.

End Navigate.

Arguments mk_world {Server} _ _.
Arguments server {Server} _.
Arguments log {Server} _.

(** *** The postbacks the design asks for

    Written from the design's words, to be compared with what
    [get_filtered_soup] sends: the postbacks in the order year, region,
    event type, each with the control that triggers it and the three
    values it submits. *)

Definition is_all (s : pystr) : Prop := s = u "all".
Definition is_now (s : pystr) : Prop := s = u "now".

(** The year submitted once the year step is over: the chosen year, or
    the default when no year was chosen. *)
Definition resolved_year (c : controls) (year : pystr) : pystr :=
  if decide (is_all year \/ is_now year) then default_year_val c else year.

Definition resolved_region (c : controls) (region : pystr) : pystr :=
  if decide (is_all region) then default_region_val c else region.

Definition resolved_type (c : controls) (rtype : pystr) : pystr :=
  if decide (is_all rtype) then default_type_val c else rtype.

Definition year_fires (year : pystr) : Prop :=
  ~ is_all year /\ ~ is_now year.

Definition region_fires (c : controls) (region : pystr) : Prop :=
  ~ is_all (resolved_region c region) /\ resolved_region c region <> default_region_val c.

Definition type_fires (c : controls) (rtype : pystr) : Prop :=
  ~ is_all (resolved_type c rtype) /\ resolved_type c rtype <> default_type_val c.

(** One planned postback: the triggering control's name and the values
    of the three controls. *)
Record planned := mk_planned {
  trigger : pystr;
  year_value : pystr;
  region_value : pystr;
  type_value : pystr
}.

Definition when (P : Prop) `{Decision P} {A} (x : A) : list A :=
  if decide P then [x] else [].

Definition postback_plan (c : controls) (year region rtype : pystr) : list planned :=
  when (year_fires year)
       (mk_planned (year_name c) year (default_region_val c) (default_type_val c))
  ++ when (region_fires c region)
       (mk_planned (region_name c) (resolved_year c year) (resolved_region c region)
                   (default_type_val c))
  ++ when (type_fires c rtype)
       (mk_planned (type_name c) (resolved_year c year) (resolved_region c region)
                   (resolved_type c rtype)).

(** The field names of a payload, in the order they are sent. *)
Definition keys {V} (d : list (pystr * V)) : list pystr := map fst d.

(** The payload names the control of the planned postback as the target
    of the event, with an empty argument. *)
Definition targets (payload : dict) (p : planned) : Prop :=
  assoc EVENTTARGET payload = Some (trigger p)
  /\ assoc EVENTARGUMENT payload = Some [].

(** The payload submits the three values of the planned postback, each
    under the name of its control. *)
Definition submits (c : controls) (payload : dict) (p : planned) : Prop :=
  assoc (year_name c) payload = Some (year_value p)
  /\ assoc (region_name c) payload = Some (region_value p)
  /\ assoc (type_name c) payload = Some (type_value p).

(** The three controls have names of their own, and none has the name of
    a postback field. *)
Definition distinct_names (c : controls) : Prop :=
  NoDup [year_name c; region_name c; type_name c; EVENTTARGET; EVENTARGUMENT].

(** What the payload of one POST owes the planned postback it stands
    for: every field is sent once, the target is the planned control, and
    the three values are the planned ones when the controls can be told
    apart by name. *)
Definition posted (c : controls) (payload : dict) (p : planned) : Prop :=
  NoDup (keys payload)
  /\ targets payload p
  /\ (distinct_names c -> submits c payload p).

(** ** Notions the properties are stated with *)

(** The Gregorian calendar, written independently of [DAYS_IN_MONTH]. *)
Definition leap_year (y : Z) : Prop :=
  (y mod 4 = 0 /\ (y mod 100 <> 0 \/ y mod 400 = 0))%Z.

Definition month_days (y m : Z) : Z :=
  (if decide (m = 2) then (if decide (leap_year y) then 29 else 28)
   else if decide (m = 4 \/ m = 6 \/ m = 9 \/ m = 11) then 30
   else 31)%Z.

(** [y-m-d] is a date [datetime] can hold. *)
Definition calendar_date (y m d : Z) : Prop :=
  (1 <= y <= 9999 /\ 1 <= m <= 12 /\ 1 <= d <= month_days y m)%Z.

(** A label is blank when nothing is left of it once stripped. *)
Definition blank (h : pystr) : Prop := strip h = [].

(** The labels the extraction derives columns for. *)
Definition DERIVED : list pystr :=
  [EVENT_LINK; PARSED_DATE; LOCATION_LINK; LOCATION_EMBED].

(** An instance of [urljoin] for running the extraction on examples: it
    resolves a file name against the directory of the base page. *)
Definition example_urljoin (base href : pystr) : result pystr :=
  Returns (u "http://www.taipeimarathon.org.tw/" ++ href).

(** [p] occurs in [s]: the same characters, in a row. *)
Definition substring (p s : pystr) : Prop := exists pre post, s = pre ++ p ++ post.

(** A run of decimal digits. *)
Definition decimal_run (todecimal : codepoint -> option Z) (g : pystr) : Prop :=
  Forall (fun c => is_decimal todecimal c = true) g.

(** The kept indices of a header whose first label has index [k]. *)
Definition kept_from (k : nat) (raw : list pystr) : list nat :=
  map fst (List.filter (fun '(_, h) => not_blank h) (imap (fun i h => (k + i, h)) raw)).

(** The rows the loop over the data rows does not skip: those with a
    cell, and with a cell that is not empty. *)
Definition row_kept (row : node) : bool :=
  negb (is_empty (find_all (is_tag (u "td")) row))
  && negb (forallb is_empty (row_texts row)).

(** The frame after the two columns every extraction adds. *)
Definition with_links_and_dates (e : extraction) (parsed : list value) : DataFrame :=
  set_column PARSED_DATE parsed
    (set_column EVENT_LINK (map VStr (event_links e))
       (from_rows (headers e) (data e))).

(** [link] is the search link of the address in the cell [addr]. *)
Definition search_link_of (addr link : value) : Prop :=
  exists a q, addr = VStr a /\ quote a = Returns q /\ link = VStr (MAPS_SEARCH ++ q).

(** [link] is the embed link of the address in the cell [addr]. *)
Definition embed_link_of (addr link : value) : Prop :=
  exists a q, addr = VStr a /\ quote a = Returns q
              /\ link = VStr (MAPS_EMBED ++ q ++ OUTPUT_EMBED).

(** [m] sends the planned postbacks [plan], in order, and nothing else; a
    run that raises has sent an initial part of them. *)
Definition sends {Server A} (c : controls) (m : nav Server A) (plan : list planned)
  : Prop :=
  forall w : world Server, exists ps sent,
    log (m w).2 = log w ++ map POST ps
    /\ sent `prefix_of` plan
    /\ Forall2 (posted c) ps sent
    /\ forall a, (m w).1 = Returns a -> sent = plan.

(** ** Pages and a site to run the code on *)

Definition el (t : string) (cs : list node) : node := Tag (u t) [] cs.

Definition tx (t : string) : node := Text (u t).

Definition results (rows : list node) : node :=
  Tag (u "table") [(u "id", TABLE_ID)] rows.

Definition page_of (body : list node) : node := el "html" [el "body" body].

Definition page_no_table : node := page_of [el "p" [tx "維護中"]].

Definition page_short_row : node :=
  page_of [results [el "tr" [el "th" [tx "賽事名稱"]; el "th" [tx "日期"]];
                    el "tr" [el "td" [tx "查無資料"]]]].

Definition page_no_rows : node := page_of [results []].

Definition page_no_date_label : node :=
  page_of [results [el "tr" [el "th" [tx "賽事名稱"]; el "th" [tx "地點"]];
                    el "tr" [el "td" [tx "2024 台北馬拉松"]; el "td" [tx "台北市政府"]]]].

Definition table_other_header : node :=
  results [el "tr" [el "th" [tx "名稱"]; el "th" [tx "日期"]];
           el "tr" [el "td" [tx "2024 台北馬拉松"]; el "td" [tx "12/15"]]].

Definition page_other_header : node := page_of [table_other_header].

Definition table_events : node :=
  results [el "tr" [el "th" [tx "賽事名稱"]; el "th" [tx " "]; el "th" [tx "日期"];
                    el "th" [tx "地點"]];
           el "tr" [el "td" [Tag (u "a") [(u "href", u "race.aspx?id=1")]
                                 [tx "2024 台北馬拉松"]];
                    el "td" [tx "x"]; el "td" [tx "12/15"]; el "td" [tx "台北市政府"]];
           el "tr" [el "td" []; el "td" [tx " "]; el "td" []; el "td" []];
           el "tr" [el "td" [tx "府城路跑"]; el "td" [tx "y"]; el "td" [tx "2/30"];
                    el "td" [tx "台南"]]].

Definition page_events : node := page_of [table_events].

Definition option_tag (value : string) (selected : bool) : node :=
  Tag (u "option")
      ((u "value", u value) :: if selected then [(u "selected", u "selected")] else [])
      [tx value].

Definition select_tag (id name : string) (options : list node) : node :=
  Tag (u "select") [(u "id", u id); (u "name", u name)] options.

Definition page_form : node :=
  page_of
    [Tag (u "form") [(u "id", u "aspnetForm")]
       [Tag (u "input") [(u "type", u "hidden"); (u "name", u "__VIEWSTATE");
                         (u "value", u "dDwtMTA4")] [];
        select_tag "Year" "ctl00$Year" [option_tag "2024" false; option_tag "2025" true];
        select_tag "DropDownList1" "ctl00$DropDownList1"
                   [option_tag "all" true; option_tag "北" false];
        select_tag "type" "ctl00$type" [option_tag "public" true; option_tag "2" false]]].

(** A site that answers every request with [page_form]; its state counts
    the requests. *)
Definition site_get (n : nat) : response * nat := (Response 200 page_form, S n).

Definition site_post (payload : dict) (n : nat) : response * nat :=
  (Response 200 page_form, S n).

(** ** Notions for the further properties *)

(** The values a planned postback submits, as the dict [postback] is
    given. *)
Definition planned_values (c : controls) (p : planned) : dict :=
  dict_of [(year_name c, year_value p); (region_name c, region_value p);
           (type_name c, type_value p)].

(** The planned postbacks run one after the other, each on the page the
    one before returned. *)
Fixpoint run_plan {Server} (http_post : dict -> Server -> response * Server)
         (c : controls) (plan : list planned) (soup : node) : nav Server node :=
  match plan with
  | [] => ret Server soup
  | p :: rest =>
    and_then Server (postback Server http_post soup (trigger p) (planned_values c p))
             (fun page => run_plan http_post c rest page)
  end.

(** [chain http_post c soup s plan posts final s']: starting on the page
    [soup] with the site in state [s], each planned postback is sent with
    the hidden fields of the page before it and is answered with status
    200 and the next page; [posts] are the payloads, [final] the last page
    and [s'] the last state of the site. *)
Inductive chain {Server} (http_post : dict -> Server -> response * Server) (c : controls)
  : node -> Server -> list planned -> list dict -> node -> Server -> Prop :=
| chain_done soup s : chain http_post c soup s [] [] soup s
| chain_step soup s p plan hidden page s1 posts final s2 :
    extract_hidden_inputs soup = Returns hidden ->
    http_post (payload_of hidden (trigger p) (planned_values c p)) s
      = (Response 200 page, s1) ->
    chain http_post c page s1 plan posts final s2 ->
    chain http_post c soup s (p :: plan)
          (payload_of hidden (trigger p) (planned_values c p) :: posts) final s2.

(** The hidden inputs [extract_hidden_inputs] reads in a form. *)
Definition hidden_inputs (form : node) : list node :=
  find_all (fun n => is_tag (u "input") n && attr_is (u "type") (u "hidden") n) form.

(** The form [extract_hidden_inputs] reads: the one with the id
    [aspnetForm], else the first one. *)
Definition main_form (soup : node) : option node :=
  match find (fun n => is_tag (u "form") n && attr_is (u "id") (u "aspnetForm") n) soup with
  | Some f => Some f
  | None => find (is_tag (u "form")) soup
  end.

(** The last element of a list that passes a test. *)
Definition find_last {A} (p : A -> bool) (l : list A) : option A :=
  List.find p (reverse l).

(** What [get_filtered_soup] does once the first page is there, the
    postbacks written as the run of the plan. *)
Definition after_get {Server} (http_post : dict -> Server -> response * Server)
           (year region rtype : pystr) (r0 : response) : nav Server node :=
  match r0 with
  | NetworkError => raise Server (Exception Unreachable)
  | Response status soup =>
    if negb (status =? 200)%Z then raise Server (Exception (GetStatus status))
    else
      and_then Server (lift Server (read_controls soup))
        (fun c => run_plan http_post c (postback_plan c year region rtype) soup)
  end.

(** A frame is well formed when every column has one value per row and no
    label comes twice. *)
Definition well_formed (df : DataFrame) : Prop :=
  Forall (fun lc : pystr * list value => length lc.2 = nrows df) (cols df)
  /\ NoDup (columns df).

(** The text in the cell of row [i] under [label], empty without such a
    column: what [r.get(label, "")] gives the loop over the rows. *)
Definition cell_text (label : pystr) (i : nat) (df : DataFrame) : pystr :=
  match assoc label (cols df) ≫= (fun col => col !! i) with
  | Some (VStr s) => s
  | _ => []
  end.

(** The cell a parsed date is stored as. *)
Definition date_cell (d : option datetime) : value :=
  match d with Some x => VDate x | None => VNull end.

(** A code point [str.encode] accepts: a Unicode scalar value. *)
Definition scalar (c : codepoint) : Prop :=
  (c < 55296 \/ 57343 < c < 1114112)%N.

(** The test of [td_event.find("a", href=True)]. *)
Definition anchor (n : node) : bool := is_tag (u "a") n && has_attr (u "href") n.

(** The value of a hexadecimal digit written by [percent]. *)
Definition hex_value (h : codepoint) : N :=
  (if h <? 58 then h - 48 else h - 55)%N.

(** The bytes a percent-encoded text stands for: [%XX] is the byte [XX],
    any other character is itself. *)
Fixpoint unquote (s : pystr) : list N :=
  match s with
  | [] => []
  | c :: r =>
    if (c =? 37)%N then
      match r with
      | h1 :: h2 :: r' => (hex_value h1 * 16 + hex_value h2)%N :: unquote r'
      | _ => c :: unquote r
      end
    else c :: unquote r
  end.

(** The characters a percent-encoded text is made of. *)
Definition quoted_char (c : codepoint) : bool := quote_safe c || (c =? 37)%N.

(** The characters a map link is made of: those of a percent-encoded text
    and those of the two templates. *)
Definition link_char (c : codepoint) : bool :=
  quoted_char c || bool_decide (c ∈ u ":?=&").

(** [dict(zip(addrs, embeds))], the table the map preview looks an address
    up in. *)
Definition location_to_embed (addrs embeds : list pystr) : dict :=
  dict_of (zip addrs embeds).

(** The map preview for the address selected: [Some url] when the frame
    with [url] is shown, [None] when the warning is. *)
Definition preview (addrs embeds : list pystr) (sel_addr : pystr) : option pystr :=
  let embed_url := default [] (assoc sel_addr (location_to_embed addrs embeds)) in
  if negb (is_empty embed_url) then Some embed_url else None.

(** A page with the three controls outside of any form. *)
Definition page_no_form : node :=
  page_of
    [select_tag "Year" "ctl00$Year" [option_tag "2024" false; option_tag "2025" true];
     select_tag "DropDownList1" "ctl00$DropDownList1"
                [option_tag "all" true; option_tag "北" false];
     select_tag "type" "ctl00$type" [option_tag "public" true; option_tag "2" false]].

(** A site that cannot be reached, and one that answers with a status or
    a page of its own. *)
Definition site_down (n : nat) : response * nat := (NetworkError, S n).

Definition site_answers (r : response) (n : nat) : response * nat := (r, S n).

(** The embed link of an address, empty when it has none. *)
Definition embed_or_empty (addr : pystr) : pystr :=
  match make_maps_embed addr with Returns e => e | _ => [] end.

(** Every cell of the frame holds a string. *)
Definition all_text (df : DataFrame) : Prop :=
  Forall (fun lc : pystr * list value => Forall (fun v => exists s, v = VStr s) lc.2)
         (cols df).

(** The frame the loop over the rows reads. *)
Definition with_links (e : extraction) : DataFrame :=
  set_column EVENT_LINK (map VStr (event_links e)) (from_rows (headers e) (data e)).

(** * Properties *)

(** Replaces every string literal of the goal by its code points. *)
Ltac eval_str :=
  repeat match goal with
  | |- context [u ?s] =>
    let x := eval vm_compute in (u s) in change (u s) with x
  end.

(** ** Strings *)

Lemma str_eqb_true s t : str_eqb s t = true <-> s = t.
Proof. unfold str_eqb. apply bool_decide_eq_true. Qed.

Lemma str_eqb_false s t : str_eqb s t = false <-> s <> t.
Proof. unfold str_eqb. apply bool_decide_eq_false. Qed.

Lemma str_eqb_refl s : str_eqb s s = true.
Proof. by apply str_eqb_true. Qed.

Lemma in_list_true x l : in_list x l = true <-> x ∈ l.
Proof.
  unfold in_list. rewrite existsb_exists. split.
  - intros (y & Hin & Heq). apply str_eqb_true in Heq as ->. by apply list_elem_of_In.
  - intros Hin. exists x. split; [by apply list_elem_of_In | apply str_eqb_refl].
Qed.

Lemma in_list_false x l : in_list x l = false <-> x ∉ l.
Proof.
  rewrite <- in_list_true. destruct (in_list x l); split; congruence.
Qed.

Lemma is_empty_true {A} (l : list A) : is_empty l = true <-> l = [].
Proof. destruct l; simpl; split; congruence. Qed.

(** ** The download file name *)

(** C9.  The file name is the year, or [allYears] for the years [all] and
    [now], then the region and the type, joined by underscores; the trimmed
    keyword, its spaces turned into underscores, follows after one more
    underscore when it is not empty; the extension [.pdf] ends the name.
    Year 2024, region 北, type 2 and keyword 路跑 開放 give
    2024_北_2_路跑_開放.pdf. *)
Theorem pdf_filename_pattern year region rtype keyword :
  pdf_filename year region rtype keyword =
    (if decide (is_all year \/ is_now year) then u "allYears" else year)
    ++ u "_" ++ region ++ u "_" ++ rtype
    ++ (if decide (strip keyword = [])
        then [] else u "_" ++ replace_space (strip keyword))
    ++ u ".pdf"
  /\ pdf_filename (u "2024") (u "北") (u "2") (u "路跑 開放")
     = u "2024_北_2_路跑_開放" ++ u ".pdf".
Proof.
  split; [|vm_compute; reflexivity].
  unfold pdf_filename.
  assert (Hy : (if negb (in_list year [u "now"; u "all"]) then year else u "allYears")
               = if decide (is_all year \/ is_now year) then u "allYears" else year).
  { unfold is_all, is_now. destruct (in_list year [u "now"; u "all"]) eqn:E; simpl.
    - apply in_list_true in E. rewrite decide_True; [done|].
      rewrite !elem_of_cons, elem_of_nil in E. tauto.
    - apply in_list_false in E. rewrite decide_False; [done|].
      rewrite !elem_of_cons, elem_of_nil in E. tauto. }
  rewrite Hy. clear Hy.
  set (fy := if decide _ then _ else _).
  destruct (decide (strip keyword = [])) as [E|E].
  - rewrite E. eval_str. simpl. repeat (rewrite <- app_assoc; simpl). reflexivity.
  - replace (str_eqb (strip keyword) []) with false
      by (symmetry; by apply str_eqb_false).
    simpl.
    destruct (replace_space (strip keyword)) as [|c k'] eqn:Ek.
    + apply (f_equal length) in Ek. unfold replace_space in Ek.
      rewrite length_map in Ek. by destruct (strip keyword).
    + eval_str. simpl. repeat (rewrite <- app_assoc; simpl). reflexivity.
Qed.

(** ** Dates *)

Lemma is_leap_spec y : is_leap y = true <-> leap_year y.
Proof.
  unfold is_leap, leap_year.
  rewrite andb_true_iff, orb_true_iff, negb_true_iff, !Z.eqb_eq, Z.eqb_neq.
  tauto.
Qed.

Lemma days_in_month_spec y m :
  (1 <= m <= 12)%Z -> days_in_month y m = month_days y m.
Proof.
  intros Hm. unfold days_in_month, month_days.
  destruct (decide (m = 2%Z)) as [->|Hne].
  - simpl. destruct (is_leap y) eqn:E.
    + rewrite decide_True by (by apply is_leap_spec). reflexivity.
    + rewrite decide_False; [reflexivity|]. rewrite <- is_leap_spec. congruence.
  - replace (m =? 2)%Z with false by (symmetry; by apply Z.eqb_neq). simpl.
    assert (Hc : (m = 1 \/ m = 3 \/ m = 4 \/ m = 5 \/ m = 6 \/ m = 7 \/ m = 8
                 \/ m = 9 \/ m = 10 \/ m = 11 \/ m = 12)%Z) by lia.
    destruct Hc as [->|[->|[->|[->|[->|[->|[->|[->|[->|[->| ->]]]]]]]]]]; reflexivity.
Qed.

Lemma datetime_new_valid y m d :
  calendar_date y m d -> datetime_new y m d = Returns (mk_datetime y m d).
Proof.
  intros (Hy & Hm & Hd). unfold datetime_new.
  rewrite days_in_month_spec by done.
  repeat match goal with
  | |- context [negb (?a && ?b)] =>
    replace (a && b) with true by (symmetry; apply andb_true_iff; split; lia)
  end.
  reflexivity.
Qed.

Lemma datetime_new_invalid y m d :
  ~ calendar_date y m d -> datetime_new y m d = Raises ValueError.
Proof.
  intros Hn. unfold datetime_new.
  destruct (negb ((1 <=? y)%Z && (y <=? 9999)%Z)) eqn:Ey; [done|].
  destruct (negb ((1 <=? m)%Z && (m <=? 12)%Z)) eqn:Em; [done|].
  destruct (negb ((1 <=? d)%Z && (d <=? days_in_month y m)%Z)) eqn:Ed; [done|].
  exfalso. apply Hn.
  apply negb_false_iff, andb_true_iff in Ey, Em, Ed.
  rewrite days_in_month_spec in Ed by lia.
  unfold calendar_date. lia.
Qed.

Section DateFacts.
Variable todecimal : codepoint -> option Z.

Lemma four_digits_decimal s g :
  four_digits todecimal s = Some g -> decimal_run todecimal g.
Proof.
  unfold four_digits, decimal_run.
  destruct s as [|a [|b [|c [|d s]]]]; try discriminate.
  destruct (is_decimal todecimal a) eqn:Ea; [|discriminate].
  destruct (is_decimal todecimal b) eqn:Eb; [|discriminate].
  destruct (is_decimal todecimal c) eqn:Ec; [|discriminate].
  destruct (is_decimal todecimal d) eqn:Ed; [|discriminate].
  simpl. intros [= <-]. repeat constructor; assumption.
Qed.

Lemma match_year_decimal s g :
  match_year todecimal s = Some g -> decimal_run todecimal g.
Proof.
  revert g. induction s as [|c s IH]; intros g; cbn -[four_digits].
  - discriminate.
  - destruct (py_isspace c).
    + destruct (match_year todecimal s) as [g'|] eqn:E.
      * intros [= <-]. by apply IH.
      * apply four_digits_decimal.
    + apply four_digits_decimal.
Qed.

Lemma one_or_two_digits_decimal s g r :
  (g, r) ∈ one_or_two_digits todecimal s -> decimal_run todecimal g.
Proof.
  unfold one_or_two_digits, decimal_run.
  destruct s as [|a s]; [by rewrite elem_of_nil|].
  destruct (is_decimal todecimal a) eqn:Ea; [|by rewrite elem_of_nil].
  destruct s as [|b s].
  - rewrite list_elem_of_singleton. intros [= -> ->]. by repeat constructor.
  - destruct (is_decimal todecimal b) eqn:Eb.
    + rewrite elem_of_cons, list_elem_of_singleton.
      intros [[= -> ->]|[= -> ->]]; by repeat constructor.
    + rewrite list_elem_of_singleton. intros [= -> ->]. by repeat constructor.
Qed.

Lemma match_month_day_decimal s g1 g2 :
  match_month_day todecimal s = Some (g1, g2) -> decimal_run todecimal g1 /\ decimal_run todecimal g2.
Proof.
  unfold match_month_day. intros H.
  apply head_Some_elem_of in H.
  apply list_elem_of_In, in_flat_map in H as ([h1 r1] & Hin & H).
  apply list_elem_of_In in Hin.
  destruct r1 as [|c r2]; [by destruct H|].
  destruct (c =? 47)%N; [|by destruct H].
  apply in_map_iff in H as ([h2 r3] & [= -> ->] & H).
  apply list_elem_of_In in H.
  split; eapply one_or_two_digits_decimal; eassumption.
Qed.

Lemma py_int_returns g :
  decimal_run todecimal g -> exists z, py_int todecimal g = Returns z.
Proof.
  unfold py_int. intros H. generalize 0%Z.
  induction H as [|c g Hc _ IH]; intros a; simpl.
  - by exists a.
  - unfold is_decimal in Hc. destruct (todecimal c) as [v|]; [|discriminate].
    apply IH.
Qed.
End DateFacts.


Lemma parse_event_date_returns td now name date :
  exists r, parse_event_date td now name date = Returns r.
Proof.
  unfold parse_event_date, event_year.
  destruct (match_year td name) as [g|] eqn:Ey.
  - destruct (py_int_returns td g) as [y ->]; [by eapply match_year_decimal|].
    simpl. destruct (match_month_day td date) as [[g1 g2]|] eqn:Em; [|by eexists].
    destruct (match_month_day_decimal _ _ _ _ Em) as [H1 H2].
    destruct (py_int_returns td g1 H1) as [m ->], (py_int_returns td g2 H2) as [d ->].
    simpl. destruct (decide (calendar_date y m d)).
    + rewrite datetime_new_valid by done. by eexists.
    + rewrite datetime_new_invalid by done. by eexists.
  - simpl. destruct (match_month_day td date) as [[g1 g2]|] eqn:Em; [|by eexists].
    destruct (match_month_day_decimal _ _ _ _ Em) as [H1 H2].
    destruct (py_int_returns td g1 H1) as [m ->], (py_int_returns td g2 H2) as [d ->].
    simpl. destruct (decide (calendar_date now m d)).
    + rewrite datetime_new_valid by done. by eexists.
    + rewrite datetime_new_invalid by done. by eexists.
Qed.

Lemma parse_event_date_unfold td now name date y g1 g2 m d :
  event_year td now name = Returns y ->
  match_month_day td date = Some (g1, g2) ->
  py_int td g1 = Returns m -> py_int td g2 = Returns d ->
  parse_event_date td now name date =
    Returns (if decide (calendar_date y m d) then Some (mk_datetime y m d) else None).
Proof.
  intros Hy Hm H1 H2. unfold parse_event_date.
  rewrite Hy. simpl. rewrite Hm, H1. simpl. rewrite H2. simpl.
  destruct (decide (calendar_date y m d)).
  - by rewrite datetime_new_valid.
  - by rewrite datetime_new_invalid.
Qed.

(** C3, amended.  Deriving the date never raises.  The date is null when
    the date cell does not start with a month and a day, and when the
    month and the day do not make a calendar date in the year of the
    event; a date that is returned is that day of that year.  The year is
    the one the event name starts with, and the current year when the name
    starts with none: a name without a year does not make the date
    null. *)
Theorem parse_event_date_null td now name date :
  (exists r, parse_event_date td now name date = Returns r)
  /\ (match_month_day td date = None ->
      parse_event_date td now name date = Returns None)
  /\ (forall g1 g2 y m d,
        match_month_day td date = Some (g1, g2) ->
        event_year td now name = Returns y ->
        py_int td g1 = Returns m -> py_int td g2 = Returns d ->
        ~ calendar_date y m d ->
        parse_event_date td now name date = Returns None)
  /\ (forall dt,
        parse_event_date td now name date = Returns (Some dt) ->
        exists g1 g2,
          match_month_day td date = Some (g1, g2)
          /\ event_year td now name = Returns (dt_year dt)
          /\ py_int td g1 = Returns (dt_month dt)
          /\ py_int td g2 = Returns (dt_day dt)
          /\ calendar_date (dt_year dt) (dt_month dt) (dt_day dt)).
Proof.
  split; [apply parse_event_date_returns|].
  assert (Hy : exists y, event_year td now name = Returns y).
  { unfold event_year. destruct (match_year td name) eqn:E; [|by eexists].
    eapply py_int_returns, match_year_decimal, E. }
  destruct Hy as [y Hy].
  split; [|split].
  - intros Hm. unfold parse_event_date. rewrite Hy. simpl. by rewrite Hm.
  - intros g1 g2 y' m d Hm Hy' H1 H2 Hn.
    rewrite (parse_event_date_unfold _ _ _ _ _ _ _ _ _ Hy' Hm H1 H2).
    by rewrite decide_False.
  - intros dt H.
    destruct (match_month_day td date) as [[g1 g2]|] eqn:Em.
    + destruct (match_month_day_decimal _ _ _ _ Em) as [D1 D2].
      destruct (py_int_returns td g1 D1) as [m H1], (py_int_returns td g2 D2) as [d H2].
      rewrite (parse_event_date_unfold _ _ _ _ _ _ _ _ _ Hy Em H1 H2) in H.
      case_decide; [|discriminate].
      injection H as <-. simpl. by exists g1, g2.
    + unfold parse_event_date in H. rewrite Hy in H. simpl in H.
      rewrite Em in H. discriminate.
Qed.

Lemma parse_event_date_null_witness :
  parse_event_date ascii_decimal 2025 (u "2024 Taipei Marathon") (u "2/30") = Returns None.
Proof.
  apply (proj1 (proj2 (proj2 (parse_event_date_null ascii_decimal 2025
           (u "2024 Taipei Marathon") (u "2/30")))))
    with (g1 := u "2") (g2 := u "30") (y := 2024%Z) (m := 2%Z) (d := 30%Z);
    try (vm_compute; reflexivity).
  unfold calendar_date. vm_compute. intros (_ & _ & _ & H). by apply H.
Defined.

(** C3 as stated fails: a name with no year in it and the date cell 3/10
    give the tenth of March of the current year, not null. *)
Lemma missing_year_is_not_null :
  match_year ascii_decimal (u "Taipei Marathon") = None
  /\ parse_event_date ascii_decimal 2025 (u "Taipei Marathon") (u "3/10")
     = Returns (Some (mk_datetime 2025 3 10)).
Proof. split; vm_compute; reflexivity. Qed.


(** C4.  The name 2024 台北馬拉松 with the date cell 12/15 gives
    2024-12-15; the date cell 2/30 gives null whatever the name; a name
    that starts with no four-digit year and the date cell 3/10 give the
    tenth of March of the current year. *)
Theorem parse_event_date_examples td now :
  ascii_faithful td -> (1 <= now <= 9999)%Z ->
  parse_event_date td now (u "2024 台北馬拉松") (u "12/15")
    = Returns (Some (mk_datetime 2024 12 15))
  /\ (forall name, parse_event_date td now name (u "2/30") = Returns None)
  /\ (forall name, match_year td name = None ->
        parse_event_date td now name (u "3/10") = Returns (Some (mk_datetime now 3 10))).
Proof.
  intros Hf Hnow.
  assert (Hd : forall c, (c <? 128)%N = true -> td c = ascii_decimal c).
  { intros c Hc. apply Hf. by apply N.ltb_lt. }
  assert (H230 : match_month_day td (u "2/30") = Some (u "2", u "30")).
  { eval_str. unfold match_month_day, one_or_two_digits, is_decimal.
    repeat (progress (cbn; rewrite ?Hd by reflexivity)). reflexivity. }
  assert (H310 : match_month_day td (u "3/10") = Some (u "3", u "10")).
  { eval_str. unfold match_month_day, one_or_two_digits, is_decimal.
    repeat (progress (cbn; rewrite ?Hd by reflexivity)). reflexivity. }
  assert (H1215 : match_month_day td (u "12/15") = Some (u "12", u "15")).
  { eval_str. unfold match_month_day, one_or_two_digits, is_decimal.
    repeat (progress (cbn; rewrite ?Hd by reflexivity)). reflexivity. }
  assert (Hint : forall s z, py_int ascii_decimal s = Returns z ->
            forallb (fun c => c <? 128)%N s = true -> py_int td s = Returns z).
  { intros s z. unfold py_int. generalize 0%Z.
    induction s as [|c s IH]; intros a; simpl; [done|].
    intros H Hall. apply andb_true_iff in Hall as [Hc Hall].
    rewrite Hd by done. destruct (ascii_decimal c); [by apply IH|].
    exfalso. clear -H. induction s; simpl in *; [discriminate|auto]. }
  split; [|split].
  - assert (Hy : event_year td now (u "2024 台北馬拉松") = Returns 2024%Z).
    { unfold event_year. eval_str. cbn -[four_digits py_int].
      unfold four_digits, is_decimal. rewrite !Hd by reflexivity. cbn -[py_int].
      by apply Hint. }
    rewrite (parse_event_date_unfold td now _ _ 2024 _ _ 12 15 Hy H1215)
      by (apply Hint; reflexivity).
    reflexivity.
  - intros name.
    assert (Hy : exists y, event_year td now name = Returns y).
    { unfold event_year. destruct (match_year td name) eqn:E; [|by eexists].
      eapply py_int_returns, match_year_decimal, E. }
    destruct Hy as [y Hy].
    rewrite (parse_event_date_unfold td now _ _ y _ _ 2 30 Hy H230)
      by (apply Hint; reflexivity).
    rewrite decide_False; [done|].
    unfold calendar_date, month_days. rewrite decide_True by done.
    destruct (decide (leap_year y)); lia.
  - intros name Hnone.
    assert (Hy : event_year td now name = Returns now).
    { unfold event_year. by rewrite Hnone. }
    rewrite (parse_event_date_unfold td now _ _ now _ _ 3 10 Hy H310)
      by (apply Hint; reflexivity).
    rewrite decide_True; [done|].
    unfold calendar_date. split; [lia|]. vm_compute. intuition discriminate.
Qed.

Lemma ascii_decimal_faithful : ascii_faithful ascii_decimal.
Proof. by intros c _. Qed.

Lemma parse_event_date_examples_witness :
  parse_event_date ascii_decimal 2025 (u "台北 Marathon") (u "3/10")
  = Returns (Some (mk_datetime 2025 3 10)).
Proof.
  apply (proj2 (proj2 (parse_event_date_examples ascii_decimal 2025
           ascii_decimal_faithful ltac:(lia)))).
  vm_compute. reflexivity.
Defined.

(** ** The result monad *)

Lemma bind_Returns {A B} (r : result A) (k : A -> result B) b :
  r ≫= k = Returns b <-> exists a, r = Returns a /\ k a = Returns b.
Proof.
  destruct r; simpl; split; try (intros (? & ? & ?)); try discriminate; eauto.
  by simplify_eq.
Qed.

Lemma for_each_Returns {A B} (f : A -> result B) l out :
  for_each f l = Returns out <-> Forall2 (fun a b => f a = Returns b) l out.
Proof.
  revert out. induction l as [|a l IH]; intros out; simpl.
  - split; [intros [= <-]; constructor | by inversion 1].
  - split.
    + intros H. apply bind_Returns in H as (b & Hb & H).
      apply bind_Returns in H as (bs & Hbs & [= <-]).
      constructor; [done | by apply IH].
    + inversion 1 as [|? b ? bs Hb Hbs]; subst.
      rewrite Hb. simpl. apply IH in Hbs. rewrite Hbs. reflexivity.
Qed.

Lemma getitem_Returns {A} (l : list A) i x :
  getitem l i = Returns x <-> l !! i = Some x.
Proof. unfold getitem. destruct (l !! i); split; congruence. Qed.

Lemma for_each_getitem {A} (l : list A) idx out :
  for_each (getitem l) idx = Returns out
  <-> Forall2 (fun i x => l !! i = Some x) idx out.
Proof.
  rewrite for_each_Returns. split; apply Forall2_impl; intros i x;
    apply getitem_Returns.
Qed.

(** ** The kept indices *)

Lemma not_blank_true h : not_blank h = true <-> ~ blank h.
Proof. unfold not_blank, blank. rewrite negb_true_iff. apply str_eqb_false. Qed.

Lemma kept_indices_from raw : kept_indices raw = kept_from 0 raw.
Proof. reflexivity. Qed.

Lemma kept_from_cons k h raw :
  kept_from k (h :: raw) =
    if not_blank h then k :: kept_from (S k) raw else kept_from (S k) raw.
Proof.
  unfold kept_from. rewrite imap_cons. simpl.
  rewrite (imap_ext _ (fun i h => (S k + i, h))) by (intros; simpl; f_equal; lia).
  rewrite Nat.add_0_r. by destruct (not_blank h).
Qed.

Lemma elem_of_kept_from k raw i :
  i ∈ kept_from k raw <-> exists h, k <= i /\ raw !! (i - k) = Some h /\ ~ blank h.
Proof.
  revert k. induction raw as [|h0 raw IH]; intros k.
  - unfold kept_from. simpl. rewrite elem_of_nil. split; [done|].
    intros (h & _ & H & _). discriminate.
  - rewrite kept_from_cons.
    assert (Hrest : i ∈ kept_from (S k) raw <->
              exists h, S k <= i /\ (h0 :: raw) !! (i - k) = Some h /\ ~ blank h).
    { rewrite IH. split; intros (h & Hle & Hl & Hb); exists h; (split; [done|]);
        (split; [|done]).
      - replace (i - k) with (S (i - S k)) by lia. done.
      - replace (i - k) with (S (i - S k)) in Hl by lia. done. }
    destruct (not_blank h0) eqn:E.
    + rewrite elem_of_cons, Hrest. split.
      * intros [->|(h & Hle & Hl & Hb)].
        -- exists h0. rewrite Nat.sub_diag. split; [lia|]. split; [done|].
           by apply not_blank_true.
        -- exists h. split; [lia|done].
      * intros (h & Hle & Hl & Hb).
        destruct (decide (i = k)) as [->|Hne]; [by left|right].
        exists h. split; [lia|done].
    + rewrite Hrest. split.
      * intros (h & Hle & Hl & Hb). exists h. split; [lia|done].
      * intros (h & Hle & Hl & Hb).
        destruct (decide (i = k)) as [->|Hne].
        -- rewrite Nat.sub_diag in Hl. injection Hl as <-.
           apply not_blank_true in Hb. congruence.
        -- exists h. split; [lia|done].
Qed.

Lemma kept_from_sorted k raw :
  StronglySorted lt (kept_from k raw) /\ Forall (fun i => k <= i) (kept_from k raw).
Proof.
  revert k. induction raw as [|h raw IH]; intros k.
  - split; constructor.
  - rewrite kept_from_cons. destruct (IH (S k)) as [Hs Hb].
    assert (Hb' : Forall (fun i => k <= i) (kept_from (S k) raw)).
    { eapply List.Forall_impl; [|exact Hb]. simpl. lia. }
    destruct (not_blank h).
    + split; constructor; try done.
      all: try (eapply List.Forall_impl; [|exact Hb]; simpl; lia).
    + done.
Qed.

Lemma for_each_getitem_kept pre raw :
  for_each (getitem (pre ++ raw)) (kept_from (length pre) raw)
  = Returns (List.filter not_blank raw).
Proof.
  revert pre. induction raw as [|h raw IH]; intros pre.
  - reflexivity.
  - rewrite kept_from_cons.
    specialize (IH (pre ++ [h])). rewrite length_app, <- app_assoc in IH.
    simpl in IH. rewrite Nat.add_1_r in IH.
    cbn [List.filter]. destruct (not_blank h).
    + assert (Hg : getitem (pre ++ h :: raw) (length pre) = Returns h)
        by (by apply getitem_Returns, list_lookup_middle).
      cbn [for_each]. rewrite Hg. simpl. rewrite IH. reflexivity.
    + exact IH.
Qed.

Lemma headers_of_raw raw :
  for_each (getitem raw) (kept_indices raw) = Returns (List.filter not_blank raw).
Proof. apply (for_each_getitem_kept [] raw). Qed.

(** ** Frames *)

Lemma assoc_app {V} k (a b : list (list N * V)) :
  assoc k (a ++ b) = match assoc k a with Some v => Some v | None => assoc k b end.
Proof.
  induction a as [|[k' v] a IH]; simpl; [done|].
  by destruct (str_eqb k k').
Qed.

Lemma assoc_None {V} k (l : list (list N * V)) :
  assoc k l = None <-> k ∉ map fst l.
Proof.
  induction l as [|[k' v] l IH]; simpl.
  - split; [intros _; apply not_elem_of_nil | done].
  - rewrite not_elem_of_cons. destruct (str_eqb k k') eqn:E.
    + apply str_eqb_true in E. split; [discriminate | tauto].
    + apply str_eqb_false in E. rewrite IH. tauto.
Qed.

Lemma columns_set_column l v df :
  columns (set_column l v df) =
    if in_list l (columns df) then columns df else columns df ++ [l].
Proof.
  unfold set_column, columns. destruct (in_list l (map fst (cols df))); simpl.
  - induction (cols df) as [|[k c] cs IH]; simpl; [done|].
    rewrite IH. by destruct (str_eqb k l).
  - by rewrite map_app.
Qed.

Lemma nrows_set_column l v df : nrows (set_column l v df) = nrows df.
Proof. unfold set_column. by destruct (in_list l (columns df)). Qed.

Lemma elem_of_columns_set_column h l v df :
  h ∈ columns (set_column l v df) <-> h = l \/ h ∈ columns df.
Proof.
  rewrite columns_set_column. destruct (in_list l (columns df)) eqn:E.
  - apply in_list_true in E. split; [tauto|]. intros [->|]; done.
  - rewrite elem_of_app, list_elem_of_singleton. tauto.
Qed.

Lemma columns_prefix_set_column l v df :
  columns df `prefix_of` columns (set_column l v df).
Proof.
  rewrite columns_set_column. destruct (in_list l (columns df)).
  - reflexivity.
  - by apply prefix_app_r.
Qed.

Lemma assoc_set_column h l v df :
  assoc h (cols (set_column l v df)) =
    if decide (h = l) then Some v else assoc h (cols df).
Proof.
  unfold set_column, columns. destruct (in_list l (map fst (cols df))) eqn:E; simpl.
  - apply in_list_true in E.
    induction (cols df) as [|[k c] cs IH]; simpl.
    + by apply elem_of_nil in E.
    + destruct (str_eqb k l) eqn:Ekl; simpl.
      * apply str_eqb_true in Ekl as ->.
        destruct (decide (h = l)) as [->|Hne].
        -- by rewrite str_eqb_refl.
        -- replace (str_eqb h l) with false by (symmetry; by apply str_eqb_false).
           clear IH E. induction cs as [|[k' c'] cs IH]; simpl; [done|].
           destruct (str_eqb k' l) eqn:E'; simpl.
           ++ apply str_eqb_true in E' as ->.
              replace (str_eqb h l) with false by (symmetry; by apply str_eqb_false).
              exact IH.
           ++ destruct (str_eqb h k'); [done | exact IH].
      * apply str_eqb_false in Ekl.
        apply elem_of_cons in E as [E|E]; [simpl in E; congruence|].
        rewrite (IH E). destruct (decide (h = l)) as [->|Hne].
        -- replace (str_eqb l k) with false by (symmetry; apply str_eqb_false; congruence).
           done.
        -- done.
  - apply in_list_false in E. rewrite assoc_app. simpl.
    destruct (decide (h = l)) as [->|Hne].
    + rewrite (proj2 (assoc_None l (cols df)) E). by rewrite str_eqb_refl.
    + replace (str_eqb h l) with false by (symmetry; by apply str_eqb_false).
      by destruct (assoc h (cols df)).
Qed.

Lemma column_set_column h l v df :
  h <> l -> column h (set_column l v df) = column h df.
Proof. intros Hne. unfold column. rewrite assoc_set_column. by rewrite decide_False. Qed.

Lemma columns_from_rows hs data : columns (from_rows hs data) = hs.
Proof.
  unfold columns, from_rows. simpl.
  change (map fst ?l) with (fst <$> l). rewrite fmap_imap.
  rewrite (imap_ext _ (fun _ h => h)) by done.
  induction hs as [|h hs IH]; [done|]. rewrite imap_cons. simpl. f_equal.
  exact IH.
Qed.

Lemma assoc_imap_text_column n hs data k h :
  NoDup hs -> hs !! k = Some h ->
  assoc h (imap (fun i h => (h, text_column (n + i) data)) hs)
  = Some (text_column (n + k) data).
Proof.
  intros Hnd. revert n k.
  induction Hnd as [|h0 hs Hnotin Hnd IH]; intros n k Hk; [done|].
  rewrite imap_cons. simpl. destruct k as [|k]; simpl in Hk.
  - injection Hk as ->. by rewrite str_eqb_refl.
  - replace (str_eqb h h0) with false.
    2:{ symmetry. apply str_eqb_false. intros ->. apply Hnotin.
        eapply list_elem_of_lookup_2, Hk. }
    rewrite (imap_ext _ (fun i h => (h, text_column (S n + i) data))).
    + rewrite (IH (S n) k Hk). do 2 f_equal. lia.
    + intros i x _. simpl. do 2 f_equal. lia.
Qed.

Lemma assoc_from_rows hs data k h :
  NoDup hs -> hs !! k = Some h ->
  assoc h (cols (from_rows hs data)) = Some (text_column k data).
Proof. intros Hnd Hk. exact (assoc_imap_text_column 0 hs data k h Hnd Hk). Qed.

Section ExtractFacts.
Variable td : codepoint -> option Z.
Variable urljoin : pystr -> pystr -> result pystr.
Variable now : Z.

Lemma scan_row_skipped valid event_idx row :
  row_kept row = false -> scan_row urljoin valid event_idx row = Returns None.
Proof.
  unfold row_kept, scan_row. intros H.
  destruct (is_empty (find_all (is_tag (u "td")) row)); [done|].
  simpl in H. apply negb_false_iff in H. by rewrite H.
Qed.

Lemma scan_row_kept valid event_idx row r :
  row_kept row = true ->
  scan_row urljoin valid event_idx row = Returns r ->
  exists texts link, r = Some (texts, link)
    /\ Forall2 (fun i t => row_texts row !! i = Some t) valid texts.
Proof.
  unfold row_kept, scan_row. intros H.
  apply andb_true_iff in H as [H1 H2]. apply negb_true_iff in H1, H2.
  rewrite H1, H2. intros Hr.
  apply bind_Returns in Hr as (texts & Ht & Hr).
  apply bind_Returns in Hr as (i & _ & Hr).
  apply bind_Returns in Hr as (cell & _ & Hr).
  apply bind_Returns in Hr as (link & _ & [= <-]).
  exists texts, link. split; [done|]. by apply for_each_getitem.
Qed.

Lemma scanned_rows valid event_idx rows scanned :
  Forall2 (fun row r => scan_row urljoin valid event_idx row = Returns r) rows scanned ->
  Forall2 (fun row texts => Forall2 (fun i t => row_texts row !! i = Some t) valid texts)
          (List.filter row_kept rows) (map fst (omap id scanned)).
Proof.
  induction 1 as [|row r rows scanned Hr _ IH]; simpl; [constructor|].
  destruct (row_kept row) eqn:E.
  - destruct (scan_row_kept _ _ _ _ E Hr) as (texts & link & -> & Ht).
    simpl. by constructor.
  - rewrite scan_row_skipped in Hr by done. injection Hr as <-. exact IH.
Qed.

Lemma extract_table_Some table e :
  extract_table urljoin table = Returns (Some e) ->
  exists header_row,
    find (is_tag (u "tr")) table = Some header_row
    /\ raw_headers e = header_texts header_row
    /\ valid_indices e = kept_indices (raw_headers e)
    /\ headers e = List.filter not_blank (raw_headers e)
    /\ EVENT_NAME ∈ headers e
    /\ Forall2 (fun row texts =>
                  Forall2 (fun i t => row_texts row !! i = Some t) (valid_indices e) texts)
               (List.filter row_kept (drop 1 (find_all (is_tag (u "tr")) table)))
               (data e).
Proof.
  unfold extract_table.
  destruct (find (is_tag (u "tr")) table) as [header_row|]; [|discriminate].
  rewrite headers_of_raw. simpl.
  destruct (in_list EVENT_NAME (List.filter not_blank (header_texts header_row))) eqn:Ein;
    [|discriminate].
  simpl. intros H.
  apply bind_Returns in H as (event_idx & _ & H).
  apply bind_Returns in H as (scanned & Hs & [= <-]).
  exists header_row. simpl. repeat split; try done.
  - by apply in_list_true.
  - apply for_each_Returns in Hs. by eapply scanned_rows.
Qed.

Lemma extract_table_None table header_row :
  find (is_tag (u "tr")) table = Some header_row ->
  EVENT_NAME ∉ List.filter not_blank (header_texts header_row) ->
  extract_table urljoin table = Returns None.
Proof.
  intros Hf Hn. unfold extract_table. rewrite Hf, headers_of_raw. simpl.
  apply in_list_false in Hn. by rewrite Hn.
Qed.

Lemma build_frame_Returns e df :
  build_frame td now e = Returns df ->
  NoDup (headers e) /\
  exists parsed df2,
    df2 = with_links_and_dates e parsed /\
    ((LOCATION ∈ columns df2 /\
      exists links embeds,
        apply_str make_maps_link (column LOCATION df2) = Returns links
        /\ apply_str make_maps_embed (column LOCATION df2) = Returns embeds
        /\ df = set_column LOCATION_EMBED embeds (set_column LOCATION_LINK links df2))
     \/ ((LOCATION ∉ columns df2) /\
         df = set_column_scalar LOCATION_EMBED (VStr [])
                (set_column_scalar LOCATION_LINK (VStr []) df2))).
Proof.
  unfold build_frame.
  destruct (bool_decide (NoDup (headers e))) eqn:End; [|discriminate].
  apply bool_decide_eq_true in End. simpl. intros H.
  split; [done|].
  apply bind_Returns in H as (parsed & _ & H).
  exists parsed, (with_links_and_dates e parsed). split; [done|].
  fold (with_links_and_dates e parsed) in H.
  destruct (in_list LOCATION (columns (with_links_and_dates e parsed))) eqn:Ein.
  - left. apply in_list_true in Ein. split; [done|].
    apply bind_Returns in H as (links & Hl & H).
    apply bind_Returns in H as (embeds & He & [= <-]).
    rewrite column_set_column in He by (vm_compute; discriminate).
    by exists links, embeds.
  - right. apply in_list_false in Ein. split; [done|]. by injection H.
Qed.
End ExtractFacts.

Section TableTheorems.
Variable td : codepoint -> option Z.
Variable urljoin : pystr -> pystr -> result pystr.
Variable now : Z.

(** ** The table extraction *)

Lemma locate_table_None soup :
  find results_table soup = None ->
  (forall tbl, tbl ∈ find_all (is_tag (u "table")) soup ->
               ~ (EVENT_NAME ∈ th_texts tbl /\ DATE ∈ th_texts tbl)) ->
  locate_table soup = None.
Proof.
  intros Hid Hscan. unfold locate_table. rewrite Hid.
  destruct (List.find fallback_table _) as [tbl|] eqn:E; [|done].
  apply find_some in E as [Hin E]. exfalso.
  apply list_elem_of_In, Hscan in Hin. apply Hin.
  unfold fallback_table in E. by rewrite andb_true_iff, !in_list_true in E.
Qed.

(** C2, amended.  A page with no table of any kind gives an empty record
    set and no exception; so does, more generally, a page that has no table
    with the well-known id and no table whose [th] texts hold both the
    event-name and the date label. *)
Theorem no_table_no_records soup :
  (find_all (is_tag (u "table")) soup = [] ->
   parse_table_to_df td urljoin now soup = Returns empty_frame)
  /\ (find results_table soup = None ->
      (forall tbl, tbl ∈ find_all (is_tag (u "table")) soup ->
                   ~ (EVENT_NAME ∈ th_texts tbl /\ DATE ∈ th_texts tbl)) ->
      parse_table_to_df td urljoin now soup = Returns empty_frame).
Proof.
  assert (Hgen : find results_table soup = None ->
      (forall tbl, tbl ∈ find_all (is_tag (u "table")) soup ->
                   ~ (EVENT_NAME ∈ th_texts tbl /\ DATE ∈ th_texts tbl)) ->
      parse_table_to_df td urljoin now soup = Returns empty_frame).
  { intros Hid Hscan. unfold parse_table_to_df.
    by rewrite locate_table_None. }
  split; [|exact Hgen].
  intros Hnone. apply Hgen.
  - unfold find, find_all in *. unfold results_table.
    destruct (List.filter _ (descendants soup)) as [|t ts] eqn:E; [done|].
    exfalso. assert (Hin : In t (List.filter (is_tag (u "table")) (descendants soup))).
    { apply filter_In.
      assert (Ht : In t (t :: ts)) by (by left).
      rewrite <- E in Ht. apply filter_In in Ht as [Ht1 Ht2].
      split; [done|]. by apply andb_true_iff in Ht2 as [? _]. }
    by rewrite Hnone in Hin.
  - intros tbl. rewrite Hnone. by rewrite elem_of_nil.
Qed.

(** C10.  When a table is located, by its id or by the fallback scan, and
    the labels of its header row that are not blank do not include
    賽事名稱, the extraction returns an empty record set, whatever the data
    rows of the table. *)
Theorem missing_event_name_no_records soup table header_row :
  locate_table soup = Some table ->
  find (is_tag (u "tr")) table = Some header_row ->
  EVENT_NAME ∉ List.filter not_blank (header_texts header_row) ->
  parse_table_to_df td urljoin now soup = Returns empty_frame.
Proof.
  intros Hl Hf Hn. unfold parse_table_to_df. rewrite Hl.
  by rewrite (extract_table_None urljoin table header_row).
Qed.

(** C5.  The kept indices are computed once, from the header: they are
    the positions of the labels that are not blank, in increasing order.
    The header list is the labels at those positions, none of them blank,
    and every data row is the row's cell texts at the same positions: the
    value at place [k] of a row comes from the column of the header label
    at place [k].  The frame returned starts with these headers, and
    under each of them (the labels of the derived columns apart) holds
    that column of the data rows. *)
Theorem blank_columns_dropped soup table e :
  locate_table soup = Some table ->
  extract_table urljoin table = Returns (Some e) ->
  (exists header_row, find (is_tag (u "tr")) table = Some header_row
                      /\ raw_headers e = header_texts header_row)
  /\ valid_indices e = kept_indices (raw_headers e)
  /\ (forall i, i ∈ valid_indices e <->
                exists h, raw_headers e !! i = Some h /\ ~ blank h)
  /\ StronglySorted lt (valid_indices e)
  /\ Forall2 (fun i h => raw_headers e !! i = Some h) (valid_indices e) (headers e)
  /\ Forall (fun h => ~ blank h) (headers e)
  /\ Forall2 (fun row texts =>
                Forall2 (fun i t => row_texts row !! i = Some t) (valid_indices e) texts)
             (List.filter row_kept (drop 1 (find_all (is_tag (u "tr")) table)))
             (data e)
  /\ parse_table_to_df td urljoin now soup = build_frame td now e
  /\ (forall df, build_frame td now e = Returns df ->
        headers e `prefix_of` columns df
        /\ forall k h, headers e !! k = Some h -> h ∉ DERIVED ->
             assoc h (cols df) = Some (text_column k (data e))).
Proof.
  intros Hl He.
  destruct (extract_table_Some urljoin table e He)
    as (header_row & Hf & Hraw & Hvalid & Hhs & Hev & Hdata).
  split; [by exists header_row|].
  split; [done|].
  split.
  { intros i. rewrite Hvalid, kept_indices_from, elem_of_kept_from.
    rewrite Nat.sub_0_r. split.
    - intros (h & _ & ? & ?). by exists h.
    - intros (h & ? & ?). exists h. split; [lia|done]. }
  split; [rewrite Hvalid, kept_indices_from; apply kept_from_sorted|].
  split.
  { apply for_each_getitem. rewrite Hvalid, Hhs. apply headers_of_raw. }
  split.
  { rewrite Hhs. apply Forall_forall. intros h Hin.
    apply filter_In in Hin as [_ Hin]. by apply not_blank_true. }
  split; [done|].
  split; [unfold parse_table_to_df; by rewrite Hl, He|].
  intros df Hdf.
  destruct (build_frame_Returns td now e df Hdf) as (Hnd & parsed & df2 & -> & Hcases).
  assert (Hpre : headers e `prefix_of` columns (with_links_and_dates e parsed)).
  { unfold with_links_and_dates.
    etrans; [|apply columns_prefix_set_column].
    etrans; [|apply columns_prefix_set_column].
    by rewrite columns_from_rows. }
  assert (Hcol : forall k h, headers e !! k = Some h -> h ∉ DERIVED ->
            assoc h (cols (with_links_and_dates e parsed)) = Some (text_column k (data e))).
  { intros k h Hk Hd. unfold with_links_and_dates, DERIVED in *.
    rewrite !not_elem_of_cons in Hd. destruct Hd as (? & ? & ? & ? & _).
    rewrite !assoc_set_column, !decide_False by done.
    by apply assoc_from_rows. }
  destruct Hcases as [(_ & links & embeds & _ & _ & ->)|(_ & ->)].
  - split; [etrans; [exact Hpre|]; etrans; [|apply columns_prefix_set_column];
            apply columns_prefix_set_column|].
    intros k h Hk Hd. pose proof Hd as Hd'. unfold DERIVED in Hd'.
    rewrite !not_elem_of_cons in Hd'. destruct Hd' as (? & ? & ? & ? & _).
    rewrite !assoc_set_column, !decide_False by done. by apply Hcol.
  - unfold set_column_scalar.
    split; [etrans; [exact Hpre|]; etrans; [|apply columns_prefix_set_column];
            apply columns_prefix_set_column|].
    intros k h Hk Hd. pose proof Hd as Hd'. unfold DERIVED in Hd'.
    rewrite !not_elem_of_cons in Hd'. destruct Hd' as (? & ? & ? & ? & _).
    rewrite !assoc_set_column, !decide_False by done. by apply Hcol.
Qed.
End TableTheorems.

Lemma no_table_no_records_witness :
  parse_table_to_df ascii_decimal example_urljoin 2025 page_no_table
  = Returns empty_frame
  /\ parse_table_to_df ascii_decimal example_urljoin 2025
       (page_of [el "table" [el "tr" [el "th" [tx "名稱"]]]])
     = Returns empty_frame.
Proof.
  split.
  - apply (proj1 (no_table_no_records ascii_decimal example_urljoin 2025 page_no_table)).
    vm_compute. reflexivity.
  - apply (proj2 (no_table_no_records ascii_decimal example_urljoin 2025
                    (page_of [el "table" [el "tr" [el "th" [tx "名稱"]]]]))).
    + vm_compute. reflexivity.
    + intros tbl Hin. apply list_elem_of_In in Hin. vm_compute in Hin.
      destruct Hin as [<-|[]]. intros [H _].
      apply in_list_true in H. vm_compute in H. discriminate.
Defined.

Lemma missing_event_name_no_records_witness :
  parse_table_to_df ascii_decimal example_urljoin 2025 page_other_header
  = Returns empty_frame.
Proof.
  apply (missing_event_name_no_records ascii_decimal example_urljoin 2025
           page_other_header table_other_header
           (el "tr" [el "th" [tx "名稱"]; el "th" [tx "日期"]])).
  - vm_compute. reflexivity.
  - vm_compute. reflexivity.
  - apply in_list_false. vm_compute. reflexivity.
Defined.

Lemma blank_columns_dropped_witness :
  exists e,
    extract_table example_urljoin table_events = Returns (Some e)
    /\ valid_indices e = [0; 2; 3]
    /\ Forall2 (fun i h => raw_headers e !! i = Some h) (valid_indices e) (headers e)
    /\ Forall (fun h => ~ blank h) (headers e).
Proof.
  eexists. split; [vm_compute; reflexivity|]. split; [reflexivity|].
  match goal with
  | |- context [headers ?e] =>
    destruct (blank_columns_dropped ascii_decimal example_urljoin 2025
                page_events table_events e)
      as (_ & _ & _ & _ & Hh & Hb & _)
  end.
  - vm_compute. reflexivity.
  - vm_compute. reflexivity.
  - split; [exact Hh | exact Hb].
Defined.

(** The extraction catches no exception of its own.  A data row with fewer
    cells than the header has kept columns raises [IndexError]. *)
Lemma short_row_raises :
  parse_table_to_df ascii_decimal example_urljoin 2025 page_short_row = Raises IndexError.
Proof. vm_compute. reflexivity. Qed.

(** A table without any row raises [AttributeError]. *)
Lemma table_without_rows_raises :
  parse_table_to_df ascii_decimal example_urljoin 2025 page_no_rows = Raises AttributeError.
Proof. vm_compute. reflexivity. Qed.

(** C2 as stated fails: the table with the well-known id is read whatever
    its labels.  No table of this page has the date label, and the page
    gives one record. *)
Lemma id_table_needs_no_date_label :
  find_all (is_tag (u "table")) page_no_date_label <> []
  /\ (forall tbl, tbl ∈ find_all (is_tag (u "table")) page_no_date_label ->
        DATE ∉ th_texts tbl)
  /\ exists df, parse_table_to_df ascii_decimal example_urljoin 2025 page_no_date_label
                = Returns df /\ nrows df = 1.
Proof.
  split; [vm_compute; discriminate|]. split.
  - intros tbl Hin. apply list_elem_of_In in Hin.
    vm_compute in Hin. destruct Hin as [<-|[]].
    apply in_list_false. vm_compute. reflexivity.
  - eexists. split; [vm_compute; reflexivity|reflexivity].
Qed.

(** ** The map links *)

Lemma apply_make_maps_link series links :
  apply_str make_maps_link series = Returns links ->
  Forall2 search_link_of series links.
Proof.
  unfold apply_str. rewrite for_each_Returns.
  apply Forall2_impl. intros v w H.
  apply bind_Returns in H as (a & Ha & H).
  apply bind_Returns in H as (t & Ht & [= <-]).
  unfold make_maps_link in Ht. apply bind_Returns in Ht as (q & Hq & [= <-]).
  destruct v; try discriminate. injection Ha as ->. by exists a, q.
Qed.

Lemma apply_make_maps_embed series links :
  apply_str make_maps_embed series = Returns links ->
  Forall2 embed_link_of series links.
Proof.
  unfold apply_str. rewrite for_each_Returns.
  apply Forall2_impl. intros v w H.
  apply bind_Returns in H as (a & Ha & H).
  apply bind_Returns in H as (t & Ht & [= <-]).
  unfold make_maps_embed in Ht. apply bind_Returns in Ht as (q & Hq & [= <-]).
  destruct v; try discriminate. injection Ha as ->. by exists a, q.
Qed.

Ltac distinct_labels := vm_compute; discriminate.

(** C7.  In a record set the extraction returns, when there is a 地點
    column the map link of every row is the search template followed by
    the percent-encoded address of the row, and the embed link the embed
    template, the same encoding and [&output=embed]; when there is no such
    column both links are the empty string in every row.  For 台北市政府
    the encoding is %E5%8F%B0%E5%8C%97%E5%B8%82%E6%94%BF%E5%BA%9C. *)
Theorem maps_links_of_location td urljoin now soup df :
  parse_table_to_df td urljoin now soup = Returns df ->
  (LOCATION ∈ columns df ->
     Forall2 search_link_of (column LOCATION df) (column LOCATION_LINK df)
     /\ Forall2 embed_link_of (column LOCATION df) (column LOCATION_EMBED df))
  /\ (LOCATION ∉ columns df ->
      column LOCATION_LINK df = replicate (nrows df) (VStr [])
      /\ column LOCATION_EMBED df = replicate (nrows df) (VStr []))
  /\ make_maps_link (u "台北市政府")
     = Returns (MAPS_SEARCH ++ u "%E5%8F%B0%E5%8C%97%E5%B8%82%E6%94%BF%E5%BA%9C")
  /\ make_maps_embed (u "台北市政府")
     = Returns (MAPS_EMBED ++ u "%E5%8F%B0%E5%8C%97%E5%B8%82%E6%94%BF%E5%BA%9C"
                ++ OUTPUT_EMBED).
Proof.
  intros H.
  assert (Hempty : df = empty_frame \/
            exists e, build_frame td now e = Returns df).
  { unfold parse_table_to_df in H.
    destruct (locate_table soup) as [table|]; [|left; by injection H].
    apply bind_Returns in H as ([e|] & _ & H); [right; by exists e|left; by injection H]. }
  split; [|split; [|split; vm_compute; reflexivity]].
  - intros Hloc. destruct Hempty as [->|[e He]]; [by apply elem_of_nil in Hloc|].
    destruct (build_frame_Returns td now e df He)
      as (_ & parsed & df2 & _ & [(_ & links & embeds & Hl & Hem & ->)|(Hno & ->)]).
    + unfold column at 2 4. rewrite !assoc_set_column.
      rewrite (decide_False (P := LOCATION_LINK = LOCATION_EMBED)) by distinct_labels.
      rewrite !decide_True by done. simpl.
      rewrite !column_set_column by distinct_labels.
      split; [by apply apply_make_maps_link | by apply apply_make_maps_embed].
    + exfalso. apply Hno. unfold set_column_scalar in Hloc.
      rewrite !elem_of_columns_set_column in Hloc.
      destruct Hloc as [Hc|[Hc|Hc]]; [exfalso; revert Hc; distinct_labels ..|done].
  - intros Hloc. destruct Hempty as [->|[e He]]; [done|].
    destruct (build_frame_Returns td now e df He)
      as (_ & parsed & df2 & _ & [(Hyes & links & embeds & _ & _ & ->)|(_ & ->)]).
    + exfalso. apply Hloc. rewrite !elem_of_columns_set_column. tauto.
    + unfold set_column_scalar, column. rewrite !assoc_set_column.
      rewrite (decide_False (P := LOCATION_LINK = LOCATION_EMBED)) by distinct_labels.
      rewrite !decide_True by done. simpl. by rewrite !nrows_set_column.
Qed.

Lemma maps_links_of_location_witness :
  exists df,
    parse_table_to_df ascii_decimal example_urljoin 2025 page_events = Returns df
    /\ LOCATION ∈ columns df
    /\ Forall2 search_link_of (column LOCATION df) (column LOCATION_LINK df)
    /\ Forall2 embed_link_of (column LOCATION df) (column LOCATION_EMBED df).
Proof.
  eexists. split; [vm_compute; reflexivity|].
  split.
  - apply in_list_true. vm_compute. reflexivity.
  - match goal with
    | |- context [column LOCATION ?df] =>
      apply (proj1 (maps_links_of_location ascii_decimal example_urljoin 2025
                      page_events df ltac:(vm_compute; reflexivity)))
    end.
    apply in_list_true. vm_compute. reflexivity.
Defined.

(** ** The keyword filter *)

Lemma startswith_prefix p s : startswith p s = true <-> exists post, s = p ++ post.
Proof.
  revert s. induction p as [|a p IH]; intros s; simpl.
  - split; [intros _; by exists s | done].
  - destruct s as [|b s].
    + split; [discriminate | intros [post H]; discriminate].
    + rewrite andb_true_iff, N.eqb_eq, IH. split.
      * intros [-> [post ->]]. by exists post.
      * intros [post [= -> ->]]. split; [done | by exists post].
Qed.

Lemma contains_substring p s : contains p s = true <-> substring p s.
Proof.
  unfold substring. induction s as [|c s IH]; simpl.
  - rewrite orb_false_r, startswith_prefix. split.
    + intros [post H]. by exists [], post.
    + intros (pre & post & H). symmetry in H.
      apply app_eq_nil in H as [-> H]. apply app_eq_nil in H as [-> ->].
      by exists [].
  - rewrite orb_true_iff, startswith_prefix, IH. split.
    + intros [[post H]|(pre & post & ->)].
      * by exists [], post.
      * by exists (c :: pre), post.
    + intros ([|c' pre] & post & H).
      * left. by exists post.
      * right. injection H as -> ->. by exists pre, post.
Qed.

Section KeywordFacts.
Variable Cell : Type.
Variable astype_str : Cell -> pystr.
Variable re_compile : pystr -> option (pystr -> bool).

Lemma select_rows_filter {A} (f : A -> bool) (df : list A) :
  select_rows df (map f df) = List.filter f df.
Proof.
  unfold select_rows. induction df as [|r df IH]; simpl; [done|].
  destruct (f r); simpl; by rewrite IH.
Qed.

Lemma row_contains_substring keyword (r : list Cell) :
  row_contains Cell astype_str keyword r = true
  <-> exists c, c ∈ r /\ substring keyword (astype_str c).
Proof.
  unfold row_contains. rewrite existsb_exists.
  split; intros (c & Hin & Hc); exists c;
    (split; [by apply list_elem_of_In | by apply contains_substring]).
Qed.

(** C6, amended.  A keyword that is blank once trimmed leaves the record
    set as it is.  A keyword that is not blank and has no character special
    to regular expressions keeps exactly the rows in which the text of some
    column contains the keyword, as typed and with the same case, and drops
    the others; the rows kept stay in order. *)
Theorem keyword_filter_literal keyword df :
  literal_patterns re_compile ->
  (strip keyword = [] ->
   keyword_filter Cell astype_str re_compile keyword df = Returns df)
  /\ (strip keyword <> [] ->
      forallb (fun c => negb (re_special c)) keyword = true ->
      keyword_filter Cell astype_str re_compile keyword df
      = Returns (List.filter (row_contains Cell astype_str keyword) df))
  /\ (forall r, row_contains Cell astype_str keyword r = true
                <-> exists c, c ∈ r /\ substring keyword (astype_str c)).
Proof.
  intros Hre. split; [|split; [|apply row_contains_substring]].
  { intros Hk. unfold keyword_filter. rewrite Hk. reflexivity. }
  intros Hk Hlit. unfold keyword_filter.
  replace (str_eqb (strip keyword) []) with false
    by (symmetry; by apply str_eqb_false).
  simpl. destruct (Hre keyword Hlit) as (search & Hc & Hs).
  assert (Hmask : for_each (row_mask Cell astype_str re_compile keyword) df
                  = Returns (map (row_contains Cell astype_str keyword) df)).
  { apply for_each_Returns. apply Forall2_fmap_r, Forall_Forall2_diag, Forall_forall.
    intros r _. unfold row_mask, str_contains, row_contains. rewrite Hc. simpl.
    f_equal. induction r as [|c r IH]; simpl; [done|]. by rewrite Hs, IH. }
  rewrite Hmask. simpl. by rewrite select_rows_filter.
Qed.
End KeywordFacts.

Lemma literal_only_compile_literal : literal_patterns literal_only_compile.
Proof.
  intros p Hp. unfold literal_only_compile. rewrite Hp. by exists (contains p).
Qed.

Lemma keyword_filter_literal_witness :
  keyword_filter pystr id literal_only_compile (u "台南")
    [[u "府城路跑"; u "台南市"]; [u "台北馬拉松"; u "台北市"]]
  = Returns [[u "府城路跑"; u "台南市"]].
Proof.
  rewrite (proj1 (proj2 (keyword_filter_literal pystr id literal_only_compile
                           (u "台南") _ literal_only_compile_literal))).
  - vm_compute. reflexivity.
  - vm_compute. discriminate.
  - vm_compute. reflexivity.
Defined.

(** C6 as stated fails: the keyword of one space is not empty, no cell of
    the row contains it, and the row is kept. *)
Lemma blank_keyword_keeps_all_rows :
  u " " <> []
  /\ keyword_filter (list N) id literal_only_compile (u " ") [[u "abc"]]
     = Returns [[u "abc"]]
  /\ List.filter (row_contains (list N) id (u " ")) [[u "abc"]] = [].
Proof. split; [vm_compute; discriminate|]. split; vm_compute; reflexivity. Qed.

(** ** The postbacks *)

Lemma when_true (P : Prop) `{Decision P} {A} (x : A) : P -> when P x = [x].
Proof. intros HP. unfold when. by rewrite decide_True. Qed.

Lemma when_false (P : Prop) `{Decision P} {A} (x : A) : ~ P -> when P x = [].
Proof. intros HP. unfold when. by rewrite decide_False. Qed.

Lemma year_fires_test year :
  negb (in_list year [u "now"; u "all"]) = true <-> year_fires year.
Proof.
  rewrite negb_true_iff, in_list_false. unfold year_fires, is_all, is_now.
  rewrite !not_elem_of_cons. split; [intros (? & ? & _); tauto|].
  intros [? ?]. repeat split; try done. apply not_elem_of_nil.
Qed.

Lemma resolved_year_test c year :
  (if negb (in_list year [u "now"; u "all"]) then year else default_year_val c)
  = resolved_year c year.
Proof.
  unfold resolved_year. destruct (negb (in_list year [u "now"; u "all"])) eqn:E.
  - apply year_fires_test in E as [? ?]. rewrite decide_False; tauto.
  - rewrite decide_True; [done|]. destruct (decide (is_all year \/ is_now year)); [done|].
    exfalso. apply eq_true_false_abs with (negb (in_list year [u "now"; u "all"]));
      [|done]. apply year_fires_test. unfold year_fires. tauto.
Qed.

Lemma resolved_test x dflt :
  (if negb (str_eqb x (u "all")) then x else dflt)
  = if decide (is_all x) then dflt else x.
Proof.
  unfold is_all. destruct (str_eqb x (u "all")) eqn:E; simpl.
  - apply str_eqb_true in E. by rewrite decide_True.
  - apply str_eqb_false in E. by rewrite decide_False.
Qed.

Lemma fires_test x dflt :
  negb (in_list x [u "all"; dflt]) = true <-> ~ is_all x /\ x <> dflt.
Proof.
  rewrite negb_true_iff, in_list_false. unfold is_all.
  rewrite !not_elem_of_cons. split; [intros (? & ? & _); tauto|].
  intros [? ?]. repeat split; try done. apply not_elem_of_nil.
Qed.

Lemma assoc_dict_set k k' v (d : dict) :
  assoc k (dict_set k' v d) = if decide (k = k') then Some v else assoc k d.
Proof.
  induction d as [|[k0 v0] d IH]; simpl.
  - destruct (decide (k = k')) as [->|Hne]; [by rewrite str_eqb_refl|].
    by replace (str_eqb k k') with false by (symmetry; by apply str_eqb_false).
  - destruct (str_eqb k0 k') eqn:E0; simpl.
    + apply str_eqb_true in E0 as ->.
      destruct (decide (k = k')) as [->|Hne]; [by rewrite str_eqb_refl|].
      by replace (str_eqb k k') with false by (symmetry; by apply str_eqb_false).
    + apply str_eqb_false in E0. rewrite IH.
      destruct (str_eqb k k0) eqn:E; [|done].
      apply str_eqb_true in E as ->. by rewrite decide_False.
Qed.

Lemma keys_dict_set k v (d : dict) :
  keys (dict_set k v d) = if decide (k ∈ keys d) then keys d else keys d ++ [k].
Proof.
  unfold keys. induction d as [|[k0 v0] d IH].
  - cbn [dict_set map fst]. by rewrite decide_False by apply not_elem_of_nil.
  - cbn [dict_set map fst]. destruct (str_eqb k0 k) eqn:E; cbn [map fst].
    + apply str_eqb_true in E as ->.
      by rewrite (decide_True (P := k ∈ k :: map fst d)) by apply list_elem_of_here.
    + apply str_eqb_false in E. rewrite IH.
      destruct (decide (k ∈ map fst d)) as [Hin|Hn].
      * by rewrite (decide_True (P := k ∈ k0 :: map fst d))
          by (by apply list_elem_of_further).
      * rewrite (decide_False (P := k ∈ k0 :: map fst d)); [done|].
        rewrite elem_of_cons. intros [->|]; done.
Qed.

Lemma NoDup_keys_dict_set k v (d : dict) :
  NoDup (keys d) -> NoDup (keys (dict_set k v d)).
Proof.
  intros Hd. rewrite keys_dict_set. case_decide; [done|].
  apply list.NoDup_app. split; [done|]. split.
  - intros x Hx. rewrite list_elem_of_singleton. by intros ->.
  - apply NoDup_singleton.
Qed.

Lemma NoDup_keys_dict_update (d src : dict) :
  NoDup (keys d) -> NoDup (keys (dict_update d src)).
Proof.
  unfold dict_update. revert d. induction src as [|[k v] src IH]; intros d Hd; simpl.
  - done.
  - by apply IH, NoDup_keys_dict_set.
Qed.

(** The hidden fields are a dict: no name comes twice. *)
Lemma extract_hidden_inputs_keys soup hidden :
  extract_hidden_inputs soup = Returns hidden -> NoDup (keys hidden).
Proof.
  unfold extract_hidden_inputs.
  destruct (match find _ soup with Some f => Some f | None => _ end) as [f|];
    [|discriminate].
  intros [= <-].
  assert (Hnil : NoDup (keys (@nil (pystr * pystr)))) by constructor.
  revert Hnil. generalize (@nil (pystr * pystr)).
  induction (find_all _ f) as [|inp inputs IH]; intros d Hd; simpl; [done|].
  apply IH. destruct (attr (u "name") inp); [by apply NoDup_keys_dict_set | done].
Qed.

(** The target and the argument are written last, so they are in every
    payload whatever the names of the controls. *)
Lemma payload_of_targets hidden target values :
  assoc EVENTTARGET (payload_of hidden target values) = Some target
  /\ assoc EVENTARGUMENT (payload_of hidden target values) = Some [].
Proof.
  unfold payload_of. rewrite !assoc_dict_set.
  assert (EVENTTARGET <> EVENTARGUMENT) by (vm_compute; discriminate).
  split; repeat case_decide; congruence.
Qed.

(** With control names that differ from one another and from the two
    postback fields, the payload holds the three values of the dict
    display under the names of the controls. *)
Lemma payload_of_values ny nr nt vy vr vt hidden target :
  NoDup [ny; nr; nt; EVENTTARGET; EVENTARGUMENT] ->
  let payload := payload_of hidden target (dict_of [(ny, vy); (nr, vr); (nt, vt)]) in
  assoc ny payload = Some vy /\ assoc nr payload = Some vr /\ assoc nt payload = Some vt.
Proof.
  intros Hnd.
  apply list.NoDup_cons in Hnd as [Hy Hnd].
  apply list.NoDup_cons in Hnd as [Hr Hnd].
  apply list.NoDup_cons in Hnd as [Ht Hnd].
  rewrite !not_elem_of_cons in Hy. rewrite !not_elem_of_cons in Hr.
  rewrite !not_elem_of_cons in Ht.
  destruct Hy as (Hyr & Hyt & Hye & Hya & _), Hr as (Hrt & Hre & Hra & _),
           Ht as (Hte & Hta & _).
  assert (Hvals : dict_update hidden (dict_of [(ny, vy); (nr, vr); (nt, vt)])
                  = dict_set nt vt (dict_set nr vr (dict_set ny vy hidden))).
  { unfold dict_of, dict_update. simpl.
    replace (str_eqb ny nr) with false by (symmetry; by apply str_eqb_false).
    simpl.
    replace (str_eqb ny nt) with false by (symmetry; by apply str_eqb_false).
    replace (str_eqb nr nt) with false by (symmetry; by apply str_eqb_false).
    reflexivity. }
  cbv zeta. unfold payload_of. rewrite Hvals, !assoc_dict_set.
  repeat split; repeat case_decide; congruence.
Qed.

Lemma payload_of_keys hidden target values :
  NoDup (keys hidden) -> NoDup (keys (payload_of hidden target values)).
Proof.
  intros Hh. unfold payload_of.
  by apply NoDup_keys_dict_set, NoDup_keys_dict_set, NoDup_keys_dict_update.
Qed.

Lemma payload_of_posted c hidden p :
  NoDup (keys hidden) ->
  posted c (payload_of hidden (trigger p)
              (dict_of [(year_name c, year_value p); (region_name c, region_value p);
                        (type_name c, type_value p)])) p.
Proof.
  intros Hh. split; [by apply payload_of_keys|].
  split; [apply payload_of_targets|].
  intros Hnd. by apply payload_of_values.
Qed.

Lemma posted_parts c posts sent :
  Forall2 (posted c) posts sent ->
  Forall (fun payload => NoDup (keys payload)) posts
  /\ Forall2 targets posts sent
  /\ (distinct_names c -> Forall2 (submits c) posts sent).
Proof.
  induction 1 as [|payload p posts sent (Hk & Ht & Hv) _ (IHk & IHt & IHv)].
  - repeat split; constructor.
  - split; [by constructor|]. split; [by constructor|].
    intros Hnd. constructor; [by apply Hv | by apply IHv].
Qed.

Section NavigateFacts.
Variable Server : Type.
Variable http_get : Server -> response * Server.
Variable http_post : dict -> Server -> response * Server.


Lemma sends_lift {A} c (r : result A) : sends c (lift Server r) [].
Proof.
  intros w. exists [], []. simpl. rewrite app_nil_r.
  repeat split; [done | constructor].
Qed.

Lemma sends_ret {A} c (a : A) : sends c (ret Server a) [].
Proof. apply (sends_lift c (Returns a)). Qed.

Lemma sends_raise {A} c e : sends c (@raise Server A e) [].
Proof. apply (sends_lift c (Raises e)). Qed.

Lemma sends_and_then {A B} c (m : nav Server A) (k : A -> nav Server B) p1 p2 :
  sends c m p1 -> (forall a, sends c (k a) p2) ->
  sends c (and_then Server m k) (p1 ++ p2).
Proof.
  intros Hm Hk w. destruct (Hm w) as (ps1 & s1 & Hlog1 & Hpre1 & Hc1 & Hfull1).
  unfold and_then. destruct (m w) as [[a|e|] w1] eqn:E; simpl in *.
  - destruct (Hk a w1) as (ps2 & s2 & Hlog2 & Hpre2 & Hc2 & Hfull2).
    exists (ps1 ++ ps2), (p1 ++ s2). rewrite (Hfull1 a eq_refl) in Hc1.
    split; [by rewrite Hlog2, Hlog1, map_app, app_assoc|].
    split; [by apply prefix_app|].
    split; [by apply Forall2_app|].
    intros b Hb. f_equal. by eapply Hfull2.
  - exists ps1, s1. split; [done|]. split; [by apply prefix_app_r|]. done.
  - exists ps1, s1. split; [done|]. split; [by apply prefix_app_r|]. done.
Qed.

Lemma sends_postback c soup p :
  sends c (postback Server http_post soup (trigger p)
             (dict_of [(year_name c, year_value p); (region_name c, region_value p);
                       (type_name c, type_value p)])) [p].
Proof.
  intros w. unfold postback, and_then, lift.
  destruct (extract_hidden_inputs soup) as [hidden|e|] eqn:Eh; simpl.
  - unfold session_post. destruct (http_post _ (server w)) as [r s] eqn:E. simpl.
    assert (Hc : posted c (payload_of hidden (trigger p)
              (dict_of [(year_name c, year_value p); (region_name c, region_value p);
                        (type_name c, type_value p)])) p).
    { eapply payload_of_posted, extract_hidden_inputs_keys, Eh. }
    destruct r as [|status page]; [|destruct (negb (status =? 200)%Z)]; simpl;
      eexists [_], [p]; (split; [reflexivity|]); (split; [done|]);
      (split; [by constructor|done]).
  - exists [], []. rewrite app_nil_r. repeat split; [apply prefix_nil | constructor | done].
  - exists [], []. rewrite app_nil_r. repeat split; [apply prefix_nil | constructor | done].
Qed.

Lemma sends_step c (P : Prop) `{Decision P} (fires : bool) soup p :
  (fires = true <-> P) ->
  sends c (if fires
           then postback Server http_post soup (trigger p)
                  (dict_of [(year_name c, year_value p); (region_name c, region_value p);
                            (type_name c, type_value p)])
           else ret Server soup)
        (when P p).
Proof.
  intros Hf. destruct fires.
  - rewrite when_true by (by apply Hf). apply sends_postback.
  - rewrite when_false by (rewrite <- Hf; discriminate). apply sends_ret.
Qed.

Lemma postback_plan_length c year region rtype :
  length (postback_plan c year region rtype) <= 3.
Proof.
  unfold postback_plan, when. rewrite !length_app.
  repeat case_decide; simpl; lia.
Qed.

Lemma get_filtered_soup_run year region rtype (w : world Server) res w' :
  get_filtered_soup Server http_get http_post year region rtype w = (res, w') ->
  exists posts,
    log w' = log w ++ GET :: map POST posts
    /\ length posts <= 3
    /\ Forall (fun payload => NoDup (keys payload)) posts
    /\ (forall soup0 c,
          (http_get (server w)).1 = Response 200 soup0 ->
          read_controls soup0 = Returns c ->
          exists sent, sent `prefix_of` postback_plan c year region rtype
                       /\ Forall2 targets posts sent
                       /\ (distinct_names c -> Forall2 (submits c) posts sent))
    /\ (forall final,
          res = Returns final ->
          exists soup0 c,
            (http_get (server w)).1 = Response 200 soup0
            /\ read_controls soup0 = Returns c
            /\ Forall2 targets posts (postback_plan c year region rtype)
            /\ (distinct_names c ->
                Forall2 (submits c) posts (postback_plan c year region rtype))).
Proof.
  unfold get_filtered_soup. unfold and_then at 1, session_get.
  destruct (http_get (server w)) as [r0 s] eqn:Eget. cbn [fst].
  set (w1 := mk_world s (log w ++ [GET])).
  assert (Hstop : forall e, (forall soup0 c, r0 = Response 200 soup0 ->
                                              read_controls soup0 <> Returns c) ->
            raise Server e w1 = (res, w') ->
            exists posts,
              log w' = log w ++ GET :: map POST posts /\ length posts <= 3
              /\ Forall (fun payload => NoDup (keys payload)) posts
              /\ (forall soup0 c, r0 = Response 200 soup0 ->
                    read_controls soup0 = Returns c ->
                    exists sent, sent `prefix_of` postback_plan c year region rtype
                                 /\ Forall2 targets posts sent
                                 /\ (distinct_names c -> Forall2 (submits c) posts sent))
              /\ (forall final, res = Returns final ->
                    exists soup0 c, r0 = Response 200 soup0
                      /\ read_controls soup0 = Returns c
                      /\ Forall2 targets posts (postback_plan c year region rtype)
                      /\ (distinct_names c ->
                          Forall2 (submits c) posts (postback_plan c year region rtype)))).
  { intros e Hbad [= <- <-]. exists []. simpl.
    split; [done|]. split; [lia|]. split; [constructor|]. split; [|done].
    intros soup0 c Hr Hc. by apply Hbad in Hc. }
  destruct r0 as [|status soup].
  { by apply Hstop. }
  destruct (negb (status =? 200)%Z) eqn:Est.
  { apply Hstop. intros soup0 c [= -> _]. discriminate. }
  apply negb_false_iff, Z.eqb_eq in Est as ->.
  unfold and_then at 1, lift at 1.
  destruct (read_controls soup) as [c|e|] eqn:Ec.
  2:{ apply (Hstop e). intros soup0 c [= <-]. congruence. }
  2:{ intros [= <- <-]. exists []. simpl. split; [done|]. split; [lia|].
      split; [constructor|].
      split; [|done]. intros soup0 c [= <-] Hc. congruence. }
  clear Hstop.
  rewrite !resolved_year_test, !resolved_test.
  fold (resolved_region c region). fold (resolved_type c rtype).
  match goal with
  | |- ?m w1 = _ -> _ =>
    assert (Hs : sends c m (postback_plan c year region rtype))
  end.
  { unfold postback_plan.
    apply sends_and_then.
    { apply (sends_step c (year_fires year) _ soup
               (mk_planned (year_name c) year (default_region_val c)
                           (default_type_val c))).
      apply year_fires_test. }
    intros soup1. apply sends_and_then.
    { apply (sends_step c (region_fires c region) _ soup1
               (mk_planned (region_name c) (resolved_year c year)
                           (resolved_region c region) (default_type_val c))).
      apply fires_test. }
    intros soup2.
    rewrite <- (app_nil_r (when (type_fires c rtype) _)).
    apply sends_and_then.
    { apply (sends_step c (type_fires c rtype) _ soup2
               (mk_planned (type_name c) (resolved_year c year)
                           (resolved_region c region) (resolved_type c rtype))).
      apply fires_test. }
    intros soup3. apply sends_ret. }
  intros Hrun.
  destruct (Hs w1) as (ps & sent & Hlog & Hpre & Hcar & Hfull).
  rewrite Hrun in Hlog, Hfull. simpl in Hlog, Hfull.
  exists ps. split; [rewrite Hlog; by rewrite <- app_assoc|].
  split.
  { apply Forall2_length in Hcar. rewrite Hcar.
    etrans; [by apply prefix_length|]. apply postback_plan_length. }
  apply posted_parts in Hcar as (Hkeys & Htar & Hval).
  split; [done|]. split.
  - intros soup0 c' [= <-] Hc'. rewrite Ec in Hc'. injection Hc' as <-.
    by exists sent.
  - intros final Hf. exists soup, c. split; [done|]. split; [done|].
    by rewrite <- (Hfull final Hf).
Qed.

(** C1.  Whatever the site answers, [get_filtered_soup] issues one GET,
    first, and then at most three POSTs, each a form with every field
    once.  When the first page gives the controls, the POSTs stand for an
    initial part of the planned postbacks, in the plan's order year,
    region, event type, and when the run returns a page they stand for
    the whole plan: the year postback exactly when the year is neither
    all nor now, the region postback exactly when the resolved region is
    neither all nor the default, the event-type postback exactly when
    the resolved type is neither all nor the default.  Each POST names
    the control of its postback as the event target.  On a form whose
    three controls have names of their own, none of them the name of a
    postback field, the year POST holds the chosen year under the year
    control's name and the default region and type under theirs, the
    region POST the resolved year and region and the default type, the
    event-type POST the resolved year, region and type. *)
Theorem postbacks_follow_plan year region rtype (w : world Server) :
  exists posts,
    log (get_filtered_soup Server http_get http_post year region rtype w).2
    = log w ++ GET :: map POST posts
    /\ length posts <= 3
    /\ Forall (fun payload => NoDup (keys payload)) posts
    /\ (forall soup0 c,
          (http_get (server w)).1 = Response 200 soup0 ->
          read_controls soup0 = Returns c ->
          exists sent, sent `prefix_of` postback_plan c year region rtype
                       /\ Forall2 targets posts sent
                       /\ (distinct_names c -> Forall2 (submits c) posts sent))
    /\ (forall final,
          (get_filtered_soup Server http_get http_post year region rtype w).1
          = Returns final ->
          exists soup0 c,
            (http_get (server w)).1 = Response 200 soup0
            /\ read_controls soup0 = Returns c
            /\ Forall2 targets posts (postback_plan c year region rtype)
            /\ (distinct_names c ->
                Forall2 (submits c) posts (postback_plan c year region rtype))).
Proof.
  destruct (get_filtered_soup Server http_get http_post year region rtype w)
    as [res w'] eqn:Erun.
  exact (get_filtered_soup_run year region rtype w res w' Erun).
Qed.
End NavigateFacts.

Lemma postbacks_follow_plan_witness :
  exists p1 p2 p3,
    log (get_filtered_soup nat site_get site_post (u "2024") (u "北") (u "2")
           (mk_world 0 [])).2
    = [GET; POST p1; POST p2; POST p3]
    /\ (assoc EVENTTARGET p1 = Some (u "ctl00$Year")
        /\ assoc (u "ctl00$Year") p1 = Some (u "2024")
        /\ assoc (u "ctl00$DropDownList1") p1 = Some (u "all")
        /\ assoc (u "ctl00$type") p1 = Some (u "public"))
    /\ (assoc EVENTTARGET p2 = Some (u "ctl00$DropDownList1")
        /\ assoc (u "ctl00$Year") p2 = Some (u "2024")
        /\ assoc (u "ctl00$DropDownList1") p2 = Some (u "北")
        /\ assoc (u "ctl00$type") p2 = Some (u "public"))
    /\ (assoc EVENTTARGET p3 = Some (u "ctl00$type")
        /\ assoc (u "ctl00$Year") p3 = Some (u "2024")
        /\ assoc (u "ctl00$DropDownList1") p3 = Some (u "北")
        /\ assoc (u "ctl00$type") p3 = Some (u "2")).
Proof.
  destruct (postbacks_follow_plan nat site_get site_post (u "2024") (u "北") (u "2")
              (mk_world 0 [])) as (posts & Hlog & _ & _ & _ & Hfull).
  destruct (Hfull page_form) as (soup0 & c & Hget & Hc & Htar & Hval);
    [vm_compute; reflexivity|].
  injection Hget as <-. vm_compute in Hc. injection Hc as <-.
  assert (Hnd : distinct_names
                  (mk_controls (u "ctl00$Year") (u "ctl00$DropDownList1") (u "ctl00$type")
                               (u "2025") (u "all") (u "public"))).
  { apply (bool_decide_unpack _). vm_compute. reflexivity. }
  specialize (Hval Hnd). clear Hnd.
  change (postback_plan _ _ _ _)
    with [mk_planned (u "ctl00$Year") (u "2024") (u "all") (u "public");
          mk_planned (u "ctl00$DropDownList1") (u "2024") (u "北") (u "public");
          mk_planned (u "ctl00$type") (u "2024") (u "北") (u "2")] in Htar, Hval.
  destruct posts as [|p1 [|p2 [|p3 [|p4 posts]]]];
    try (exfalso; apply Forall2_length in Htar; discriminate).
  exists p1, p2, p3. split; [exact Hlog|].
  apply Forall2_cons_1 in Htar as [[T1 _] Htar].
  apply Forall2_cons_1 in Htar as [[T2 _] Htar].
  apply Forall2_cons_1 in Htar as [[T3 _] _].
  apply Forall2_cons_1 in Hval as [(Y1 & R1 & V1) Hval].
  apply Forall2_cons_1 in Hval as [(Y2 & R2 & V2) Hval].
  apply Forall2_cons_1 in Hval as [(Y3 & R3 & V3) _].
  repeat split; assumption.
Defined.

(** * Further properties *)

Lemma when_test (b : bool) (P : Prop) `{Decision P} {A} (x : A) :
  (b = true <-> P) -> when P x = if b then [x] else [].
Proof.
  intros Hb. destruct b.
  - apply when_true. by apply Hb.
  - apply when_false. rewrite <- Hb. discriminate.
Qed.

Section PlanFacts.
Variable Server : Type.
Variable http_get : Server -> response * Server.
Variable http_post : dict -> Server -> response * Server.

Lemma get_filtered_soup_plan year region rtype (w : world Server) :
  get_filtered_soup Server http_get http_post year region rtype w
  = after_get http_post year region rtype (http_get (server w)).1
      (mk_world (http_get (server w)).2 (log w ++ [GET])).
Proof.
  unfold get_filtered_soup, after_get. unfold and_then at 1, session_get.
  destruct (http_get (server w)) as [r0 s]. cbn [fst snd].
  destruct r0 as [|status soup]; [reflexivity|].
  destruct (negb (status =? 200)%Z); [reflexivity|].
  unfold and_then at 1 5, lift.
  destruct (read_controls soup) as [c|e|]; [|reflexivity..].
  rewrite !resolved_year_test, !resolved_test.
  fold (resolved_region c region). fold (resolved_type c rtype).
  unfold postback_plan.
  rewrite (when_test _ _ _ (year_fires_test year)).
  rewrite (when_test _ (region_fires c region) _ (fires_test _ _)).
  rewrite (when_test _ (type_fires c rtype) _ (fires_test _ _)).
  destruct (negb (in_list year _)), (negb (in_list (resolved_region c region) _)),
    (negb (in_list (resolved_type c rtype) _)); reflexivity.
Qed.
End PlanFacts.

Lemma world_eq {Server} (w w' : world Server) :
  server w = server w' -> log w = log w' -> w = w'.
Proof. destruct w, w'. simpl. by intros -> ->. Qed.

Section ChainFacts.
Variable Server : Type.
Variable http_get : Server -> response * Server.
Variable http_post : dict -> Server -> response * Server.

Lemma postback_Returns soup target values (w : world Server) page w' :
  postback Server http_post soup target values w = (Returns page, w')
  <-> exists hidden,
        extract_hidden_inputs soup = Returns hidden
        /\ http_post (payload_of hidden target values) (server w)
           = (Response 200 page, server w')
        /\ log w' = log w ++ [POST (payload_of hidden target values)].
Proof.
  unfold postback, and_then, lift, session_post.
  destruct (extract_hidden_inputs soup) as [hidden|e|]; simpl.
  - destruct (http_post _ (server w)) as [r s] eqn:E.
    destruct r as [|status next]; simpl.
    + split; [discriminate|]. intros (h & [= <-] & Hp & _).
      rewrite E in Hp. discriminate.
    + destruct (status =? 200)%Z eqn:Es; simpl.
      * apply Z.eqb_eq in Es as ->. split.
        -- intros [= <- <-]. by exists hidden.
        -- intros (h & [= <-] & Hp & Hl). rewrite E in Hp. injection Hp as <- Hs.
           f_equal. by apply world_eq.
      * apply Z.eqb_neq in Es. split; [discriminate|].
        intros (h & [= <-] & Hp & _). rewrite E in Hp. congruence.
  - split; [discriminate|]. by intros (h & ? & _).
  - split; [discriminate|]. by intros (h & ? & _).
Qed.

Lemma run_plan_chain c plan soup (w : world Server) final w' :
  run_plan http_post c plan soup w = (Returns final, w')
  <-> exists posts,
        chain http_post c soup (server w) plan posts final (server w')
        /\ log w' = log w ++ map POST posts.
Proof.
  revert soup w. induction plan as [|p plan IH]; intros soup w; simpl.
  - unfold ret. split.
    + intros [= <- <-]. exists []. split; [constructor | by rewrite app_nil_r].
    + intros (posts & Hc & Hl). inversion Hc; subst. simpl in Hl.
      rewrite app_nil_r in Hl. f_equal. by apply world_eq.
  - unfold and_then.
    destruct (postback Server http_post soup (trigger p) (planned_values c p) w)
      as [[page|e|] w1] eqn:Ep.
    + apply postback_Returns in Ep as (hidden & Hh & Hp & Hl).
      rewrite IH. split.
      * intros (posts & Hc & Hl'). eexists (_ :: posts). split.
        -- eapply chain_step; eassumption.
        -- rewrite Hl', Hl, <- app_assoc. reflexivity.
      * intros (posts & Hc & Hl'). inversion Hc as [|? ? ? ? h ? ? ps ? ? Hh' Hp' Hc']; subst.
        rewrite Hh in Hh'. injection Hh' as <-. rewrite Hp in Hp'.
        injection Hp' as <- <-. exists ps. split; [done|].
        rewrite Hl'. rewrite Hl, <- app_assoc. reflexivity.
    + split; [discriminate|]. intros (posts & Hc & _).
      inversion Hc as [|? ? ? ? h page s1 ps ? ? Hh' Hp' Hc']; subst.
      assert (Hret : exists w2, postback Server http_post soup (trigger p)
                                  (planned_values c p) w = (Returns page, w2)).
      { exists (mk_world s1 (log w ++ [POST (payload_of h (trigger p) (planned_values c p))])).
        apply postback_Returns. by exists h. }
      destruct Hret as [w2 Hret]. congruence.
    + split; [discriminate|]. intros (posts & Hc & _).
      inversion Hc as [|? ? ? ? h page s1 ps ? ? Hh' Hp' Hc']; subst.
      assert (Hret : exists w2, postback Server http_post soup (trigger p)
                                  (planned_values c p) w = (Returns page, w2)).
      { exists (mk_world s1 (log w ++ [POST (payload_of h (trigger p) (planned_values c p))])).
        apply postback_Returns. by exists h. }
      destruct Hret as [w2 Hret]. congruence.
Qed.

(** X1.  A run returns a page exactly when the first page comes with status
    200 and gives the controls and every planned postback, sent with the
    hidden fields of the page before it, is answered with status 200; the
    page returned is the last one received. *)
Theorem returned_page_is_last_answer year region rtype (w : world Server) final w' :
  get_filtered_soup Server http_get http_post year region rtype w = (Returns final, w')
  <-> exists soup0 s0 c posts,
        http_get (server w) = (Response 200 soup0, s0)
        /\ read_controls soup0 = Returns c
        /\ chain http_post c soup0 s0 (postback_plan c year region rtype) posts final
                 (server w')
        /\ log w' = log w ++ GET :: map POST posts.
Proof.
  rewrite get_filtered_soup_plan.
  destruct (http_get (server w)) as [r0 s0]. cbn [fst snd]. unfold after_get.
  destruct r0 as [|status soup].
  { split; [discriminate|]. by intros (? & ? & ? & ? & ? & _). }
  destruct (status =? 200)%Z eqn:Es; simpl.
  2:{ apply Z.eqb_neq in Es. split; [discriminate|].
      intros (? & ? & ? & ? & [= -> _] & _). done. }
  apply Z.eqb_eq in Es as ->. unfold and_then, lift.
  destruct (read_controls soup) as [c|e|] eqn:Ec.
  - rewrite run_plan_chain. simpl. split.
    + intros (posts & Hc & Hl). exists soup, s0, c, posts.
      rewrite Hl, <- app_assoc. done.
    + intros (soup0 & s & c' & posts & [= <- <-] & Hc' & Hc & Hl).
      rewrite Ec in Hc'. injection Hc' as <-.
      exists posts. split; [done|]. rewrite Hl, <- app_assoc. done.
  - split; [discriminate|].
    intros (soup0 & s & c' & posts & [= <- <-] & Hc' & _). congruence.
  - split; [discriminate|].
    intros (soup0 & s & c' & posts & [= <- <-] & Hc' & _). congruence.
Qed.

Lemma read_controls_raises soup e :
  read_controls soup = Raises e ->
  e ∈ [Exception (SelectMissing YearSelect); Exception (SelectMissing RegionSelect);
       Exception (SelectMissing TypeSelect); Exception NameMissing;
       Exception SelectedMissing].
Proof.
  unfold read_controls.
  repeat match goal with
  | |- context [match ?x with _ => _ end] => destruct x
  end; intros [= <-]; repeat constructor.
Qed.

Lemma read_controls_modelled soup : read_controls soup <> Unmodelled.
Proof.
  unfold read_controls.
  repeat match goal with
  | |- context [match ?x with _ => _ end] => destruct x
  end; discriminate.
Qed.


(** X3.  With nothing to filter the first page is returned as it is, after
    the GET alone; the page need not even have a form. *)
Theorem default_selection_returns_first_page year region rtype (w : world Server)
        soup s c :
  http_get (server w) = (Response 200 soup, s) ->
  read_controls soup = Returns c ->
  is_all year \/ is_now year ->
  is_all region \/ region = default_region_val c ->
  is_all rtype \/ rtype = default_type_val c ->
  get_filtered_soup Server http_get http_post year region rtype w
  = (Returns soup, mk_world s (log w ++ [GET])).
Proof.
  intros Hg Hc Hy Hr Ht. rewrite get_filtered_soup_plan, Hg. simpl.
  unfold and_then, lift. rewrite Hc.
  assert (Hplan : postback_plan c year region rtype = []).
  { unfold postback_plan.
    rewrite !when_false; [done| | |].
    - unfold type_fires, resolved_type. case_decide; [tauto|].
      destruct Ht; [done|]. tauto.
    - unfold region_fires, resolved_region. case_decide; [tauto|].
      destruct Hr; [done|]. tauto.
    - unfold year_fires. tauto. }
  rewrite Hplan. reflexivity.
Qed.

Lemma find_None_weaken (p q : node -> bool) soup :
  (forall n, p n = true -> q n = true) ->
  find q soup = None -> find p soup = None.
Proof.
  unfold find, find_all. intros Hpq Hq.
  destruct (List.filter p (descendants soup)) as [|t ts] eqn:E; [done|].
  assert (Hin : In t (List.filter q (descendants soup))).
  { assert (Ht : In t (t :: ts)) by (by left).
    rewrite <- E in Ht. apply filter_In in Ht as [Ht1 Ht2].
    apply filter_In. split; [done | by apply Hpq]. }
  destruct (List.filter q (descendants soup)); [done | discriminate].
Qed.

Lemma no_form_no_hidden soup :
  find (is_tag (u "form")) soup = None ->
  extract_hidden_inputs soup = Raises (Exception FormMissing).
Proof.
  intros Hn. unfold extract_hidden_inputs. rewrite Hn.
  rewrite (find_None_weaken _ (is_tag (u "form")) soup); [done| |done].
  intros n Hp. by apply andb_true_iff in Hp as [? _].
Qed.

(** X4.  When a postback is due and the first page has no form, the run
    raises before any POST is sent. *)
Theorem postback_needs_a_form year region rtype (w : world Server) soup s c :
  http_get (server w) = (Response 200 soup, s) ->
  read_controls soup = Returns c ->
  postback_plan c year region rtype <> [] ->
  find (is_tag (u "form")) soup = None ->
  get_filtered_soup Server http_get http_post year region rtype w
  = (Raises (Exception FormMissing), mk_world s (log w ++ [GET])).
Proof.
  intros Hg Hc Hplan Hf. rewrite get_filtered_soup_plan, Hg. simpl.
  unfold and_then at 1, lift. rewrite Hc.
  destruct (postback_plan c year region rtype) as [|p plan]; [done|].
  simpl. unfold and_then, postback, lift. unfold and_then.
  by rewrite (no_form_no_hidden soup Hf).
Qed.
End ChainFacts.

(** ** Dicts *)

Lemma assoc_Some_keys {V} k (d : list (pystr * V)) v :
  assoc k d = Some v -> k ∈ keys d.
Proof.
  intros H. destruct (decide (k ∈ keys d)) as [|Hn]; [done|].
  apply assoc_None in Hn. congruence.
Qed.

Lemma find_last_cons {A} (p : A -> bool) x l :
  find_last p (x :: l) =
    match find_last p l with
    | Some y => Some y
    | None => if p x then Some x else None
    end.
Proof.
  unfold find_last. rewrite reverse_cons.
  induction (reverse l) as [|y r IH]; simpl; [done|].
  by destruct (p y).
Qed.

(** After an update the value of a key is the one of its last entry in the
    source, and the old one when the source has none. *)
Lemma assoc_dict_update k (d src : dict) :
  assoc k (dict_update d src) =
    match find_last (fun kv => str_eqb kv.1 k) src with
    | Some kv => Some kv.2
    | None => assoc k d
    end.
Proof.
  unfold dict_update. revert d. induction src as [|[k0 v0] src IH]; intros d.
  - reflexivity.
  - simpl. rewrite IH, find_last_cons. simpl.
    destruct (find_last _ src); [done|].
    rewrite assoc_dict_set. destruct (str_eqb k0 k) eqn:E.
    + apply str_eqb_true in E as ->. by rewrite decide_True.
    + apply str_eqb_false in E. by rewrite decide_False by congruence.
Qed.

Lemma find_last_NoDup_keys k (src : dict) :
  NoDup (keys src) ->
  (fun kv : pystr * pystr => kv.2) <$> find_last (fun kv => str_eqb kv.1 k) src
  = assoc k src.
Proof.
  unfold keys. induction src as [|[k0 v0] src IH]; intros Hnd; [done|].
  apply list.NoDup_cons in Hnd as [Hk0 Hnd]. simpl in Hk0.
  rewrite find_last_cons. simpl. specialize (IH Hnd).
  destruct (str_eqb k k0) eqn:E.
  - apply str_eqb_true in E as ->. rewrite str_eqb_refl.
    apply assoc_None in Hk0. rewrite Hk0 in IH.
    destruct (find_last _ src); [discriminate|done].
  - apply str_eqb_false in E.
    replace (str_eqb k0 k) with false by (symmetry; apply str_eqb_false; congruence).
    destruct (find_last _ src); [done|]. done.
Qed.

(** ** The payload of a postback *)

Lemma fold_hidden_inputs inputs :
  fold_left (fun data inp =>
               match attr (u "name") inp with
               | Some name => dict_set name (attr_or_empty (u "value") inp) data
               | None => data
               end) inputs []
  = dict_update []
      (omap (fun inp => (fun name => (name, attr_or_empty (u "value") inp))
                          <$> attr (u "name") inp) inputs).
Proof.
  unfold dict_update. generalize (@nil (pystr * pystr)).
  induction inputs as [|inp inputs IH]; intros d; simpl; [done|].
  destruct (attr (u "name") inp) as [name|]; simpl; apply IH.
Qed.

Lemma find_last_omap {A B} (f : A -> option B) (p : B -> bool) (q : A -> bool) l :
  (forall a, q a = match f a with Some b => p b | None => false end) ->
  find_last p (omap f l) = find_last q l ≫= f.
Proof.
  intros Hq. induction l as [|a l IH]; [done|].
  rewrite (find_last_cons q).
  change (omap f (a :: l))
    with (match f a with Some b => b :: omap f l | None => omap f l end).
  destruct (f a) as [b|] eqn:E.
  - rewrite find_last_cons, IH, Hq, E.
    destruct (find_last q l) as [a'|] eqn:E'; simpl.
    + destruct (f a') eqn:Ea'; [done|].
      exfalso. unfold find_last in E'. apply find_some in E' as [_ E'].
      rewrite Hq, Ea' in E'. discriminate.
    + destruct (p b); simpl; [by rewrite E | done].
  - rewrite IH, Hq, E. by destruct (find_last q l).
Qed.

(** X5.  The hidden fields read from a page are those of its main form: the
    keys are the names of the form's hidden inputs, each once, and the
    value of a key is the value of the last hidden input of that name,
    empty when it has no value. *)
Theorem hidden_fields_of_main_form soup hidden :
  extract_hidden_inputs soup = Returns hidden ->
  exists form,
    main_form soup = Some form
    /\ NoDup (keys hidden)
    /\ forall k,
         assoc k hidden
         = attr_or_empty (u "value")
             <$> find_last (attr_is (u "name") k) (hidden_inputs form).
Proof.
  unfold extract_hidden_inputs. fold (main_form soup).
  destruct (main_form soup) as [form|]; [|discriminate].
  fold (hidden_inputs form). rewrite fold_hidden_inputs. intros [= <-].
  exists form. split; [done|]. split.
  - apply NoDup_keys_dict_update. constructor.
  - intros k. rewrite assoc_dict_update.
    rewrite (find_last_omap _ _ (attr_is (u "name") k)).
    + destruct (find_last _ (hidden_inputs form)) as [inp|] eqn:E; simpl; [|done].
      unfold find_last in E. apply find_some in E as [_ E].
      unfold attr_is in E. destruct (attr (u "name") inp); [done|discriminate].
    + intros inp. unfold attr_is. by destruct (attr (u "name") inp).
Qed.

(** X6.  A payload names its postback target and an empty argument, keeps
    every key once, holds the submitted values under their keys, and hands
    back unchanged every hidden field that is neither a submitted key nor
    one of the two postback fields. *)
Theorem payload_echoes_hidden_fields hidden target values :
  NoDup (keys hidden) -> NoDup (keys values) ->
  let payload := payload_of hidden target values in
  NoDup (keys payload)
  /\ assoc EVENTTARGET payload = Some target
  /\ assoc EVENTARGUMENT payload = Some []
  /\ forall k, k <> EVENTTARGET -> k <> EVENTARGUMENT ->
       assoc k payload
       = match assoc k values with Some v => Some v | None => assoc k hidden end.
Proof.
  intros Hh Hv. cbv zeta. unfold payload_of. split; [|split; [|split]].
  - by apply NoDup_keys_dict_set, NoDup_keys_dict_set, NoDup_keys_dict_update.
  - rewrite !assoc_dict_set.
    rewrite decide_False by (vm_compute; discriminate). by rewrite decide_True.
  - rewrite assoc_dict_set. by rewrite decide_True.
  - intros k H1 H2. rewrite !assoc_dict_set, !decide_False by done.
    rewrite assoc_dict_update, <- (find_last_NoDup_keys k values Hv).
    by destruct (find_last _ values).
Qed.

(** ** Well-formed frames *)

Lemma for_each_length {A B} (f : A -> result B) l out :
  for_each f l = Returns out -> length out = length l.
Proof. intros H. apply for_each_Returns, Forall2_length in H. done. Qed.

Lemma for_each_total {A B} (f : A -> result B) l :
  Forall (fun a => exists b, f a = Returns b) l ->
  exists out, for_each f l = Returns out.
Proof.
  induction 1 as [|a l [b Hb] _ [out IH]]; simpl.
  - by exists [].
  - rewrite Hb. simpl. rewrite IH. by eexists.
Qed.

Lemma well_formed_set_column l v df :
  well_formed df -> length v = nrows df -> well_formed (set_column l v df).
Proof.
  intros [Hlen Hnd] Hv. split.
  - rewrite nrows_set_column. unfold set_column.
    destruct (in_list l (columns df)); simpl.
    + apply Forall_forall. intros [k c] Hin. apply in_map_iff in Hin as ([k0 c0] & Hkc & Hin).
      rewrite Forall_forall in Hlen. specialize (Hlen _ Hin). simpl in *.
      destruct (str_eqb k0 l); by injection Hkc as <- <-.
    + apply Forall_app. split; [done|]. by constructor.
  - rewrite columns_set_column. destruct (in_list l (columns df)) eqn:E; [done|].
    apply in_list_false in E. apply list.NoDup_app. split; [done|]. split.
    + intros x Hx. rewrite list_elem_of_singleton. by intros ->.
    + apply NoDup_singleton.
Qed.

Lemma length_text_column k data n :
  Forall (fun row : list pystr => length row = n) data -> k < n ->
  length (text_column k data) = length data.
Proof.
  intros Hrows Hk. unfold text_column. induction Hrows as [|row data Hrow _ IH]; [done|].
  cbn [omap list_omap]. destruct (row !! k) eqn:E; simpl; [f_equal; exact IH|].
  apply lookup_ge_None in E. lia.
Qed.

Lemma well_formed_from_rows hs data :
  NoDup hs -> Forall (fun row : list pystr => length row = length hs) data ->
  well_formed (from_rows hs data).
Proof.
  intros Hnd Hrows. split; [|by rewrite columns_from_rows].
  unfold from_rows. simpl. apply Forall_forall. intros [l c] Hin.
  apply list_elem_of_In, list_elem_of_lookup in Hin as [k Hk].
  rewrite list_lookup_imap in Hk.
  destruct (hs !! k) as [h|] eqn:E; [|discriminate]. injection Hk as <- <-.
  simpl. eapply length_text_column; [done|]. by eapply lookup_lt_Some.
Qed.

Lemma iterrows_length df : length (iterrows df) = nrows df.
Proof. unfold iterrows. by rewrite length_map, length_seq. Qed.

Lemma iterrows_lookup df i r :
  iterrows df !! i = Some r ->
  i < nrows df
  /\ r = omap (fun '(l, c) => (fun v => (l, v)) <$> c !! i) (cols df).
Proof.
  unfold iterrows. intros H.
  change (map ?f ?l) with (f <$> l) in H.
  rewrite list_lookup_fmap in H.
  destruct (seq 0 (nrows df) !! i) as [j|] eqn:E; [|discriminate].
  apply lookup_seq in E as [-> Hlt]. simpl in H. by injection H as <-.
Qed.

Lemma assoc_row label i (cs : list (pystr * list value)) n :
  Forall (fun lc : pystr * list value => length lc.2 = n) cs -> i < n ->
  assoc label (omap (fun '(l, c) => (fun v => (l, v)) <$> c !! i) cs)
  = assoc label cs ≫= (fun col => col !! i).
Proof.
  intros Hlen Hi. induction Hlen as [|[l c] cs Hc _ IH]; [done|].
  simpl in Hc. destruct (lookup_lt_is_Some_2 c i) as [v Hv]; [lia|].
  cbn [omap list_omap]. rewrite Hv. simpl.
  destruct (str_eqb label l); [done | apply IH].
Qed.

Lemma row_get_cell_text label df i r :
  well_formed df ->
  Forall (fun lc : pystr * list value => Forall (fun v => exists s, v = VStr s) lc.2)
         (cols df) ->
  iterrows df !! i = Some r ->
  as_str (row_get label (VStr []) r) = Returns (cell_text label i df).
Proof.
  intros [Hlen _] Hstr Hr. apply iterrows_lookup in Hr as [Hi ->].
  unfold row_get, cell_text. rewrite (assoc_row label i (cols df) (nrows df)) by done.
  destruct (assoc label (cols df)) as [col|] eqn:E; simpl; [|done].
  destruct (col !! i) as [v|] eqn:Ev; simpl; [|done].
  assert (Hin : In (label, col) (cols df)).
  { clear -E. induction (cols df) as [|[l c] cs IH]; [done|]. simpl in E.
    destruct (str_eqb label l) eqn:El.
    - apply str_eqb_true in El as ->. injection E as ->. by left.
    - right. by apply IH. }
  rewrite Forall_forall in Hstr. specialize (Hstr _ Hin). simpl in Hstr.
  rewrite Forall_forall in Hstr.
  destruct (Hstr v) as [s ->]; [by eapply list_elem_of_In, list_elem_of_lookup_2|].
  done.
Qed.

Lemma all_text_set_column l v df :
  all_text df -> Forall (fun x => exists s, x = VStr s) v ->
  all_text (set_column l v df).
Proof.
  unfold all_text. intros Hdf Hv. unfold set_column.
  destruct (in_list l (columns df)); simpl.
  - apply Forall_forall. intros [k c] Hin.
    apply in_map_iff in Hin as ([k0 c0] & Hkc & Hin).
    rewrite Forall_forall in Hdf. specialize (Hdf _ Hin). simpl in *.
    destruct (str_eqb k0 l); by injection Hkc as <- <-.
  - apply Forall_app. split; [done|]. by constructor.
Qed.

Lemma all_text_from_rows hs data : all_text (from_rows hs data).
Proof.
  unfold all_text, from_rows. simpl. apply Forall_forall. intros [l c] Hin.
  apply list_elem_of_In, list_elem_of_lookup in Hin as [k Hk].
  rewrite list_lookup_imap in Hk.
  destruct (hs !! k) as [h|]; [|discriminate]. injection Hk as <- <-. simpl.
  unfold text_column. apply Forall_forall. intros v Hv.
  apply list_elem_of_In, list_elem_of_omap in Hv as (row & _ & Hv).
  destruct (row !! k) as [s|]; [|discriminate]. injection Hv as <-. by exists s.
Qed.

Lemma Forall_map_VStr (l : list pystr) :
  Forall (fun v => exists s, v = VStr s) (map VStr l).
Proof. apply Forall_forall. intros v Hv. apply in_map_iff in Hv as (s & <- & _). by exists s. Qed.

Section BuildFacts.
Variable td : codepoint -> option Z.
Variable urljoin : pystr -> pystr -> result pystr.
Variable now : Z.

Lemma extract_table_lengths table e :
  extract_table urljoin table = Returns (Some e) ->
  length (headers e) = length (valid_indices e)
  /\ Forall (fun row : list pystr => length row = length (headers e)) (data e)
  /\ length (event_links e) = length (data e)
  /\ length (data e)
     = length (List.filter row_kept (drop 1 (find_all (is_tag (u "tr")) table))).
Proof.
  intros He.
  destruct (extract_table_Some urljoin table e He)
    as (header_row & Hf & Hraw & Hvalid & Hhs & Hev & Hdata).
  assert (Hlen : length (headers e) = length (valid_indices e)).
  { pose proof (headers_of_raw (raw_headers e)) as H.
    rewrite <- Hvalid, <- Hhs in H. apply for_each_length in H. done. }
  split; [done|]. split; [|split].
  - rewrite Hlen. clear -Hdata. induction Hdata as [|row texts rows data Hrt _ IH];
      constructor; [|done]. by apply Forall2_length in Hrt.
  - unfold extract_table in He.
    destruct (find (is_tag (u "tr")) table); [|discriminate].
    rewrite headers_of_raw in He. simpl in He.
    destruct (negb (in_list EVENT_NAME _)); [discriminate|].
    apply bind_Returns in He as (idx & _ & He).
    apply bind_Returns in He as (scanned & _ & [= <-]). simpl.
    by rewrite !length_map.
  - by apply Forall2_length in Hdata.
Qed.

Lemma well_formed_with_links table e :
  extract_table urljoin table = Returns (Some e) -> NoDup (headers e) ->
  well_formed (with_links e) /\ all_text (with_links e)
  /\ nrows (with_links e) = length (data e).
Proof.
  intros He Hnd. destruct (extract_table_lengths table e He) as (_ & Hrows & Hl & _).
  unfold with_links. split; [|split].
  - apply well_formed_set_column; [by apply well_formed_from_rows|].
    by rewrite length_map.
  - apply all_text_set_column; [apply all_text_from_rows | apply Forall_map_VStr].
  - by rewrite nrows_set_column.
Qed.

Lemma row_date_cell_text df i r :
  well_formed df -> all_text df -> iterrows df !! i = Some r ->
  row_date td now r
  = d ← parse_event_date td now (cell_text EVENT_NAME i df) (cell_text DATE i df);
    Returns (date_cell d).
Proof.
  intros Hwf Htext Hr. unfold row_date.
  rewrite (row_get_cell_text EVENT_NAME df i r), (row_get_cell_text DATE df i r) by done.
  reflexivity.
Qed.

(** What a frame that was built is made of. *)
Lemma build_frame_steps e df :
  build_frame td now e = Returns df ->
  NoDup (headers e)
  /\ exists parsed,
       for_each (row_date td now) (iterrows (with_links e)) = Returns parsed
       /\ ((LOCATION ∈ columns (with_links_and_dates e parsed)
            /\ exists links embeds,
                 apply_str make_maps_link
                   (column LOCATION (with_links_and_dates e parsed)) = Returns links
                 /\ apply_str make_maps_embed
                      (column LOCATION (with_links_and_dates e parsed)) = Returns embeds
                 /\ df = set_column LOCATION_EMBED embeds
                           (set_column LOCATION_LINK links
                              (with_links_and_dates e parsed)))
           \/ ((LOCATION ∉ columns (with_links_and_dates e parsed))
               /\ df = set_column_scalar LOCATION_EMBED (VStr [])
                         (set_column_scalar LOCATION_LINK (VStr [])
                            (with_links_and_dates e parsed)))).
Proof.
  unfold build_frame.
  destruct (bool_decide (NoDup (headers e))) eqn:End; [|discriminate].
  apply bool_decide_eq_true in End. simpl. intros H.
  split; [done|].
  apply bind_Returns in H as (parsed & Hp & H).
  exists parsed. split; [exact Hp|].
  fold (with_links_and_dates e parsed) in H.
  destruct (in_list LOCATION (columns (with_links_and_dates e parsed))) eqn:Ein.
  - left. apply in_list_true in Ein. split; [done|].
    apply bind_Returns in H as (links & Hl & H).
    apply bind_Returns in H as (embeds & He & [= <-]).
    rewrite column_set_column in He by (vm_compute; discriminate).
    by exists links, embeds.
  - right. apply in_list_false in Ein. split; [done|]. by injection H.
Qed.

Lemma apply_str_length f series out :
  apply_str f series = Returns out -> length out = length series.
Proof. apply for_each_length. Qed.

Lemma column_length l df :
  well_formed df -> l ∈ columns df -> length (column l df) = nrows df.
Proof.
  intros [Hlen _] Hin. unfold column.
  destruct (assoc l (cols df)) as [c|] eqn:E.
  - simpl. assert (Hc : In (l, c) (cols df)).
    { clear -E. induction (cols df) as [|[k c0] cs IH]; [done|]. simpl in E.
      destruct (str_eqb l k) eqn:El.
      - apply str_eqb_true in El as ->. injection E as ->. by left.
      - right. by apply IH. }
    rewrite Forall_forall in Hlen. by apply (Hlen _ Hc).
  - apply assoc_None in E. done.
Qed.

Lemma build_frame_well_formed table e df :
  extract_table urljoin table = Returns (Some e) ->
  build_frame td now e = Returns df ->
  well_formed df /\ nrows df = length (data e)
  /\ forall l, l ∈ columns df <-> l ∈ headers e \/ l ∈ DERIVED.
Proof.
  intros He Hdf.
  destruct (build_frame_steps e df Hdf) as (Hnd & parsed & Hp & Hcases).
  destruct (well_formed_with_links table e He Hnd) as (Hwf1 & _ & Hn1).
  fold (with_links e) in Hwf1.
  assert (Hwf2 : well_formed (with_links_and_dates e parsed)).
  { apply (well_formed_set_column PARSED_DATE parsed (with_links e)); [done|].
    apply for_each_length in Hp. by rewrite Hp, iterrows_length. }
  assert (Hn2 : nrows (with_links_and_dates e parsed) = length (data e)).
  { unfold with_links_and_dates. by rewrite !nrows_set_column. }
  assert (Hc2 : forall l, l ∈ columns (with_links_and_dates e parsed)
                  <-> l ∈ headers e \/ l = EVENT_LINK \/ l = PARSED_DATE).
  { intros l. unfold with_links_and_dates.
    rewrite !elem_of_columns_set_column, columns_from_rows. tauto. }
  destruct Hcases as [(Hloc & links & embeds & Hl & Hem & ->)|(Hloc & ->)].
  - apply apply_str_length in Hl, Hem.
    rewrite column_length in Hl, Hem by done.
    split; [|split].
    + apply well_formed_set_column; [by apply well_formed_set_column|].
      by rewrite nrows_set_column.
    + by rewrite !nrows_set_column.
    + intros l. rewrite !elem_of_columns_set_column, Hc2. unfold DERIVED.
      rewrite !elem_of_cons, elem_of_nil. tauto.
  - unfold set_column_scalar. split; [|split].
    + apply well_formed_set_column; [apply well_formed_set_column; [done|]|].
      * by rewrite length_replicate.
      * by rewrite length_replicate.
    + by rewrite !nrows_set_column.
    + intros l. rewrite !elem_of_columns_set_column, Hc2. unfold DERIVED.
      rewrite !elem_of_cons, elem_of_nil. tauto.
Qed.
End BuildFacts.

Lemma parse_table_to_df_cases td urljoin now soup df :
  parse_table_to_df td urljoin now soup = Returns df ->
  df = empty_frame
  \/ exists table e,
       locate_table soup = Some table
       /\ extract_table urljoin table = Returns (Some e)
       /\ build_frame td now e = Returns df.
Proof.
  unfold parse_table_to_df. intros H.
  destruct (locate_table soup) as [table|]; [|left; by injection H].
  apply bind_Returns in H as ([e|] & He & H); [|left; by injection H].
  right. by exists table, e.
Qed.

Lemma well_formed_empty_frame : well_formed empty_frame.
Proof. split; constructor. Qed.


(** X8.  In every row of the record set returned, the parsed date is what
    [parse_event_date] gives for the text of the row under 賽事名稱 and the
    text under 日期, the empty text when the table has no such column. *)
Theorem parsed_date_column td urljoin now soup df i :
  parse_table_to_df td urljoin now soup = Returns df ->
  i < nrows df ->
  exists d,
    parse_event_date td now (cell_text EVENT_NAME i df) (cell_text DATE i df) = Returns d
    /\ column PARSED_DATE df !! i = Some (date_cell d).
Proof.
  intros H Hi. destruct (parse_table_to_df_cases _ _ _ _ _ H)
    as [->|(table & e & Hl & He & Hdf)]; [simpl in Hi; lia|].
  destruct (build_frame_well_formed td urljoin now table e df He Hdf) as (_ & Hn & _).
  destruct (build_frame_steps td now e df Hdf) as (Hnd & parsed & Hp & Hcases).
  destruct (well_formed_with_links urljoin table e He Hnd) as (Hwf1 & Htext1 & Hn1).
  assert (Hsame : forall label, label <> PARSED_DATE -> label <> LOCATION_LINK ->
            label <> LOCATION_EMBED ->
            cell_text label i df = cell_text label i (with_links e)
            /\ column PARSED_DATE df = parsed).
  { intros label H1 H2 H3. unfold cell_text, column.
    destruct Hcases as [(_ & links & embeds & _ & _ & ->)|(_ & ->)];
      unfold set_column_scalar;
      change (with_links_and_dates e parsed)
        with (set_column PARSED_DATE parsed (with_links e));
      rewrite !assoc_set_column;
      rewrite !(decide_False (P := label = _)) by done;
      rewrite !(decide_False (P := PARSED_DATE = LOCATION_EMBED)) by (vm_compute; discriminate);
      rewrite !(decide_False (P := PARSED_DATE = LOCATION_LINK)) by (vm_compute; discriminate);
      rewrite !decide_True by done; done. }
  destruct (Hsame EVENT_NAME) as [-> Hparsed]; [vm_compute; discriminate..|].
  destruct (Hsame DATE) as [-> _]; [vm_compute; discriminate..|].
  rewrite Hparsed.
  apply for_each_Returns in Hp.
  destruct (lookup_lt_is_Some_2 (iterrows (with_links e)) i) as [r Hr].
  { rewrite iterrows_length, Hn1. lia. }
  destruct (Forall2_lookup_l _ _ _ _ _ Hp Hr) as (v & Hv & Hrd).
  rewrite (row_date_cell_text td now (with_links e) i r) in Hrd by done.
  apply bind_Returns in Hrd as (d & Hd & [= <-]).
  by exists d.
Qed.

Lemma utf8_encode_char_scalar c :
  scalar c -> exists bs, utf8_encode_char c = Returns bs.
Proof.
  unfold scalar, utf8_encode_char. intros Hc.
  destruct (c <? 128)%N; [by eexists|].
  destruct (c <? 2048)%N; [by eexists|].
  destruct (c <? 65536)%N eqn:E3.
  - destruct ((55296 <=? c) && (c <=? 57343))%N eqn:Es; [|by eexists].
    apply andb_true_iff in Es as [H1 H2].
    apply N.leb_le in H1, H2. lia.
  - destruct (c <? 1114112)%N eqn:E4; [by eexists|].
    apply N.ltb_ge in E3, E4. lia.
Qed.

Lemma quote_scalar s : Forall scalar s -> exists q, quote s = Returns q.
Proof.
  intros Hs. unfold quote, utf8_encode.
  destruct (for_each_total utf8_encode_char s) as [bs Hbs].
  { eapply List.Forall_impl; [|exact Hs]. apply utf8_encode_char_scalar. }
  rewrite Hbs. simpl. by eexists.
Qed.

Lemma list_index_total x l :
  x ∈ l -> exists i, list_index x l = Returns i /\ l !! i = Some x.
Proof.
  induction l as [|y l IH]; intros Hin; [by apply elem_of_nil in Hin|].
  simpl. destruct (str_eqb y x) eqn:E.
  - apply str_eqb_true in E as ->. by exists 0.
  - apply str_eqb_false in E. apply elem_of_cons in Hin as [->|Hin]; [done|].
    destruct (IH Hin) as (i & -> & Hi). by exists (S i).
Qed.

Section TotalFacts.
Variable td : codepoint -> option Z.
Variable urljoin : pystr -> pystr -> result pystr.
Variable now : Z.
Hypothesis urljoin_returns : forall base href, exists url, urljoin base href = Returns url.

Lemma event_link_total cell : exists link, event_link urljoin cell = Returns link.
Proof using urljoin_returns.
  unfold event_link. destruct (find _ cell) as [a|]; [|by eexists].
  destruct (startswith _ _); [by eexists | apply urljoin_returns].
Qed.

Lemma scan_row_total valid event_idx row n :
  Forall (fun i => i < n) valid -> event_idx < length valid ->
  (row_kept row = true -> n <= length (row_texts row)) ->
  exists r, scan_row urljoin valid event_idx row = Returns r.
Proof using urljoin_returns.
  intros Hvalid Hidx Hlen.
  destruct (row_kept row) eqn:Ek; [|exists None; by apply scan_row_skipped].
  specialize (Hlen eq_refl).
  unfold row_kept in Ek. apply andb_true_iff in Ek as [E1 E2].
  apply negb_true_iff in E1, E2. unfold scan_row. rewrite E1, E2.
  destruct (for_each_total (getitem (row_texts row)) valid) as [texts Ht].
  { eapply List.Forall_impl; [|exact Hvalid]. intros i Hi. simpl in Hi.
    destruct (lookup_lt_is_Some_2 (row_texts row) i) as [t Hti]; [lia|].
    exists t. by apply getitem_Returns. }
  rewrite Ht. simpl.
  destruct (lookup_lt_is_Some_2 valid event_idx Hidx) as [i Hi].
  rewrite (proj2 (getitem_Returns valid event_idx i) Hi). simpl.
  assert (Hin : i < n).
  { rewrite Forall_forall in Hvalid. apply Hvalid.
    by eapply list_elem_of_In, list_elem_of_lookup_2. }
  destruct (lookup_lt_is_Some_2 (find_all (is_tag (u "td")) row) i) as [cell Hc].
  { unfold row_texts in Hlen. rewrite length_map in Hlen. lia. }
  rewrite (proj2 (getitem_Returns _ i cell) Hc). simpl.
  destruct (event_link_total cell) as [link ->]. simpl. by eexists.
Qed.

Lemma kept_indices_bound raw : Forall (fun i => i < length raw) (kept_indices raw).
Proof.
  apply Forall_forall. intros i Hi.
  apply list_elem_of_In in Hi. rewrite kept_indices_from, elem_of_kept_from in Hi.
  destruct Hi as (h & _ & Hh & _). rewrite Nat.sub_0_r in Hh.
  by eapply lookup_lt_Some.
Qed.

Lemma extract_table_total table header_row :
  find (is_tag (u "tr")) table = Some header_row ->
  Forall (fun row => row_kept row = true ->
                     length (header_texts header_row) <= length (row_texts row))
         (drop 1 (find_all (is_tag (u "tr")) table)) ->
  exists x, extract_table urljoin table = Returns x.
Proof using urljoin_returns.
  intros Hf Hrows. unfold extract_table. rewrite Hf, headers_of_raw. simpl.
  set (raw := header_texts header_row) in *.
  destruct (in_list EVENT_NAME (List.filter not_blank raw)) eqn:Ein; [|by eexists].
  apply in_list_true in Ein. simpl.
  destruct (list_index_total _ _ Ein) as (idx & -> & Hidx). simpl.
  assert (Hlen : length (List.filter not_blank raw) = length (kept_indices raw)).
  { pose proof (headers_of_raw raw) as H. by apply for_each_length in H. }
  destruct (for_each_total (scan_row urljoin (kept_indices raw) idx)
              (drop 1 (find_all (is_tag (u "tr")) table))) as [scanned ->].
  { eapply List.Forall_impl; [|exact Hrows]. intros row Hrow. simpl in Hrow.
    apply (scan_row_total _ _ _ (length raw)); [apply kept_indices_bound| |done].
    rewrite <- Hlen. by eapply lookup_lt_Some. }
  simpl. by eexists.
Qed.

Lemma data_texts table e :
  extract_table urljoin table = Returns (Some e) ->
  forall texts t, texts ∈ data e -> t ∈ texts ->
    exists row, row ∈ drop 1 (find_all (is_tag (u "tr")) table) /\ t ∈ row_texts row.
Proof.
  intros He texts t Htexts Ht.
  destruct (extract_table_Some urljoin table e He) as (_ & _ & _ & _ & _ & _ & Hdata).
  apply list_elem_of_lookup in Htexts as [j Hj].
  destruct (Forall2_lookup_r _ _ _ _ _ Hdata Hj) as (row & Hrow & Hrt).
  exists row. split.
  - apply list_elem_of_lookup_2 in Hrow. apply list_elem_of_In, filter_In in Hrow as [Hrow _].
    by apply list_elem_of_In.
  - apply list_elem_of_lookup in Ht as [k Hk].
    destruct (Forall2_lookup_r _ _ _ _ _ Hrt Hk) as (i & _ & Hi).
    by eapply list_elem_of_lookup_2.
Qed.

Lemma build_frame_total table e :
  extract_table urljoin table = Returns (Some e) ->
  NoDup (headers e) ->
  Forall (fun row => Forall (Forall scalar) (row_texts row))
         (drop 1 (find_all (is_tag (u "tr")) table)) ->
  exists df, build_frame td now e = Returns df.
Proof.
  intros He Hnd Hscalar. unfold build_frame.
  rewrite (bool_decide_eq_true_2 _ Hnd). simpl.
  fold (with_links e).
  destruct (well_formed_with_links urljoin table e He Hnd) as (Hwf1 & Htext1 & Hn1).
  destruct (for_each_total (row_date td now) (iterrows (with_links e))) as [parsed Hp].
  { apply Forall_forall. intros r Hr.
    apply list_elem_of_In, list_elem_of_lookup in Hr as [i Hi].
    rewrite (row_date_cell_text td now (with_links e) i r) by done.
    destruct (parse_event_date_returns td now (cell_text EVENT_NAME i (with_links e))
                (cell_text DATE i (with_links e))) as [d ->].
    simpl. eexists. reflexivity. }
  rewrite Hp. cbn [mbind result_bind].
  change (set_column PARSED_DATE parsed (with_links e))
    with (with_links_and_dates e parsed).
  destruct (in_list LOCATION (columns (with_links_and_dates e parsed))) eqn:Ein;
    [|eexists; reflexivity].
  apply in_list_true in Ein.
  assert (Hcol : Forall (fun v => exists s, v = VStr s /\ Forall scalar s)
                        (column LOCATION (with_links_and_dates e parsed))).
  { unfold with_links_and_dates in *.
    rewrite !elem_of_columns_set_column, columns_from_rows in Ein.
    destruct Ein as [Hc|[Hc|Hin]]; [exfalso; revert Hc; vm_compute; discriminate..|].
    apply list_elem_of_lookup in Hin as [k Hk].
    unfold column. rewrite !assoc_set_column.
    rewrite !decide_False by (vm_compute; discriminate).
    rewrite (assoc_from_rows _ _ k LOCATION Hnd Hk). simpl.
    apply Forall_forall. intros v Hv. unfold text_column in Hv.
    apply list_elem_of_In, list_elem_of_omap in Hv as (texts & Htexts & Hv).
    destruct (texts !! k) as [t|] eqn:Et; [|discriminate]. injection Hv as <-.
    exists t. split; [done|].
    destruct (data_texts table e He texts t Htexts) as (row & Hrow & Ht);
      [by eapply list_elem_of_lookup_2|].
    rewrite Forall_forall in Hscalar. apply list_elem_of_In, Hscalar in Hrow.
    rewrite Forall_forall in Hrow. by apply Hrow, list_elem_of_In. }
  assert (Happly : forall f : pystr -> result pystr,
            (forall s, Forall scalar s -> exists t, f s = Returns t) ->
            exists out, apply_str f (column LOCATION (with_links_and_dates e parsed))
                        = Returns out).
  { intros f Hfs. apply for_each_total.
    eapply List.Forall_impl; [|exact Hcol]. intros v (s & -> & Hs). simpl.
    destruct (Hfs s Hs) as [t ->]. simpl. by eexists. }
  destruct (Happly make_maps_link) as [links ->].
  { intros s Hs. unfold make_maps_link. destruct (quote_scalar s Hs) as [q ->].
    simpl. by eexists. }
  cbn [mbind result_bind]. rewrite column_set_column by (vm_compute; discriminate).
  destruct (Happly make_maps_embed) as [embeds ->].
  { intros s Hs. unfold make_maps_embed. destruct (quote_scalar s Hs) as [q ->].
    simpl. by eexists. }
  eexists. reflexivity.
Qed.

End TotalFacts.

Lemma list_index_first x l i :
  list_index x l = Returns i ->
  l !! i = Some x /\ forall j, j < i -> l !! j <> Some x.
Proof.
  revert i. induction l as [|y l IH]; intros i; simpl; [discriminate|].
  destruct (str_eqb y x) eqn:E.
  - apply str_eqb_true in E as ->. intros [= <-]. split; [done | lia].
  - apply str_eqb_false in E. intros H.
    destruct (list_index x l) as [i'| |]; try discriminate. injection H as <-.
    destruct (IH i' eq_refl) as [Hi Hfirst]. split; [done|].
    intros [|j] Hj; simpl; [congruence | apply Hfirst; lia].
Qed.

Lemma sorted_lookup_lt (l : list nat) a b x y :
  StronglySorted lt l -> l !! a = Some x -> l !! b = Some y -> a < b -> x < y.
Proof.
  intros Hs. revert a b. induction Hs as [|z l Hs IH Hz]; intros a b Ha Hb Hab.
  - done.
  - destruct b as [|b]; [lia|]. destruct a as [|a]; simpl in *.
    + injection Ha as <-. rewrite Forall_forall in Hz. apply Hz.
      by eapply list_elem_of_In, list_elem_of_lookup_2.
    + apply (IH a b); [done..|lia].
Qed.

Section LinkFacts.
Variable td : codepoint -> option Z.
Variable urljoin : pystr -> pystr -> result pystr.
Variable now : Z.

Lemma scan_row_link valid event_idx row texts link :
  scan_row urljoin valid event_idx row = Returns (Some (texts, link)) ->
  exists i cell,
    valid !! event_idx = Some i
    /\ find_all (is_tag (u "td")) row !! i = Some cell
    /\ event_link urljoin cell = Returns link.
Proof.
  unfold scan_row.
  destruct (is_empty _); [discriminate|].
  destruct (forallb _ _); [discriminate|]. intros H.
  apply bind_Returns in H as (ts & _ & H).
  apply bind_Returns in H as (i & Hi & H).
  apply bind_Returns in H as (cell & Hc & H).
  apply bind_Returns in H as (l & Hl & [= _ <-]).
  exists i, cell. by rewrite <- !getitem_Returns.
Qed.

Lemma scanned_links valid event_idx rows scanned :
  Forall2 (fun row r => scan_row urljoin valid event_idx row = Returns r) rows scanned ->
  Forall2 (fun row link =>
             exists i cell,
               valid !! event_idx = Some i
               /\ find_all (is_tag (u "td")) row !! i = Some cell
               /\ event_link urljoin cell = Returns link)
          (List.filter row_kept rows) (map snd (omap id scanned)).
Proof.
  induction 1 as [|row r rows scanned Hr _ IH]; simpl; [constructor|].
  destruct (row_kept row) eqn:E.
  - destruct (scan_row_kept _ _ _ _ _ E Hr) as (texts & link & -> & _).
    simpl. constructor; [|done]. by eapply scan_row_link.
  - rewrite scan_row_skipped in Hr by done. injection Hr as <-. exact IH.
Qed.

Lemma extract_table_links table e :
  extract_table urljoin table = Returns (Some e) ->
  exists header_row i,
    find (is_tag (u "tr")) table = Some header_row
    /\ header_texts header_row !! i = Some EVENT_NAME
    /\ (forall j, j < i -> header_texts header_row !! j <> Some EVENT_NAME)
    /\ Forall2 (fun row link =>
                  exists cell, find_all (is_tag (u "td")) row !! i = Some cell
                               /\ event_link urljoin cell = Returns link)
               (List.filter row_kept (drop 1 (find_all (is_tag (u "tr")) table)))
               (event_links e).
Proof.
  unfold extract_table.
  destruct (find (is_tag (u "tr")) table) as [header_row|]; [|discriminate].
  rewrite headers_of_raw. simpl.
  set (raw := header_texts header_row).
  destruct (in_list EVENT_NAME (List.filter not_blank raw)); [|discriminate].
  simpl. intros H.
  apply bind_Returns in H as (k & Hk & H).
  apply bind_Returns in H as (scanned & Hs & [= <-]). simpl.
  apply list_index_first in Hk as [Hk Hfirst].
  pose proof (headers_of_raw raw) as Hhs. apply for_each_getitem in Hhs.
  destruct (Forall2_lookup_r _ _ _ _ _ Hhs Hk) as (i & Hi & Hraw).
  exists header_row, i. split; [done|]. split; [done|]. split.
  - intros j Hj Hrawj.
    assert (Hjv : j ∈ kept_indices raw).
    { rewrite kept_indices_from. apply elem_of_kept_from.
      exists EVENT_NAME. rewrite Nat.sub_0_r. split; [lia|]. split; [done|].
      unfold blank. vm_compute. discriminate. }
    apply list_elem_of_lookup in Hjv as [k' Hk'].
    assert (Hlt : k' < k).
    { destruct (decide (k' < k)) as [|Hge]; [done|]. exfalso.
      destruct (decide (k' = k)) as [->|Hne]; [rewrite Hi in Hk'; injection Hk'; lia|].
      assert (i < j); [|lia].
      eapply (sorted_lookup_lt (kept_indices raw) k k').
      - rewrite kept_indices_from. apply kept_from_sorted.
      - done.
      - done.
      - lia. }
    destruct (Forall2_lookup_l _ _ _ _ _ Hhs Hk') as (h & Hh & Hrawh).
    apply (Hfirst k' Hlt). unfold raw in *. congruence.
  - apply for_each_Returns in Hs. apply scanned_links in Hs.
    eapply Forall2_impl; [|exact Hs]. intros row link (i' & cell & Hi' & Hc & Hl).
    rewrite Hi in Hi'. injection Hi' as <-. by exists cell.
Qed.

(** X10.  The link of a record is read in the row's cell under the first
    header cell labelled 賽事名稱: it is empty when that cell holds no
    anchor with an href, the href as it is when it starts with http, and
    the href resolved against the base page otherwise.  The links fill the
    column 賽事連結, one for each row kept. *)
Theorem event_link_column soup df :
  parse_table_to_df td urljoin now soup = Returns df ->
  (df = empty_frame
   \/ exists table header_row i links,
        locate_table soup = Some table
        /\ find (is_tag (u "tr")) table = Some header_row
        /\ header_texts header_row !! i = Some EVENT_NAME
        /\ (forall j, j < i -> header_texts header_row !! j <> Some EVENT_NAME)
        /\ column EVENT_LINK df = map VStr links
        /\ Forall2 (fun row link =>
                      exists cell, find_all (is_tag (u "td")) row !! i = Some cell
                                   /\ event_link urljoin cell = Returns link)
                   (List.filter row_kept (drop 1 (find_all (is_tag (u "tr")) table)))
                   links)
  /\ (forall cell, find anchor cell = None -> event_link urljoin cell = Returns [])
  /\ (forall cell a,
        find anchor cell = Some a ->
        event_link urljoin cell
        = if startswith (u "http") (attr_or_empty (u "href") a)
          then Returns (attr_or_empty (u "href") a)
          else urljoin BASE_URL (attr_or_empty (u "href") a)).
Proof.
  intros H. split; [|split].
  - destruct (parse_table_to_df_cases _ _ _ _ _ H)
      as [->|(table & e & Hl & He & Hdf)]; [by left|right].
    destruct (extract_table_links table e He) as (header_row & i & Hf & Hi & Hfirst & Hlinks).
    exists table, header_row, i, (event_links e).
    repeat (split; [done|]). split; [|done].
    destruct (build_frame_steps td now e df Hdf) as (_ & parsed & _ & Hcases).
    unfold column.
    destruct Hcases as [(_ & links & embeds & _ & _ & ->)|(_ & ->)];
      unfold set_column_scalar, with_links_and_dates;
      rewrite !assoc_set_column;
      rewrite !(decide_False (P := EVENT_LINK = _)) by (vm_compute; discriminate);
      by rewrite decide_True.
  - intros cell Hc. unfold event_link. fold anchor.
    change (fun n => is_tag (u "a") n && has_attr (u "href") n) with anchor.
    by rewrite Hc.
  - intros cell a Hc. unfold event_link.
    change (fun n => is_tag (u "a") n && has_attr (u "href") n) with anchor.
    by rewrite Hc.
Qed.
End LinkFacts.

Ltac div_lia := zify; Z.to_euclidean_division_equations; lia.

Lemma utf8_encode_char_bytes c bs :
  utf8_encode_char c = Returns bs -> Forall (fun b => (b < 256)%N) bs.
Proof.
  unfold utf8_encode_char.
  destruct (c <? 128)%N eqn:E1.
  { intros [= <-]. apply N.ltb_lt in E1. repeat constructor. lia. }
  destruct (c <? 2048)%N eqn:E2.
  { intros [= <-]. apply N.ltb_lt in E2. repeat constructor; div_lia. }
  destruct (c <? 65536)%N eqn:E3.
  { destruct (_ && _); [discriminate|]. intros [= <-]. apply N.ltb_lt in E3.
    repeat constructor; div_lia. }
  destruct (c <? 1114112)%N eqn:E4; [|discriminate].
  intros [= <-]. apply N.ltb_lt in E4. repeat constructor; div_lia.
Qed.

Lemma utf8_decode_encode_char c bs rest :
  utf8_encode_char c = Returns bs ->
  utf8_decode (bs ++ rest) = c :: utf8_decode rest.
Proof.
  unfold utf8_encode_char.
  destruct (c <? 128)%N eqn:E1.
  { intros [= <-]. simpl. by rewrite E1. }
  apply N.ltb_ge in E1.
  destruct (c <? 2048)%N eqn:E2.
  { intros [= <-]. apply N.ltb_lt in E2. cbn [app utf8_decode].
    replace (192 + c / 64 <? 128)%N with false by (symmetry; apply N.ltb_ge; div_lia).
    replace (192 + c / 64 <? 224)%N with true by (symmetry; apply N.ltb_lt; div_lia).
    f_equal. div_lia. }
  apply N.ltb_ge in E2.
  destruct (c <? 65536)%N eqn:E3.
  { destruct (_ && _); [discriminate|]. intros [= <-]. apply N.ltb_lt in E3.
    cbn [app utf8_decode].
    replace (224 + c / 4096 <? 128)%N with false by (symmetry; apply N.ltb_ge; div_lia).
    replace (224 + c / 4096 <? 224)%N with false by (symmetry; apply N.ltb_ge; div_lia).
    replace (224 + c / 4096 <? 240)%N with true by (symmetry; apply N.ltb_lt; div_lia).
    f_equal. div_lia. }
  apply N.ltb_ge in E3.
  destruct (c <? 1114112)%N eqn:E4; [|discriminate].
  intros [= <-]. apply N.ltb_lt in E4. cbn [app utf8_decode].
  replace (240 + c / 262144 <? 128)%N with false by (symmetry; apply N.ltb_ge; div_lia).
  replace (240 + c / 262144 <? 224)%N with false by (symmetry; apply N.ltb_ge; div_lia).
  replace (240 + c / 262144 <? 240)%N with false by (symmetry; apply N.ltb_ge; div_lia).
  f_equal. div_lia.
Qed.

Lemma utf8_decode_encode s bs :
  utf8_encode s = Returns bs -> Forall (fun b => (b < 256)%N) bs /\ utf8_decode bs = s.
Proof.
  unfold utf8_encode. intros H. apply bind_Returns in H as (bss & Hbss & [= <-]).
  apply for_each_Returns in Hbss.
  induction Hbss as [|c bs s bss Hc _ [IH1 IH2]]; simpl.
  - split; [constructor | done].
  - split.
    + apply Forall_app. split; [by eapply utf8_encode_char_bytes | done].
    + rewrite (utf8_decode_encode_char c bs _ Hc). by rewrite IH2.
Qed.

Lemma hex_value_digit n : (n < 16)%N -> hex_value (hex_digit n) = n.
Proof.
  intros Hn. unfold hex_value, hex_digit.
  destruct (n <? 10)%N eqn:E.
  - apply N.ltb_lt in E. replace (48 + n <? 58)%N with true by (symmetry; apply N.ltb_lt; lia).
    lia.
  - apply N.ltb_ge in E. replace (55 + n <? 58)%N with false by (symmetry; apply N.ltb_ge; lia).
    lia.
Qed.

Lemma unquote_quote_byte b rest :
  (b < 256)%N -> unquote (quote_byte b ++ rest) = b :: unquote rest.
Proof.
  intros Hb. unfold quote_byte. destruct (quote_safe b) eqn:E.
  - simpl. destruct (b =? 37)%N eqn:E37; [|done].
    apply N.eqb_eq in E37 as ->. discriminate.
  - unfold percent. cbn [app unquote]. rewrite N.eqb_refl.
    rewrite !hex_value_digit by div_lia. f_equal. div_lia.
Qed.

Lemma unquote_quote_bytes bs :
  Forall (fun b => (b < 256)%N) bs -> unquote (flat_map quote_byte bs) = bs.
Proof.
  induction 1 as [|b bs Hb _ IH]; [done|].
  simpl. by rewrite unquote_quote_byte, IH.
Qed.

Lemma quoted_char_quote_byte b :
  (b < 256)%N -> Forall (fun c => quoted_char c = true) (quote_byte b).
Proof.
  intros Hb. unfold quote_byte. destruct (quote_safe b) eqn:E.
  - constructor; [|constructor]. unfold quoted_char. by rewrite E.
  - assert (Hhex : forall n, (n < 16)%N -> quoted_char (hex_digit n) = true).
    { intros n Hn. unfold quoted_char.
      destruct n as [|p]; [reflexivity|].
      do 4 (destruct p as [p|p|]; try reflexivity); lia. }
    unfold percent. constructor; [reflexivity|].
    constructor; [apply Hhex; div_lia|]. constructor; [apply Hhex; div_lia|].
    constructor.
Qed.

Lemma quote_safe_and_back s q :
  quote s = Returns q ->
  Forall (fun c => quoted_char c = true) q /\ utf8_decode (unquote q) = s.
Proof.
  unfold quote. intros H. apply bind_Returns in H as (bs & Hbs & [= <-]).
  apply utf8_decode_encode in Hbs as [Hbytes Hdec]. split.
  - clear Hdec. induction Hbytes as [|b bs Hb _ IH]; simpl; [constructor|].
    apply Forall_app. split; [by apply quoted_char_quote_byte | done].
  - by rewrite unquote_quote_bytes.
Qed.

Lemma make_maps_link_inv addr link :
  make_maps_link addr = Returns link <->
  exists q, quote addr = Returns q /\ link = MAPS_SEARCH ++ q.
Proof.
  unfold make_maps_link. rewrite bind_Returns. split.
  - intros (q & Hq & [= <-]). by exists q.
  - intros (q & Hq & ->). by exists q.
Qed.

Lemma make_maps_embed_inv addr link :
  make_maps_embed addr = Returns link <->
  exists q, quote addr = Returns q /\ link = MAPS_EMBED ++ q ++ OUTPUT_EMBED.
Proof.
  unfold make_maps_embed. rewrite bind_Returns. split.
  - intros (q & Hq & [= <-]). by exists q.
  - intros (q & Hq & ->). by exists q.
Qed.

(** X11.  A map link and an embed link are made of letters, digits and the
    characters [_.-~/%:?=&] alone, so they hold no space, quote or angle
    bracket whatever the address.  The address is read back from a map
    link by unquoting and decoding what follows the template, and two
    addresses with the same link are the same address. *)
Theorem maps_links_are_safe_and_distinct addr link :
  make_maps_link addr = Returns link \/ make_maps_embed addr = Returns link ->
  Forall (fun c => link_char c = true) link
  /\ Forall (fun c => c ∉ [32; 34; 39; 60; 62]%N) link
  /\ (make_maps_link addr = Returns link ->
      utf8_decode (unquote (drop (length MAPS_SEARCH) link)) = addr)
  /\ forall addr',
       make_maps_link addr' = Returns link \/ make_maps_embed addr' = Returns link ->
       addr' = addr.
Proof.
  intros H.
  assert (Hquoted : forall q, Forall (fun c => quoted_char c = true) q ->
                               Forall (fun c => link_char c = true) q).
  { intros q. apply List.Forall_impl. intros c Hc. unfold link_char. by rewrite Hc. }
  assert (Hchars : Forall (fun c => link_char c = true) link).
  { destruct H as [H|H].
    - apply make_maps_link_inv in H as (q & Hq & ->).
      apply Forall_app. split; [by vm_compute; repeat constructor|].
      apply Hquoted. by apply quote_safe_and_back in Hq as [? _].
    - apply make_maps_embed_inv in H as (q & Hq & ->).
      rewrite !Forall_app. split; [by vm_compute; repeat constructor|]. split.
      + apply Hquoted. by apply quote_safe_and_back in Hq as [? _].
      + by vm_compute; repeat constructor. }
  split; [done|]. split; [|split].
  - eapply List.Forall_impl; [|exact Hchars]. intros c Hc.
    rewrite !not_elem_of_cons. repeat split; try (intros ->; discriminate).
    apply not_elem_of_nil.
  - intros Hl. apply make_maps_link_inv in Hl as (q & Hq & ->).
    rewrite drop_app_length. by apply quote_safe_and_back in Hq as [_ ?].
  - intros addr' H'.
    assert (Hq : forall a l, make_maps_link a = Returns l \/ make_maps_embed a = Returns l ->
               exists q, quote a = Returns q
                 /\ (l = MAPS_SEARCH ++ q \/ l = MAPS_EMBED ++ q ++ OUTPUT_EMBED)).
    { intros a l [Ha|Ha].
      - apply make_maps_link_inv in Ha as (q & ? & ?). exists q. tauto.
      - apply make_maps_embed_inv in Ha as (q & ? & ?). exists q. tauto. }
    destruct (Hq _ _ H) as (q & Hquote & Hl), (Hq _ _ H') as (q' & Hquote' & Hl').
    assert (q' = q); [|subst q'].
    { destruct Hl as [->| ->], Hl' as [Hl'|Hl'].
      - by apply app_inv_head in Hl'.
      - exfalso. vm_compute in Hl'. discriminate.
      - exfalso. vm_compute in Hl'. discriminate.
      - apply app_inv_head in Hl'. by apply app_inv_tail in Hl'. }
    apply quote_safe_and_back in Hquote as [_ <-], Hquote' as [_ <-]. done.
Qed.

(** ** Dates *)

Lemma match_month_day_take td s :
  match_month_day td s = match_month_day td (take 5 s).
Proof.
  unfold match_month_day, one_or_two_digits.
  destruct s as [|a [|b [|c [|d [|e s]]]]]; try reflexivity.
  change (take 5 (a :: b :: c :: d :: e :: s)) with [a; b; c; d; e].
  cbv beta iota.
  destruct (is_decimal td a); [|reflexivity].
  destruct (is_decimal td b); cbn [flat_map app];
    destruct (is_decimal td c); destruct (is_decimal td d); destruct (is_decimal td e);
    destruct (b =? 47)%N; destruct (c =? 47)%N; reflexivity.
Qed.

(** X12.  Only the first five characters of the date cell are read: what
    follows them, a weekday or the last day of an event of several days,
    changes nothing. *)
Theorem date_suffix_is_ignored td now name date rest :
  5 <= length date ->
  parse_event_date td now name (date ++ rest) = parse_event_date td now name date.
Proof.
  intros Hlen. unfold parse_event_date.
  rewrite (match_month_day_take td (date ++ rest)), (match_month_day_take td date).
  by rewrite take_app_le.
Qed.

Lemma py_int_ascii td s :
  ascii_faithful td -> forallb (fun c => c <? 128)%N s = true ->
  py_int td s = py_int ascii_decimal s.
Proof.
  intros Hf. unfold py_int. generalize (Returns 0%Z : result Z).
  induction s as [|c s IH]; intros acc Hs; [done|].
  simpl in Hs. apply andb_true_iff in Hs as [Hc Hs]. apply N.ltb_lt in Hc.
  simpl. rewrite (Hf c Hc). by apply IH.
Qed.

Lemma match_month_day_ext td td' s :
  (forall c, c ∈ take 5 s -> is_decimal td' c = is_decimal td c) ->
  match_month_day td' s = match_month_day td s.
Proof.
  intros Hd. unfold match_month_day, one_or_two_digits.
  destruct s as [|a [|b [|c [|d [|e s]]]]];
    change (take 5 (a :: b :: c :: d :: e :: s)) with [a; b; c; d; e] in Hd || simpl in Hd;
    try reflexivity;
    repeat (cbv beta iota; cbn [flat_map app map];
            first [ rewrite Hd by (repeat constructor) | case_match ]);
    reflexivity.
Qed.

Lemma match_month_day_ascii td s :
  ascii_faithful td -> forallb (fun c => c <? 128)%N (take 5 s) = true ->
  match_month_day td s = match_month_day ascii_decimal s.
Proof.
  intros Hf Hs. apply match_month_day_ext. intros c Hc.
  rewrite forallb_forall in Hs. unfold is_decimal.
  rewrite (Hf c); [done|]. by apply N.ltb_lt, Hs, list_elem_of_In.
Qed.

(** X13.  The date cell 2/29 gives the 29th of February of the event's year
    when that year is a leap year, and null when it is not. *)
Theorem leap_day td now name y :
  ascii_faithful td ->
  event_year td now name = Returns y ->
  (1 <= y <= 9999)%Z ->
  parse_event_date td now name (u "2/29")
  = Returns (if decide (leap_year y) then Some (mk_datetime y 2 29) else None).
Proof.
  intros Hf Hy Hrange.
  assert (Hm : match_month_day td (u "2/29") = Some (u "2", u "29")).
  { rewrite match_month_day_ascii by done. vm_compute. reflexivity. }
  rewrite (parse_event_date_unfold td now name (u "2/29") y (u "2") (u "29") 2 29 Hy Hm);
    [|rewrite py_int_ascii by done; vm_compute; reflexivity..].
  assert (Hiff : calendar_date y 2 29 <-> leap_year y).
  { unfold calendar_date, month_days. rewrite (decide_True (P := (2 = 2)%Z)) by done.
    destruct (decide (leap_year y)); split; intros; try done; lia. }
  destruct (decide (calendar_date y 2 29)), (decide (leap_year y)); tauto || done.
Qed.

(** ** The keyword filter, for any pattern *)

Section KeywordAny.
Variable Cell : Type.
Variable astype_str : Cell -> pystr.
Variable re_compile : pystr -> option (pystr -> bool).

Lemma filter_sublist {A} (f : A -> bool) (l : list A) : List.filter f l `sublist_of` l.
Proof.
  induction l as [|x l IH]; simpl; [constructor|].
  destruct (f x); [by apply sublist_skip | by apply sublist_cons].
Qed.

(** X14.  Whatever a pattern means, the filter keeps the rows in which the
    compiled keyword is found in the text of some column, in their order,
    and changes no row; a keyword the pattern compiler rejects raises as
    soon as there is a row to test; a blank keyword filters nothing. *)
Theorem keyword_filter_by_pattern keyword df :
  (strip keyword = [] ->
   keyword_filter Cell astype_str re_compile keyword df = Returns df)
  /\ (forall search,
        strip keyword <> [] -> re_compile keyword = Some search ->
        keyword_filter Cell astype_str re_compile keyword df
        = Returns (List.filter (fun r => existsb search (map astype_str r)) df))
  /\ (strip keyword <> [] -> re_compile keyword = None -> df <> [] ->
      keyword_filter Cell astype_str re_compile keyword df = Raises ReError)
  /\ (forall out,
        keyword_filter Cell astype_str re_compile keyword df = Returns out ->
        out `sublist_of` df).
Proof.
  assert (Hblank : strip keyword = [] ->
            keyword_filter Cell astype_str re_compile keyword df = Returns df).
  { intros Hk. unfold keyword_filter. by rewrite Hk. }
  assert (Hsome : forall search,
            strip keyword <> [] -> re_compile keyword = Some search ->
            keyword_filter Cell astype_str re_compile keyword df
            = Returns (List.filter (fun r => existsb search (map astype_str r)) df)).
  { intros search Hk Hc. unfold keyword_filter.
    replace (str_eqb (strip keyword) []) with false
      by (symmetry; by apply str_eqb_false).
    simpl.
    assert (Hmask : for_each (row_mask Cell astype_str re_compile keyword) df
              = Returns (map (fun r => existsb search (map astype_str r)) df)).
    { apply for_each_Returns. apply Forall2_fmap_r, Forall_Forall2_diag, Forall_forall.
      intros r _. unfold row_mask, str_contains. rewrite Hc. simpl.
      f_equal. clear. induction (map astype_str r) as [|t ts IH]; simpl; [done|].
      by rewrite IH. }
    rewrite Hmask. simpl. by rewrite select_rows_filter. }
  assert (Hrow : re_compile keyword = None ->
            forall r, row_mask Cell astype_str re_compile keyword r = Raises ReError).
  { intros Hc r. unfold row_mask, str_contains. by rewrite Hc. }
  split; [done|]. split; [done|]. split.
  - intros Hk Hc Hdf. specialize (Hrow Hc). unfold keyword_filter.
    replace (str_eqb (strip keyword) []) with false
      by (symmetry; by apply str_eqb_false).
    simpl. destruct df as [|r df]; [done|].
    simpl. by rewrite Hrow.
  - intros out Hout. destruct (decide (strip keyword = [])) as [Hk|Hk].
    + rewrite Hblank in Hout by done. by injection Hout as <-.
    + destruct (re_compile keyword) as [search|] eqn:Hc.
      * rewrite (Hsome search) in Hout by done. injection Hout as <-.
        apply filter_sublist.
      * destruct df as [|r df].
        -- unfold keyword_filter in Hout.
           replace (str_eqb (strip keyword) []) with false in Hout
             by (symmetry; by apply str_eqb_false).
           simpl in Hout. by injection Hout as <-.
        -- unfold keyword_filter in Hout.
           replace (str_eqb (strip keyword) []) with false in Hout
             by (symmetry; by apply str_eqb_false).
           simpl in Hout. rewrite Hrow in Hout by done. discriminate.
Qed.
End KeywordAny.

(** ** The file name *)

Lemma elem_of_join x sep parts :
  x ∈ join sep parts -> x ∈ sep \/ exists p, p ∈ parts /\ x ∈ p.
Proof.
  induction parts as [|p parts IH]; simpl; [by intros ?%elem_of_nil|].
  destruct parts as [|p' parts].
  - intros Hx. right. exists p. split; [apply list_elem_of_here | done].
  - rewrite !elem_of_app. intros [Hx|[Hx|Hx]].
    + right. exists p. split; [apply list_elem_of_here | done].
    + by left.
    + destruct (IH Hx) as [?|(q & Hq & ?)]; [by left|].
      right. exists q. split; [by apply list_elem_of_further | done].
Qed.

(** X15.  When the year, the region and the type hold no space, the file
    name holds none, whatever the keyword. *)
Theorem pdf_filename_has_no_space year region rtype keyword :
  32%N ∉ year -> 32%N ∉ region -> 32%N ∉ rtype ->
  32%N ∉ pdf_filename year region rtype keyword.
Proof.
  intros Hy Hr Ht. unfold pdf_filename.
  assert (Hlit : forall s : pystr, forallb (fun c => negb (c =? 32)%N) s = true -> 32%N ∉ s).
  { intros s Hs Hin. rewrite forallb_forall in Hs.
    apply list_elem_of_In, Hs in Hin. discriminate. }
  assert (Hkw : 32%N ∉ replace_space (strip keyword)).
  { unfold replace_space. intros Hkw.
    apply list_elem_of_In, in_map_iff in Hkw as (c & Hc & _).
    destruct (c =? 32)%N eqn:E; [discriminate|]. apply N.eqb_neq in E. congruence. }
  assert (Hyear : 32%N ∉ (if negb (in_list year [u "now"; u "all"]) then year
                          else u "allYears")).
  { destruct (negb _); [done|]. by apply Hlit. }
  rewrite elem_of_app. intros [Hin|Hin]; [|by apply (Hlit (u ".pdf"))].
  apply elem_of_join in Hin as [Hin|(p & Hp & Hin)]; [by apply (Hlit (u "_"))|].
  destruct (negb (str_eqb (strip keyword) [])).
  - destruct (replace_space (strip keyword)) as [|k ks] eqn:Ek; cbn [negb is_empty] in Hp.
    + rewrite !elem_of_cons, elem_of_nil in Hp.
      destruct Hp as [->|[->|[->|[]]]]; done.
    + rewrite elem_of_app, !elem_of_cons, !elem_of_nil in Hp.
      destruct Hp as [[->|[->|[->|[]]]]|[->|[]]]; done.
  - cbn [negb is_empty] in Hp. rewrite !elem_of_cons, elem_of_nil in Hp.
    destruct Hp as [->|[->|[->|[]]]]; done.
Qed.

(** ** The map preview *)

Lemma find_last_zip_key sel (addrs embeds : list pystr) :
  length addrs = length embeds -> sel ∈ addrs ->
  exists kv, find_last (fun kv : pystr * pystr => str_eqb kv.1 sel) (zip addrs embeds)
             = Some kv
             /\ kv ∈ zip addrs embeds /\ kv.1 = sel.
Proof.
  intros Hlen Hsel.
  destruct (find_last _ (zip addrs embeds)) as [kv|] eqn:E.
  - exists kv. split; [done|]. unfold find_last in E.
    apply find_some in E as [Hin Hk]. apply str_eqb_true in Hk. split; [|done].
    by apply elem_of_reverse, list_elem_of_In.
  - exfalso. unfold find_last in E.
    apply list_elem_of_lookup in Hsel as [i Hi].
    destruct (lookup_lt_is_Some_2 embeds i) as [e He].
    { rewrite <- Hlen. by eapply lookup_lt_Some. }
    assert (Hin : (sel, e) ∈ zip addrs embeds).
    { apply list_elem_of_lookup. exists i. by rewrite lookup_zip_with, Hi, He. }
    apply elem_of_reverse, list_elem_of_In in Hin.
    apply (find_none _ _ E) in Hin. simpl in Hin. by rewrite str_eqb_refl in Hin.
Qed.

(** X16.  When every row holds the embed link of its address, the preview of
    an address of the table shows the frame with the embed link of that
    address, also when the address comes in several rows; the warning is
    never shown. *)
Theorem preview_shows_the_embed_link addrs embeds sel_addr :
  Forall2 (fun a e => make_maps_embed a = Returns e) addrs embeds ->
  sel_addr ∈ addrs ->
  exists url, make_maps_embed sel_addr = Returns url
              /\ preview addrs embeds sel_addr = Some url.
Proof.
  intros Hrows Hsel.
  destruct (find_last_zip_key sel_addr addrs embeds) as ([a e] & Hlast & Hin & Ha);
    [by eapply Forall2_length | done |].
  simpl in Ha. subst a.
  assert (He : make_maps_embed sel_addr = Returns e).
  { apply list_elem_of_lookup in Hin as [i Hi].
    rewrite lookup_zip_with in Hi.
    destruct (addrs !! i) as [a|] eqn:Ea; [|discriminate]. simpl in Hi.
    destruct (embeds !! i) as [e'|] eqn:Ee; [|discriminate]. injection Hi as -> ->.
    by destruct (Forall2_lookup_l _ _ _ _ _ Hrows Ea) as (e' & Hee & He'); simplify_eq. }
  exists e. split; [done|].
  unfold preview, location_to_embed, dict_of. rewrite assoc_dict_update, Hlast.
  cbn [default snd].
  apply make_maps_embed_inv in He as (q & _ & ->).
  assert (Hne : is_empty (MAPS_EMBED ++ q ++ OUTPUT_EMBED) = false).
  { apply not_true_is_false. rewrite is_empty_true. intros H.
    apply app_eq_nil in H as [H _]. revert H. vm_compute. discriminate. }
  unfold id. by rewrite Hne.
Qed.

(** ** The further properties on examples *)

Lemma returned_page_is_last_answer_witness :
  let w' := (get_filtered_soup nat site_get site_post (u "2024") (u "北") (u "2")
               (mk_world 0 [])).2 in
  exists soup0 s0 c posts,
    site_get 0 = (Response 200 soup0, s0)
    /\ read_controls soup0 = Returns c
    /\ chain site_post c soup0 s0 (postback_plan c (u "2024") (u "北") (u "2")) posts
             page_form (server w')
    /\ log w' = [] ++ GET :: map POST posts.
Proof.
  apply (proj1 (returned_page_is_last_answer nat site_get site_post (u "2024") (u "北")
                  (u "2") (mk_world 0 []) page_form _)).
  vm_compute. reflexivity.
Defined.


Lemma default_selection_returns_first_page_witness :
  get_filtered_soup nat site_get site_post (u "now") (u "all") (u "public") (mk_world 0 [])
  = (Returns page_form, mk_world 1 [GET]).
Proof.
  apply (default_selection_returns_first_page nat site_get site_post (u "now") (u "all")
           (u "public") (mk_world 0 []) page_form 1
           (mk_controls (u "ctl00$Year") (u "ctl00$DropDownList1") (u "ctl00$type")
                        (u "2025") (u "all") (u "public"))).
  - reflexivity.
  - vm_compute. reflexivity.
  - right. reflexivity.
  - left. reflexivity.
  - right. vm_compute. reflexivity.
Defined.

Lemma postback_needs_a_form_witness :
  get_filtered_soup nat (site_answers (Response 200 page_no_form)) site_post
    (u "2024") (u "all") (u "all") (mk_world 0 [])
  = (Raises (Exception FormMissing), mk_world 1 [GET]).
Proof.
  apply (postback_needs_a_form nat (site_answers (Response 200 page_no_form)) site_post
           (u "2024") (u "all") (u "all") (mk_world 0 []) page_no_form 1
           (mk_controls (u "ctl00$Year") (u "ctl00$DropDownList1") (u "ctl00$type")
                        (u "2025") (u "all") (u "public"))).
  - reflexivity.
  - vm_compute. reflexivity.
  - vm_compute. discriminate.
  - vm_compute. reflexivity.
Defined.

Lemma hidden_fields_of_main_form_witness :
  exists form,
    main_form page_form = Some form
    /\ NoDup (keys [(u "__VIEWSTATE", u "dDwtMTA4")])
    /\ forall k,
         assoc k [(u "__VIEWSTATE", u "dDwtMTA4")]
         = attr_or_empty (u "value")
             <$> find_last (attr_is (u "name") k) (hidden_inputs form).
Proof.
  apply (hidden_fields_of_main_form page_form). vm_compute. reflexivity.
Defined.

Lemma payload_echoes_hidden_fields_witness :
  let payload := payload_of [(u "__VIEWSTATE", u "dDwtMTA4")] (u "ctl00$Year")
                   [(u "ctl00$Year", u "2024")] in
  NoDup (keys payload)
  /\ assoc EVENTTARGET payload = Some (u "ctl00$Year")
  /\ assoc EVENTARGUMENT payload = Some []
  /\ forall k, k <> EVENTTARGET -> k <> EVENTARGUMENT ->
       assoc k payload
       = match assoc k [(u "ctl00$Year", u "2024")] with
         | Some v => Some v
         | None => assoc k [(u "__VIEWSTATE", u "dDwtMTA4")]
         end.
Proof.
  apply (payload_echoes_hidden_fields [(u "__VIEWSTATE", u "dDwtMTA4")] (u "ctl00$Year")
           [(u "ctl00$Year", u "2024")]).
  - apply NoDup_singleton.
  - apply NoDup_singleton.
Defined.


Lemma parsed_date_column_witness :
  exists df d,
    parse_table_to_df ascii_decimal example_urljoin 2025 page_events = Returns df
    /\ parse_event_date ascii_decimal 2025 (cell_text EVENT_NAME 0 df) (cell_text DATE 0 df)
       = Returns d
    /\ column PARSED_DATE df !! 0 = Some (date_cell d).
Proof.
  eexists. 
  match goal with
  | |- exists d, parse_table_to_df _ _ _ _ = Returns ?df /\ _ =>
    assert (Hdf : parse_table_to_df ascii_decimal example_urljoin 2025 page_events
                  = Returns df) by (vm_compute; reflexivity);
    destruct (parsed_date_column ascii_decimal example_urljoin 2025 page_events df 0 Hdf)
      as (d & Hd & Hcol); [vm_compute; lia|];
    exists d; split; [exact Hdf | split; [exact Hd | exact Hcol]]
  end.
Defined.


Lemma event_link_column_witness :
  exists df,
    parse_table_to_df ascii_decimal example_urljoin 2025 page_events = Returns df
    /\ column EVENT_LINK df
       = [VStr (u "http://www.taipeimarathon.org.tw/race.aspx?id=1"); VStr []].
Proof.
  eexists. split; [vm_compute; reflexivity|].
  match goal with
  | |- column _ ?df = _ =>
    destruct (event_link_column ascii_decimal example_urljoin 2025 page_events df)
      as (_ & _ & _); [vm_compute; reflexivity|]
  end.
  vm_compute. reflexivity.
Defined.

Lemma maps_links_are_safe_and_distinct_witness :
  exists link,
    make_maps_link (u "台北市政府") = Returns link
    /\ Forall (fun c => c ∉ [32; 34; 39; 60; 62]%N) link
    /\ utf8_decode (unquote (drop (length MAPS_SEARCH) link)) = u "台北市政府".
Proof.
  eexists. split; [vm_compute; reflexivity|].
  match goal with
  | |- Forall _ ?link /\ _ =>
    destruct (maps_links_are_safe_and_distinct (u "台北市政府") link)
      as (_ & Hsafe & Hback & _); [left; vm_compute; reflexivity|];
    split; [exact Hsafe | apply Hback; vm_compute; reflexivity]
  end.
Defined.

Lemma date_suffix_is_ignored_witness :
  parse_event_date ascii_decimal 2025 (u "2024 台北馬拉松") (u "12/15" ++ u "(日)")
  = parse_event_date ascii_decimal 2025 (u "2024 台北馬拉松") (u "12/15").
Proof.
  apply (date_suffix_is_ignored ascii_decimal 2025 (u "2024 台北馬拉松") (u "12/15")
           (u "(日)")).
  vm_compute. lia.
Defined.

Lemma leap_day_witness :
  parse_event_date ascii_decimal 2025 (u "2024 台北馬拉松") (u "2/29")
  = Returns (if decide (leap_year 2024) then Some (mk_datetime 2024 2 29) else None).
Proof.
  apply (leap_day ascii_decimal 2025 (u "2024 台北馬拉松") 2024 ascii_decimal_faithful).
  - vm_compute. reflexivity.
  - lia.
Defined.

Lemma keyword_filter_by_pattern_witness :
  keyword_filter pystr id literal_only_compile (u "台(南")
    [[u "府城路跑"; u "台南市"]; [u "台北馬拉松"; u "台北市"]]
  = Raises ReError.
Proof.
  apply (proj1 (proj2 (proj2 (keyword_filter_by_pattern pystr id literal_only_compile
                                (u "台(南") _)))).
  - vm_compute. discriminate.
  - vm_compute. reflexivity.
  - discriminate.
Defined.

Lemma pdf_filename_has_no_space_witness :
  32%N ∉ pdf_filename (u "2024") (u "北") (u "2") (u " 路跑 開放 ").
Proof.
  apply pdf_filename_has_no_space; apply (bool_decide_unpack _); vm_compute; reflexivity.
Defined.

Lemma preview_shows_the_embed_link_witness :
  exists url,
    make_maps_embed (u "台南") = Returns url
    /\ preview [u "台南"; u "台北市政府"; u "台南"]
               (map embed_or_empty [u "台南"; u "台北市政府"; u "台南"]) (u "台南")
       = Some url.
Proof.
  apply preview_shows_the_embed_link.
  - repeat (constructor; [vm_compute; reflexivity|]). constructor.
  - constructor.
Defined.
